(** * WordpressScan: a shallow embedding of the scanner

    The development follows [WordPressScanner] of [scanner.py] method
    by method ([__init__], [is_wordpress], [check_plugin],
    [get_plugin_cves], [load_common_plugins], [enumerate_plugins]),
    then the handler [start_scan] of [app.py] that runs them, and
    [build_list] of [plugin_builder.py] that writes the list the
    scanner reads.

    Conventions of the embedding.
    - Python [str] is [string]; every character is a code point below
      256, and the character classes of [re] and [str.strip] are the
      ones Python has on that range.
    - A Python [dict] with a fixed set of keys is a record; decoded JSON
      is a [pyval].
    - The network, the environment and the file system are inputs: an
      oracle answers every request from the requests sent so far.
    - Exceptions are values of [exn]; a method runs in the monad [M],
      whose state survives a raise, as the fields of a Python object
      and of its local dictionaries do. *)

From Stdlib Require Import String Ascii List ZArith NArith Bool Lia Arith.
From Stdlib Require Import DecimalString.
From Stdlib Require DecimalPos DecimalN.
From Corelib Require Import SpecFloat.
Import ListNotations.

Local Open Scope string_scope.
#[local] Set Warnings "-register-all".
Local Open Scope list_scope.

(** ** Characters and strings *)

Module Str.

(** The double quote and the apostrophe, by code. *)
Definition dquote : ascii := ascii_of_nat 34.
Definition squote : ascii := ascii_of_nat 39.

Definition code (c : ascii) : nat := nat_of_ascii c.

Definition in_range (lo hi : nat) (c : ascii) : bool :=
  (lo <=? code c)%nat && (code c <=? hi)%nat.

Definition is_digit (c : ascii) : bool := in_range 48 57 c.
Definition is_upper (c : ascii) : bool := in_range 65 90 c.
Definition is_lower (c : ascii) : bool := in_range 97 122 c.

(** [str.isspace] on one character below 256. *)
Definition is_space (c : ascii) : bool :=
  in_range 9 13 c || in_range 28 32 c
  || (code c =? 133)%nat || (code c =? 160)%nat.

(** Lower case of an ASCII letter; every other character below 256 that
    a case-insensitive ASCII literal could meet is left alone. *)
Definition lower (c : ascii) : ascii :=
  if is_upper c then ascii_of_nat (code c + 32) else c.

Definition eq_nocase (a b : ascii) : bool := Ascii.eqb (lower a) (lower b).

(** [sub in s]. *)
Fixpoint contains (sub s : string) : bool :=
  String.prefix sub s
  || match s with
     | String _ s' => contains sub s'
     | EmptyString => false
     end.

Definition has_char (c : ascii) (s : string) : bool :=
  contains (String c EmptyString) s.

Fixpoint lstrip_with (f : ascii -> bool) (s : string) : string :=
  match s with
  | String c s' => if f c then lstrip_with f s' else s
  | EmptyString => EmptyString
  end.

Fixpoint rstrip_with (f : ascii -> bool) (s : string) : string :=
  match s with
  | EmptyString => EmptyString
  | String c s' =>
      match rstrip_with f s' with
      | EmptyString => if f c then EmptyString else String c EmptyString
      | t => String c t
      end
  end.

(** [s.strip()] and [s.rstrip('/')]. *)
Definition strip (s : string) : string :=
  lstrip_with is_space (rstrip_with is_space s).

Definition rstrip_slash (s : string) : string :=
  rstrip_with (Ascii.eqb "/"%char) s.

Definition nonempty (s : string) : bool :=
  match s with EmptyString => false | String _ _ => true end.

(** Strict order of [str]: lexicographic on code points. *)
Fixpoint ltb (a b : string) : bool :=
  match a, b with
  | EmptyString, EmptyString => false
  | EmptyString, String _ _ => true
  | String _ _, EmptyString => false
  | String x a', String y b' =>
      if (code x <? code y)%nat then true
      else if (code y <? code x)%nat then false
      else ltb a' b'
  end.

End Str.

(** ** The fragment of [re] the scanner uses

    Each pattern of [scanner.py] is a sequence of character sets, each
    taken once, [*] or [+] (greedy), with one capturing group.  The
    matcher backtracks as [re] does: a greedy item first takes as much
    as it can and gives characters back while the rest fails. *)

Module Re.

Inductive quantifier : Type := Once | Star | Plus.

Record item : Type := mk_item {
  accepts : ascii -> bool;
  quant : quantifier;
  captured : bool
}.

Definition pattern : Type := list item.

(** A match: the text of group 1 and the input left after the match. *)
Definition result : Type := (string * string)%type.

Definition keep (cap : bool) (c : ascii) (r : result) : result :=
  (if cap then String c (fst r) else fst r, snd r).

Definition one (it : item) (k : string -> option result) (s : string)
  : option result :=
  match s with
  | String c s' =>
      if accepts it c then option_map (keep (captured it) c) (k s') else None
  | EmptyString => None
  end.

Fixpoint greedy (it : item) (k : string -> option result) (s : string)
  : option result :=
  match s with
  | String c s' =>
      if accepts it c then
        match greedy it k s' with
        | Some r => Some (keep (captured it) c r)
        | None => k s
        end
      else k s
  | EmptyString => k s
  end.

(** The pattern anchored at the start of [s]. *)
Fixpoint match_here (p : pattern) (s : string) : option result :=
  match p with
  | [] => Some (EmptyString, s)
  | it :: p' =>
      match quant it with
      | Once => one it (match_here p') s
      | Star => greedy it (match_here p') s
      | Plus => one it (greedy it (match_here p')) s
      end
  end.

(** [re.search(p, s)], reduced to [group(1)] of the leftmost match. *)
Fixpoint search (p : pattern) (s : string) : option string :=
  match match_here p s with
  | Some r => Some (fst r)
  | None =>
      match s with
      | String _ s' => search p s'
      | EmptyString => None
      end
  end.

(** [re.findall(p, s)] for a pattern with one group: the group of every
    match, left to right, the scan resuming where a match ended.
    [skip] counts the characters of the last match still to pass. *)
Fixpoint findall_from (p : pattern) (s : string) (skip : nat) : list string :=
  match skip with
  | S n =>
      match s with
      | String _ s' => findall_from p s' n
      | EmptyString => []
      end
  | O =>
      match match_here p s with
      | Some r =>
          fst r ::
          match s with
          | String _ s' =>
              findall_from p s' (String.length s - String.length (snd r) - 1)
          | EmptyString => []
          end
      | None =>
          match s with
          | String _ s' => findall_from p s' 0
          | EmptyString => []
          end
      end
  end.

Definition findall (p : pattern) (s : string) : list string :=
  findall_from p s 0.

(** Pattern builders. *)
Definition chr (c : ascii) : item := mk_item (Ascii.eqb c) Once false.
Definition chr_nocase (c : ascii) : item :=
  mk_item (Str.eq_nocase c) Once false.

Fixpoint lit (s : string) : pattern :=
  match s with
  | EmptyString => []
  | String c s' => chr c :: lit s'
  end.

Fixpoint lit_nocase (s : string) : pattern :=
  match s with
  | EmptyString => []
  | String c s' => chr_nocase c :: lit_nocase s'
  end.

(** The class [[0-9.]]. *)
Definition digit_or_dot (c : ascii) : bool :=
  Str.is_digit c || Ascii.eqb c "."%char.

(** The class of the plugin pattern: anything but a slash, an apostrophe
    or a double quote. *)
Definition slug_char (c : ascii) : bool :=
  negb (Ascii.eqb c "/"%char || Ascii.eqb c Str.squote
        || Ascii.eqb c Str.dquote).

(** The generator pattern, IGNORECASE: the literal text of the meta tag
    up to [WordPress ], the group [([0-9.]+)] and the closing quote. *)
Definition generator_re : pattern :=
  lit_nocase "<meta name=" ++ [chr_nocase Str.dquote]
  ++ lit_nocase "generator" ++ [chr_nocase Str.dquote]
  ++ lit_nocase " content=" ++ [chr_nocase Str.dquote]
  ++ lit_nocase "WordPress "
  ++ [mk_item digit_or_dot Plus true; chr_nocase Str.dquote].

(** [Stable tag:\s*([0-9.]+)], IGNORECASE. *)
Definition stable_tag_re : pattern :=
  lit_nocase "Stable tag:"
  ++ [mk_item Str.is_space Star false; mk_item digit_or_dot Plus true].

(** The plugin pattern: [/wp-content/plugins/] and one group of one or
    more [slug_char]. *)
Definition plugin_re : pattern :=
  lit "/wp-content/plugins/" ++ [mk_item slug_char Plus true].

End Re.

(** ** Exceptions and decoded JSON *)

(** The exceptions the scanner can meet.  [RequestException] stands for
    [requests.RequestException] and its subclasses (timeouts, refused
    connections, invalid URLs); [OtherError] for any other [Exception]
    the transport may raise. *)
Inductive exn : Type :=
| RequestException (msg : string)
| ValueError (msg : string)
| AttributeError
| TypeError
| OtherError (msg : string).

Definition is_request_exception (e : exn) : bool :=
  match e with RequestException _ => true | _ => false end.

Definition any_exception (e : exn) : bool := true.

(** What [response.json()] returns.  A dict is the list of its items;
    its keys are distinct, and [lookup] reads the first binding of a
    key. *)
Inductive pyval : Type :=
| PyNone
| PyBool (b : bool)
| PyInt (z : Z)
| PyFloat (f : spec_float)
| PyStr (s : string)
| PyList (l : list pyval)
| PyDict (d : list (string * pyval)).

(** Python's truth value. *)
Definition truthy (v : pyval) : bool :=
  match v with
  | PyNone => false
  | PyBool b => b
  | PyInt z => negb (z =? 0)%Z
  | PyFloat f => match f with S754_zero _ => false | _ => true end
  | PyStr s => Str.nonempty s
  | PyList l => match l with [] => false | _ :: _ => true end
  | PyDict d => match d with [] => false | _ :: _ => true end
  end.

(** An optional [str] argument as a Python value. *)
Definition of_opt (o : option string) : pyval :=
  match o with Some s => PyStr s | None => PyNone end.

Fixpoint lookup (key : string) (d : list (string * pyval)) : option pyval :=
  match d with
  | [] => None
  | (k, v) :: d' => if String.eqb key k then Some v else lookup key d'
  end.

(** [d.get(key, default)]; only a dict has the method. *)
Definition py_get (d : pyval) (key : string) (default : pyval) : exn + pyval :=
  match d with
  | PyDict kvs =>
      inr (match lookup key kvs with Some v => v | None => default end)
  | _ => inl AttributeError
  end.

Fixpoint chars (s : string) : list pyval :=
  match s with
  | EmptyString => []
  | String c s' => PyStr (String c EmptyString) :: chars s'
  end.

(** The items a [for] loop draws from a value. *)
Definition py_iter (v : pyval) : exn + list pyval :=
  match v with
  | PyList l => inr l
  | PyDict d => inr (map (fun kv => PyStr (fst kv)) d)
  | PyStr s => inr (chars s)
  | _ => inl TypeError
  end.

(** ** [distutils.version.LooseVersion]

    Library code, transcribed from [distutils/version.py]:
    [component_re.split] cuts the string into maximal runs of digits, of
    lower-case letters and of anything else, and single dots; the dots
    and the empty pieces are dropped, the digit runs that [int] reads
    become [int]s.
    Two versions compare as the Python lists of their components. *)

Module LooseVersion.

Inductive cclass : Type := Digits | Letters | Dot | Other.

Definition classify (c : ascii) : cclass :=
  if Str.is_digit c then Digits
  else if Str.is_lower c then Letters
  else if Ascii.eqb c "."%char then Dot
  else Other.

Definition same_run (a b : cclass) : bool :=
  match a, b with
  | Digits, Digits | Letters, Letters | Other, Other => true
  | _, _ => false
  end.

(** One character put in front of the runs of the rest. *)
Definition push (c : ascii) (rs : list (cclass * string))
  : list (cclass * string) :=
  match rs with
  | (k, t) :: rs' =>
      if same_run (classify c) k then (k, String c t) :: rs'
      else (classify c, String c EmptyString) :: rs
  | [] => [(classify c, String c EmptyString)]
  end.

Fixpoint runs (s : string) : list (cclass * string) :=
  match s with
  | EmptyString => []
  | String c s' => push c (runs s')
  end.

Inductive component : Type :=
| CInt (n : N)
| CStr (s : string).

(** [int(obj)] on a run of digits: CPython refuses a string of more
    than [max_str_digits] digits, leading zeros counted, with
    [ValueError]. *)
Definition max_str_digits : nat := 4300.

Definition int_of_digits (s : string) : exn + N :=
  if (String.length s <=? max_str_digits)%nat then
    inr match NilEmpty.uint_of_string s with
        | Some d => N.of_uint d
        | None => 0%N
        end
  else inl (ValueError "Exceeds the limit for integer string conversion").

(** [try: components[i] = int(obj) except ValueError: pass]: a run of
    digits becomes an [int]; a run that [int] refuses, as it does every
    run that holds no digit, stays a [str]. *)
Definition component_of (r : cclass * string) : component :=
  match fst r with
  | Digits =>
      match int_of_digits (snd r) with
      | inr n => CInt n
      | inl _ => CStr (snd r)
      end
  | _ => CStr (snd r)
  end.

Definition not_dot (r : cclass * string) : bool :=
  match fst r with Dot => false | _ => true end.

(** [parse]: the list stored in [self.version]. *)
Definition parse (vstring : string) : list component :=
  map component_of (filter not_dot (runs vstring)).

(** [x == y] and [x < y] on components; an [int] and a [str] are never
    equal and cannot be ordered. *)
Definition comp_eq (x y : component) : bool :=
  match x, y with
  | CInt a, CInt b => (a =? b)%N
  | CStr a, CStr b => String.eqb a b
  | _, _ => false
  end.

Definition comp_lt (x y : component) : exn + bool :=
  match x, y with
  | CInt a, CInt b => inr (a <? b)%N
  | CStr a, CStr b => inr (Str.ltb a b)
  | _, _ => inl TypeError
  end.

Fixpoint list_eq (a b : list component) : bool :=
  match a, b with
  | [], [] => true
  | x :: a', y :: b' => comp_eq x y && list_eq a' b'
  | _, _ => false
  end.

(** [a < b] on lists: the first pair of unequal items decides; without
    one the shorter list is the smaller. *)
Fixpoint list_lt (a b : list component) : exn + bool :=
  match a, b with
  | [], [] => inr false
  | [], _ :: _ => inr true
  | _ :: _, [] => inr false
  | x :: a', y :: b' => if comp_eq x y then list_lt a' b' else comp_lt x y
  end.

(** [LooseVersion(v)]: a falsy argument leaves the object without its
    [version] attribute; a truthy one that is no [str] makes
    [component_re.split] raise. *)
Definition make (v : pyval) : exn + option (list component) :=
  if truthy v then
    match v with
    | PyStr s => inr (Some (parse s))
    | _ => inl TypeError
    end
  else inr None.

(** [_cmp] followed by [c < 0]. *)
Definition lt (a b : option (list component)) : exn + bool :=
  match a, b with
  | Some x, Some y => if list_eq x y then inr false else list_lt x y
  | _, _ => inl AttributeError
  end.

(** [LooseVersion(v1) < LooseVersion(v2)]. *)
Definition less (v1 v2 : pyval) : exn + bool :=
  match make v1 with
  | inl e => inl e
  | inr a =>
      match make v2 with
      | inl e => inl e
      | inr b => lt a b
      end
  end.

Definition less_str (v1 v2 : string) : exn + bool :=
  less (PyStr v1) (PyStr v2).

End LooseVersion.

(** ** Versions written as dotted numbers *)

Module Dotted.

(** A version written as numbers joined by dots. *)
Definition show (n : N) : string := NilEmpty.string_of_uint (N.to_uint n).

Fixpoint dotted (l : list N) : string :=
  match l with
  | [] => EmptyString
  | [n] => show n
  | n :: l' => show n ++ String "."%char (dotted l')
  end.

(** The order of lists of numbers: the first unequal pair decides, a
    proper prefix is the smaller. *)
Fixpoint lex_ltb (a b : list N) : bool :=
  match a, b with
  | [], [] => false
  | [], _ :: _ => true
  | _ :: _, [] => false
  | x :: a', y :: b' => if (x =? y)%N then lex_ltb a' b' else (x <? y)%N
  end.

Fixpoint all_digits (s : string) : bool :=
  match s with
  | EmptyString => true
  | String c s' => Str.is_digit c && all_digits s'
  end.

(** The number of digits of a number, and the lists of numbers that
    [int] reads back: those of at most [max_str_digits] digits. *)
Definition digits (n : N) : nat := String.length (show n).

Definition within_limit (l : list N) : bool :=
  forallb (fun n => (digits n <=? LooseVersion.max_str_digits)%nat) l.

End Dotted.

(** ** More on strings, for the statements *)

Module Chars.

Fixpoint last (s : string) : option ascii :=
  match s with
  | EmptyString => None
  | String c EmptyString => Some c
  | String _ s' => last s'
  end.

Definition first (s : string) : option ascii :=
  match s with
  | EmptyString => None
  | String c _ => Some c
  end.

Fixpoint repeat (c : ascii) (n : nat) : string :=
  match n with
  | O => EmptyString
  | S n' => String c (repeat c n')
  end.

(** Every character of [s] is in the class [f]. *)
Fixpoint all_in (f : ascii -> bool) (s : string) : bool :=
  match s with
  | EmptyString => true
  | String c s' => f c && all_in f s'
  end.

(** [s] neither starts nor ends with white space. *)
Definition trimmed (s : string) : bool :=
  match first s, last s with
  | Some a, Some b => negb (Str.is_space a) && negb (Str.is_space b)
  | _, _ => true
  end.

End Chars.

(** ** The network and the scanner object *)

Inductive method : Type := GET | HEAD.

(** A request of the session: method, URL and the [Authorization]
    header when one is passed (the fixed headers and the timeout of the
    session are the same for all). *)
Record request : Type := mk_request {
  meth : method;
  req_url : string;
  authorization : option string
}.

(** A [requests.Response]: [url] is the address after redirects,
    [json] what [response.json()] returns or raises. *)
Record response : Type := mk_response {
  status_code : Z;
  text : string;
  url : string;
  json : exn + pyval
}.

(** The network answers a request given the requests sent before it:
    a response, or the exception [session.get] raises. *)
Definition oracle : Type := list request -> request -> exn + response.

(** [plugin_list.txt] as [load_common_plugins] finds it. *)
Inductive file_state : Type :=
| Missing
| Unreadable (e : exn)
| Lines (ls : list string).

(** The fields of a [WordPressScanner] that change, and the requests
    its session has sent. *)
Record scanner : Type := mk_scanner {
  target_url : string;
  sent : list request
}.

(** [__init__]. *)
Definition new_scanner (target : string) : scanner :=
  mk_scanner (Str.rstrip_slash target) [].

(** ** The monad of a method body

    [L] is the type of the local variables the body updates in place.
    A raise leaves the state as it was at that point. *)

Definition M (L A : Type) : Type :=
  L * scanner -> (exn + A) * (L * scanner).

Definition ret {L A} (a : A) : M L A := fun st => (inr a, st).

Definition bind {L A B} (m : M L A) (k : A -> M L B) : M L B :=
  fun st =>
    match m st with
    | (inr a, st') => k a st'
    | (inl e, st') => (inl e, st')
    end.

Notation "x <- m ;; k" := (bind m (fun x => k))
  (at level 61, m at next level, right associativity).
Notation "m ;; k" := (bind m (fun _ => k))
  (at level 61, right associativity).

(** [try: m except C: h], [C] given by the test [catches]. *)
Definition try_except {L A} (m : M L A) (catches : exn -> bool)
  (h : exn -> M L A) : M L A :=
  fun st =>
    match m st with
    | (inl e, st') => if catches e then h e st' else (inl e, st')
    | r => r
    end.

Definition lift {L A} (r : exn + A) : M L A := fun st => (r, st).

Definition when {L} (b : bool) (m : M L unit) : M L unit :=
  if b then m else ret tt.

Definition get_local {L} : M L L := fun st => (inr (fst st), st).

Definition modify {L} (f : L -> L) : M L unit :=
  fun st => (inr tt, (f (fst st), snd st)).

Definition self_target_url {L} : M L string :=
  fun st => (inr (target_url (snd st)), st).

Definition set_target_url {L} (u : string) : M L unit :=
  fun st => (inr tt, (fst st, mk_scanner u (sent (snd st)))).

(** A method body run on fresh locals from inside another body. *)
Definition call {L L' A} (init : L') (m : M L' A) : M L A :=
  fun st =>
    match m (init, snd st) with
    | (r, (_, sc)) => (r, (fst st, sc))
    end.

(** The outcome of a body kept as a value, as a future keeps it. *)
Definition attempt {L A} (m : M L A) : M L (exn + A) :=
  fun st => match m st with (r, st') => (inr r, st') end.

Fixpoint for_each {L A} (xs : list A) (body : A -> M L unit) : M L unit :=
  match xs with
  | [] => ret tt
  | x :: xs' => body x ;; for_each xs' body
  end.

Fixpoint map_m {L A B} (f : A -> M L B) (xs : list A) : M L (list B) :=
  match xs with
  | [] => ret []
  | x :: xs' => y <- f x ;; ys <- map_m f xs' ;; ret (y :: ys)
  end.

(** ** The dictionaries the methods return *)

Module Indicators.
Record t : Type := mk {
  is_wordpress : bool;
  confidence : Z;
  detected_by : list string;
  wp_version : option string;
  url : string;
  error : option exn
}.
Definition init (target : string) : t := mk false 0 [] None target None.
Definition append_detected (tag : string) (i : t) : t :=
  mk (is_wordpress i) (confidence i) (detected_by i ++ [tag])
     (wp_version i) (url i) (error i).
Definition add_confidence (weight : Z) (i : t) : t :=
  mk (is_wordpress i) (confidence i + weight) (detected_by i)
     (wp_version i) (url i) (error i).
Definition set_wp_version (v : string) (i : t) : t :=
  mk (is_wordpress i) (confidence i) (detected_by i) (Some v) (url i)
     (error i).
Definition set_is_wordpress (b : bool) (i : t) : t :=
  mk b (confidence i) (detected_by i) (wp_version i) (url i) (error i).
Definition set_error (e : exn) (i : t) : t :=
  mk (is_wordpress i) (confidence i) (detected_by i) (wp_version i) (url i)
     (Some e).
End Indicators.

Module PluginInfo.
Record t : Type := mk {
  plugin_slug : string;
  is_installed : bool;
  version : option string;
  detected_by : option string;
  plugin_url : option string
}.
Definition init (slug : string) : t := mk slug false None None None.
Definition found (by_ where_ : string) (r : t) : t :=
  mk (plugin_slug r) true (version r) (Some by_) (Some where_).
Definition set_version (v : string) (r : t) : t :=
  mk (plugin_slug r) (is_installed r) (Some v) (detected_by r) (plugin_url r).
End PluginInfo.

Module Finding.
Record t : Type := mk {
  title : pyval;
  cve : pyval;
  fixed_in : pyval
}.
End Finding.

Module CveResult.
Record t : Type := mk {
  plugin_slug : string;
  version : option string;
  vulnerabilities : list Finding.t;
  is_outdated : bool;
  latest_version : pyval;
  source : string;
  error : option exn
}.
Definition init (slug : string) (v : option string) : t :=
  mk slug v [] false PyNone "N/A" None.
Definition set_source (s : string) (r : t) : t :=
  mk (plugin_slug r) (version r) (vulnerabilities r) (is_outdated r)
     (latest_version r) s (error r).
Definition set_latest_version (v : pyval) (r : t) : t :=
  mk (plugin_slug r) (version r) (vulnerabilities r) (is_outdated r)
     v (source r) (error r).
Definition set_is_outdated (b : bool) (r : t) : t :=
  mk (plugin_slug r) (version r) (vulnerabilities r) b
     (latest_version r) (source r) (error r).
Definition append_vulnerability (f : Finding.t) (r : t) : t :=
  mk (plugin_slug r) (version r) (vulnerabilities r ++ [f]) (is_outdated r)
     (latest_version r) (source r) (error r).
Definition set_error (e : exn) (r : t) : t :=
  mk (plugin_slug r) (version r) (vulnerabilities r) (is_outdated r)
     (latest_version r) (source r) (Some e).
End CveResult.

Module EnumResult.
Record t : Type := mk {
  plugins : list PluginInfo.t;
  total_found : Z;
  detection_methods : list string
}.
Definition init : t := mk [] 0 [].
End EnumResult.

(** The locals of [enumerate_plugins]: [result] and [found_slugs]. *)
Module EnumLocals.
Record t : Type := mk {
  result : EnumResult.t;
  found_slugs : list string
}.
Definition init : t := mk EnumResult.init [].
Definition add_method (m : string) (l : t) : t :=
  mk (EnumResult.mk (EnumResult.plugins (result l))
        (EnumResult.total_found (result l))
        (EnumResult.detection_methods (result l) ++ [m]))
     (found_slugs l).
Definition append_plugin (p : PluginInfo.t) (l : t) : t :=
  mk (EnumResult.mk (EnumResult.plugins (result l) ++ [p])
        (EnumResult.total_found (result l))
        (EnumResult.detection_methods (result l)))
     (found_slugs l).
Definition add_found (slug : string) (l : t) : t :=
  mk (result l) (slug :: found_slugs l).
Definition set_total_found (l : t) : t :=
  mk (EnumResult.mk (EnumResult.plugins (result l))
        (Z.of_nat (List.length (EnumResult.plugins (result l))))
        (EnumResult.detection_methods (result l)))
     (found_slugs l).
End EnumLocals.

(** [slug in found_slugs]. *)
Definition mem (x : string) (l : list string) : bool :=
  existsb (String.eqb x) l.

(** ** What the handler of [/scan] answers *)

(** The dictionary [results] of [start_scan]: [plugins] and
    [vulnerabilities] are keys it has only for a WordPress site. *)
Module Results.
Record t : Type := mk {
  wp_check : Indicators.t;
  plugins : option EnumResult.t;
  vulnerabilities : option (list CveResult.t)
}.
End Results.

(** The three answers of the handler: [jsonify(results)], the answer
    400 for a missing address, and the answer 500 that carries the
    text of an exception. *)
Inductive reply : Type :=
| Ok (results : Results.t)
| BadRequest
| ServerError (e : exn).

(** What [urlparse] gives that the handler reads. *)
Record parsed : Type := mk_parsed {
  scheme : string;
  netloc : string
}.

(** ** What [build_list] works on *)

(** The slugs gathered so far and the requests sent by
    [requests.get]. *)
Record builder : Type := mk_builder {
  all_plugin_slugs : list pyval;
  requested : list request
}.

(** How the body of the loop over the pages ends: by running to its
    end or by [continue], or by [break]. *)
Inductive flow : Type := Continue | Break.

(** ** Concrete sites to run the model on *)

Module Runs.

(** [urljoin] on the inputs of the runs below: a base
    [scheme://host/dir/.../], or [scheme://host], free of query,
    fragment, parameters and dot segments, joined with an absolute
    path or with a path relative to a base that ends in a slash. *)
Fixpoint upto_slash (s : string) : string :=
  match s with
  | EmptyString => EmptyString
  | String c s' =>
      if Ascii.eqb c "/"%char then EmptyString else String c (upto_slash s')
  end.

Fixpoint origin (s : string) : string :=
  match s with
  | EmptyString => EmptyString
  | String c s' =>
      if String.prefix "//" s
      then "//" ++ upto_slash (substring 2 (String.length s) s)
      else String c (origin s')
  end.

Definition urljoin (base ref : string) : string :=
  if String.prefix "/" ref then origin base ++ ref else base ++ ref.

(** A site: the answers by method and URL; any other request is
    refused by the network. *)
Definition site (routes : list (method * string * response)) : oracle :=
  fun _ q =>
    match
      find (fun r =>
              match fst (fst r), meth q with
              | GET, GET | HEAD, HEAD => String.eqb (snd (fst r)) (req_url q)
              | _, _ => false
              end) routes
    with
    | Some r => inr (snd r)
    | None => inl (RequestException "connection refused")
    end.

Definition page (status : Z) (body : string) : response :=
  mk_response status body "http://example.com/" (inl (ValueError "no JSON")).

Definition api (status : Z) (data : pyval) : response :=
  mk_response status EmptyString EmptyString (inr data).

Definition no_token : string -> option string := fun _ => None.

Definition token : string -> option string :=
  fun k => if String.eqb k "WPSCAN_API_TOKEN" then Some "secret" else None.

Definition sc0 : scanner := new_scanner "http://example.com/".

Definition registry (slug : string) : string :=
  "https://api.wordpress.org/plugins/info/1.0/" ++ slug ++ ".json".

Definition wpscan (slug : string) : string :=
  "https://wpscan.com/api/v3/plugins/" ++ slug.

(** A page with the generator tag of WordPress 6.2 and no REST API. *)
Definition wp62 : oracle :=
  site [(GET, "http://example.com",
         page 200 ("<html><meta name=" ++ String Str.dquote "generator"
                   ++ String Str.dquote " content="
                   ++ String Str.dquote "WordPress 6.2"
                   ++ String Str.dquote "></html>"))].

(** A site with the readme of contact-form-7. *)
Definition cf7 : oracle :=
  site [(GET, "http://example.com/wp-content/plugins/contact-form-7/readme.txt",
         page 200 "=== Contact Form 7 === Stable tag: 5.4.2 ")].

(** The registry knows 5.5.0 of contact-form-7. *)
Definition registry_550 : oracle :=
  site [(GET, registry "contact-form-7",
         api 200 (PyDict [("name", PyStr "Contact Form 7");
                          ("version", PyStr "5.5.0")]))].

(** The registry knows 1.0.0 of a plugin. *)
Definition registry_100 : oracle :=
  site [(GET, registry "demo",
         api 200 (PyDict [("version", PyStr "1.0.0")]))].

(** The registry answers 404; the paid database knows 2.0 as the
    latest version. *)
Definition paid_20 : oracle :=
  site [(GET, registry "demo", api 404 PyNone);
        (GET, wpscan "demo",
         api 200 (PyDict [("demo",
                           PyDict [("latest_version", PyStr "2.0")])]))].

(** The registry answers 404; the paid database lists three
    vulnerabilities, fixed in 2.0, fixed in 1.2 and not fixed. *)
Definition three_vulns : list pyval :=
  [PyDict [("title", PyStr "XSS"); ("cve", PyStr "CVE-1");
           ("fixed_in", PyStr "2.0")];
   PyDict [("title", PyStr "CSRF"); ("cve", PyStr "CVE-2");
           ("fixed_in", PyStr "1.2")];
   PyDict [("title", PyStr "SQLi"); ("cve", PyNone); ("fixed_in", PyNone)]].

Definition paid_vulns : oracle :=
  site [(GET, registry "demo", api 404 PyNone);
        (GET, wpscan "demo",
         api 200 (PyDict [("demo",
                           PyDict [("vulnerabilities", PyList three_vulns)])]))].

(** The registry does not know the plugin; the paid database knows 1.0
    as the latest version and one vulnerability that is not fixed. *)
Definition paid_current : oracle :=
  site [(GET, registry "demo", api 200 (PyDict [("error", PyStr "not found")]));
        (GET, wpscan "demo",
         api 200 (PyDict [("demo",
                           PyDict [("latest_version", PyStr "1.0");
                                   ("vulnerabilities",
                                    PyList [PyDict [("title", PyStr "XSS")]])])]))].

(** No service answers. *)
Definition offline : oracle := site [].

(** A site whose page names one plugin and that serves the style sheet
    of akismet. *)
Definition blog : oracle :=
  site [(GET, "http://example.com",
         page 200 "<link href=/wp-content/plugins/hello/style.css>");
        (GET, "http://example.com/wp-content/plugins/hello/readme.txt",
         page 200 "Stable tag: 1.7");
        (HEAD, "http://example.com/wp-content/plugins/akismet/assets/css/akismet.css",
         page 200 EmptyString)].

Definition first_seen (l : list string) : list string :=
  nodup string_dec l.

Definition slugs_of (out : exn + EnumResult.t) : option (list string) :=
  match out with
  | inr r => Some (map PluginInfo.plugin_slug (EnumResult.plugins r))
  | inl _ => None
  end.

Definition get (url : string) : request := mk_request GET url None.
Definition head (url : string) : request := mk_request HEAD url None.

(** [urlparse] and [urlunparse] on the addresses of the runs below:
    [scheme://netloc] followed by a path or by nothing, and parts put
    together of which the last three are empty. *)
Fixpoint upto_colon (s : string) : string :=
  match s with
  | EmptyString => EmptyString
  | String c s' =>
      if Ascii.eqb c ":"%char then EmptyString else String c (upto_colon s')
  end.

Definition urlparse (url : string) : exn + parsed :=
  let scheme := upto_colon url in
  inr (mk_parsed scheme
         (upto_slash
            (substring (String.length scheme + 3) (String.length url) url))).

Definition urlunparse
  (parts : string * string * string * string * string * string)
  : exn + string :=
  let '(scheme, netloc, path, _, _, _) := parts in
  inr (scheme ++ "://" ++ netloc ++ path)%string.

(** A line break, and two states of [plugin_list.txt]: three slugs
    among blank lines, and blank lines only. *)
Definition nl : string := String (ascii_of_nat 10) EmptyString.

Definition three_slugs : file_state :=
  Lines [" akismet " ++ nl; nl; "jetpack" ++ nl; "   " ++ nl;
         "hello" ++ nl]%string.

Definition blank_lines : file_state := Lines [nl; "   " ++ nl]%string.

(** The registry answers 404 and the paid database refuses the
    credential. *)
Definition paid_refused : oracle :=
  site [(GET, registry "demo", api 404 PyNone);
        (GET, wpscan "demo", api 401 (PyDict [("status", PyStr "forbidden")]))].

(** The registry answers 404; the paid database knows a beta as the
    latest version and lists three vulnerabilities. *)
Definition paid_beta : oracle :=
  site [(GET, registry "demo", api 404 PyNone);
        (GET, wpscan "demo",
         api 200 (PyDict [("demo",
                           PyDict [("latest_version", PyStr "2.0-beta");
                                   ("vulnerabilities",
                                    PyList three_vulns)])]))].

(** The registry answers 404; the second entry of the paid list of
    vulnerabilities is a string. *)
Definition unfixed (title : string) : pyval :=
  PyDict [("title", PyStr title)].

Definition paid_mixed : oracle :=
  site [(GET, registry "demo", api 404 PyNone);
        (GET, wpscan "demo",
         api 200 (PyDict [("demo",
                           PyDict [("vulnerabilities",
                                    PyList [unfixed "XSS"; PyStr "oops";
                                            unfixed "SQLi"])])]))].

(** The body of a request for a scan of the blog. *)
Definition scan_blog : pyval :=
  PyDict [("target_url", PyStr "http://example.com/blog/?p=1");
          ("scan_level", PyInt 3)].

(** The listing of the registry: a first page with three plugins and
    an empty second page. *)
Definition listing (page : string) : string :=
  "https://api.wordpress.org/plugins/info/1.2/?action=query_plugins&request[page]="
  ++ page ++ "&request[per_page]=100&request[browse]=popular".

Definition page_of (slugs : list string) : pyval :=
  PyDict [("plugins",
           PyList (map (fun slug => PyDict [("slug", PyStr slug)]) slugs))].

Definition popular : oracle :=
  site [(GET, listing "1", api 200 (page_of ["akismet"; "jetpack"; "hello"]));
        (GET, listing "2", api 200 (page_of []))].

(** [math.ceil(total_plugins / 100)] on the totals of the runs: a
    small total, whose quotient a float holds, and a total too large
    for a float; and [str] on the values of the runs that are no
    strings. *)
Definition ceil_quotient (total_plugins : Z) : exn + Z :=
  if (Z.abs total_plugins <? 2 ^ 52)%Z
  then inr ((total_plugins + 99) / 100)%Z
  else inl (OtherError "OverflowError").

Definition py_str (v : pyval) : string :=
  match v with
  | PyNone => "None"
  | PyBool true => "True"
  | PyBool false => "False"
  | _ => EmptyString
  end.

End Runs.

(** ** [WordPressScanner] *)

Section Scanner.

(** [urllib.parse.urljoin] is library code and stays a parameter. *)
Variable urljoin : string -> string -> string.

(** The network, [os.environ] and [plugin_list.txt]. *)
Variable net : oracle.
Variable environ : string -> option string.
Variable plugin_list : file_state.

(** The iteration order of [set(l)]: each element of [l] once, in an
    order of Python's choosing. *)
Variable set_iter : list string -> list string.

(** [self.session.get], [self.session.head]. *)
Definition session_send {L} (r : request) : M L response :=
  fun st =>
    (net (sent (snd st)) r,
     (fst st, mk_scanner (target_url (snd st)) (sent (snd st) ++ [r]))).

Definition session_get {L} (u : string) : M L response :=
  session_send (mk_request GET u None).

Definition session_head {L} (u : string) : M L response :=
  session_send (mk_request HEAD u None).

Definition session_get_auth {L} (u auth : string) : M L response :=
  session_send (mk_request GET u (Some auth)).

(** *** [is_wordpress] *)

Definition is_wordpress {L} : M L Indicators.t :=
  target <- self_target_url ;;
  call (Indicators.init target)
    (try_except
       (response <- session_get target ;;
        set_target_url (Str.rstrip_slash (url response)) ;;
        let html := text response in
        when (Str.contains "/wp-content/" html
              || Str.contains "/wp-includes/" html)
          (modify (Indicators.append_detected "wp-content/wp-includes paths") ;;
           modify (Indicators.add_confidence 30)) ;;
        match Re.search Re.generator_re html with
        | Some v =>
            modify (Indicators.append_detected "meta generator tag") ;;
            modify (Indicators.set_wp_version v) ;;
            modify (Indicators.add_confidence 40)
        | None => ret tt
        end ;;
        try_except
          (base <- self_target_url ;;
           api_response <- session_get (urljoin base "/wp-json/") ;;
           when ((status_code api_response =? 200)%Z
                 && Str.contains "namespaces" (text api_response))
             (modify (Indicators.append_detected "REST API endpoint") ;;
              modify (Indicators.add_confidence 30)))
          any_exception
          (fun _ => ret tt) ;;
        i <- get_local ;;
        when (30 <=? Indicators.confidence i)%Z
          (modify (Indicators.set_is_wordpress true)))
       is_request_exception
       (fun e => modify (Indicators.set_error e)) ;;
     get_local).

(** *** [check_plugin] *)

Definition plugin_base_url (target plugin_slug : string) : string :=
  target ++ "/wp-content/plugins/" ++ plugin_slug ++ "/".

Definition check_plugin {L} (plugin_slug : string) : M L PluginInfo.t :=
  target <- self_target_url ;;
  call (PluginInfo.init plugin_slug)
    (let base := plugin_base_url target plugin_slug in
     let readme_url := urljoin base "readme.txt" in
     returned <-
       try_except
         (readme_response <- session_get readme_url ;;
          if (status_code readme_response =? 200)%Z then
            modify (PluginInfo.found "readme.txt" readme_url) ;;
            match Re.search Re.stable_tag_re (text readme_response) with
            | Some v => modify (PluginInfo.set_version v)
            | None => ret tt
            end ;;
            result <- get_local ;;
            ret (Some result)
          else ret None)
         is_request_exception
         (fun _ => ret None) ;;
     match returned with
     | Some result => ret result
     | None =>
         try_except
           (let css_url :=
              urljoin base ("assets/css/" ++ plugin_slug ++ ".css") in
            file_response <- session_head css_url ;;
            when (status_code file_response =? 200)%Z
              (modify (PluginInfo.found "asset file" css_url)))
           is_request_exception
           (fun _ => ret tt) ;;
         get_local
     end).

(** *** [get_plugin_cves] *)

(** A value spliced into an f-string. *)
Definition fstr (o : option string) : string :=
  match o with Some s => s | None => "None" end.

Definition finding_of (vuln fixed_in : pyval) : M CveResult.t Finding.t :=
  title <- lift (py_get vuln "title" PyNone) ;;
  cve <- lift (py_get vuln "cve" PyNone) ;;
  ret (Finding.mk title cve fixed_in).

(** The body of the loop over the vulnerabilities of the paid answer. *)
Definition vuln_step (version : option string) (vuln : pyval)
  : M CveResult.t unit :=
  fixed_in_version <- lift (py_get vuln "fixed_in" PyNone) ;;
  if negb (truthy fixed_in_version) then
    f <- finding_of vuln (PyStr "Not fixed") ;;
    modify (CveResult.append_vulnerability f)
  else if truthy (of_opt version) then
    try_except
      (older <- lift (LooseVersion.less (of_opt version) fixed_in_version) ;;
       when older
         (f <- finding_of vuln fixed_in_version ;;
          modify (CveResult.append_vulnerability f)))
      any_exception
      (fun _ =>
         f <- finding_of vuln fixed_in_version ;;
         modify (CveResult.append_vulnerability f))
  else ret tt.

Definition registry_url (plugin_slug : string) : string :=
  "https://api.wordpress.org/plugins/info/1.0/" ++ plugin_slug ++ ".json".

Definition wpscan_url (plugin_slug : string) : string :=
  "https://wpscan.com/api/v3/plugins/" ++ plugin_slug.

(** Step 1, the free registry: the body of its [try] and the step. *)
Definition tier1_body (plugin_slug : string) (version : option string)
  : M CveResult.t unit :=
  wp_response <- session_get (registry_url plugin_slug) ;;
  if (status_code wp_response =? 200)%Z then
    plugin_data <- lift (json wp_response) ;;
    latest <- lift (py_get plugin_data "version" PyNone) ;;
    modify (CveResult.set_latest_version latest) ;;
    when (truthy (of_opt version) && truthy latest)
      (older <- lift (LooseVersion.less (of_opt version) latest) ;;
       modify (CveResult.set_is_outdated older))
  else modify (CveResult.set_is_outdated true).

Definition tier1 (plugin_slug : string) (version : option string)
  : M CveResult.t unit :=
  modify (CveResult.set_source "WordPress.org API") ;;
  try_except (tier1_body plugin_slug version)
    any_exception
    (fun _ => modify (CveResult.set_is_outdated true)).

(** Step 2, the paid database: the body of its [try] and the step. *)
Definition tier2_body (plugin_slug : string)
  (version api_token : option string) : M CveResult.t unit :=
  api_response <-
    session_get_auth (wpscan_url plugin_slug)
      ("Token token=" ++ fstr api_token) ;;
  when (status_code api_response =? 200)%Z
    (data <- lift (json api_response) ;;
     plugin_data <- lift (py_get data plugin_slug (PyDict [])) ;;
     latest <- lift (py_get plugin_data "latest_version" PyNone) ;;
     when (truthy latest)
       (modify (CveResult.set_latest_version latest) ;;
        when (truthy (of_opt version) && truthy latest)
          (older <- lift (LooseVersion.less (of_opt version) latest) ;;
           modify (CveResult.set_is_outdated older))) ;;
     vulns <- lift (py_get plugin_data "vulnerabilities" (PyList [])) ;;
     items <- lift (py_iter vulns) ;;
     for_each items (vuln_step version)).

Definition tier2 (plugin_slug : string) (version api_token : option string)
  : M CveResult.t unit :=
  modify (CveResult.set_source "WPScan API (Outdated)") ;;
  try_except (tier2_body plugin_slug version api_token)
    any_exception
    (fun e => modify (CveResult.set_error e)).

(** The test that guards step 2. *)
Definition wants_tier2 (r : CveResult.t) (version api_token : option string)
  : bool :=
  let is_unknown :=
    negb (truthy (CveResult.latest_version r)) && truthy (of_opt version) in
  (CveResult.is_outdated r || is_unknown) && truthy (of_opt api_token).

Definition get_plugin_cves {L} (plugin_slug : string)
  (version : option string) : M L CveResult.t :=
  call (CveResult.init plugin_slug version)
    (let api_token := environ "WPSCAN_API_TOKEN" in
     tier1 plugin_slug version ;;
     r1 <- get_local ;;
     when (wants_tier2 r1 version api_token)
       (tier2 plugin_slug version api_token) ;;
     r2 <- get_local ;;
     when (negb (CveResult.is_outdated r2) && truthy (of_opt api_token))
       (modify (CveResult.set_source "WordPress.org API (Up to date)")) ;;
     get_local).

(** *** [load_common_plugins] *)

Definition default_list : list string :=
  ["akismet"; "contact-form-7"; "wordpress-seo"; "jetpack";
   "wordfence"; "elementor"; "woocommerce"].

(** [l[:n]], for a negative [n] too. *)
Definition slice_to {A} (n : Z) (l : list A) : list A :=
  if (0 <=? n)%Z then firstn (Z.to_nat n) l
  else firstn (List.length l - Z.to_nat (- n)) l.

Definition load_common_plugins (scan_level : Z) : list string :=
  match plugin_list with
  | Missing => default_list
  | Unreadable _ => default_list
  | Lines ls =>
      let plugins := filter Str.nonempty (map Str.strip ls) in
      if (scan_level =? -1)%Z then plugins else slice_to scan_level plugins
  end.

(** *** [enumerate_plugins] *)

Definition record_installed (plugin_info : PluginInfo.t) (slug : string)
  : M EnumLocals.t unit :=
  when (PluginInfo.is_installed plugin_info)
    (modify (EnumLocals.append_plugin plugin_info) ;;
     modify (EnumLocals.add_found slug)).

(** The loop over the slugs scraped from the page. *)
Definition html_step (slug : string) : M EnumLocals.t unit :=
  l <- get_local ;;
  when (negb (mem slug (EnumLocals.found_slugs l)))
    (plugin_info <- check_plugin slug ;;
     record_installed plugin_info slug).

Definition html_stage : M EnumLocals.t unit :=
  try_except
    (target <- self_target_url ;;
     response <- session_get target ;;
     let html := text response in
     let slugs_from_html := set_iter (Re.findall Re.plugin_re html) in
     when (match slugs_from_html with [] => false | _ :: _ => true end)
       (modify (EnumLocals.add_method "HTML parsing") ;;
        for_each slugs_from_html html_step))
    any_exception
    (fun _ => ret tt).

Definition plugins_to_check (common_plugins found_slugs : list string)
  : list string :=
  filter (fun slug => negb (mem slug found_slugs)) common_plugins.

(** The loop over the futures, in the order of submission. *)
Definition collect_step (future : exn + PluginInfo.t) : M EnumLocals.t unit :=
  plugin_info <- lift future ;;
  record_installed plugin_info (PluginInfo.plugin_slug plugin_info).

(** Every probe of the pool runs to its end; they are taken here one
    after the other, which the oracle, free in how it answers request
    by request, does not tell from another schedule. *)
Definition candidate_stage (scan_level : Z) : M EnumLocals.t unit :=
  let common_plugins := load_common_plugins scan_level in
  modify (EnumLocals.add_method "common plugin checking (concurrent)") ;;
  l <- get_local ;;
  futures <-
    map_m (fun slug => attempt (check_plugin slug))
      (plugins_to_check common_plugins (EnumLocals.found_slugs l)) ;;
  for_each futures collect_step.

Definition enumerate_plugins {L} (scan_level : Z) : M L EnumResult.t :=
  call EnumLocals.init
    (html_stage ;;
     candidate_stage scan_level ;;
     modify EnumLocals.set_total_found ;;
     l <- get_local ;;
     ret (EnumLocals.result l)).

(** ** [app.py]: the handler [start_scan]

    The scan level reaches [load_common_plugins] as the value the JSON
    body holds, of whatever type; the method is taken up again here
    for such a level.  A [PyFloat] is a binary64 number in its
    canonical form. *)

Definition minus_one : spec_float := S754_finite true 4503599627370496 (-52).

(** [scan_level == -1]. *)
Definition is_minus_one (scan_level : pyval) : bool :=
  match scan_level with
  | PyInt z => (z =? -1)%Z
  | PyFloat f => SFeqb f minus_one
  | _ => false
  end.

(** The bound of the slice [plugins[:scan_level]]: [None] for no
    bound, an integer, or the [TypeError] of a value that is no
    index. *)
Definition slice_index (scan_level : pyval) : exn + option Z :=
  match scan_level with
  | PyNone => inr None
  | PyInt z => inr (Some z)
  | PyBool b => inr (Some (if b then 1 else 0)%Z)
  | _ => inl TypeError
  end.

(** [load_common_plugins] for a level of any type: the [TypeError] of
    the slice is caught by the handler of the method, which returns
    the default list. *)
Definition load_common_plugins_dyn (scan_level : pyval) : list string :=
  match plugin_list with
  | Missing => default_list
  | Unreadable _ => default_list
  | Lines ls =>
      let plugins := filter Str.nonempty (map Str.strip ls) in
      if is_minus_one scan_level then plugins
      else
        match slice_index scan_level with
        | inr (Some n) => slice_to n plugins
        | inr None => plugins
        | inl _ => default_list
        end
  end.

(** The candidate stage and the enumeration, given the list that
    [load_common_plugins] returned. *)
Definition candidate_stage_with (common_plugins : list string)
  : M EnumLocals.t unit :=
  modify (EnumLocals.add_method "common plugin checking (concurrent)") ;;
  l <- get_local ;;
  futures <-
    map_m (fun slug => attempt (check_plugin slug))
      (plugins_to_check common_plugins (EnumLocals.found_slugs l)) ;;
  for_each futures collect_step.

Definition enumerate_plugins_dyn {L} (scan_level : pyval)
  : M L EnumResult.t :=
  call EnumLocals.init
    (html_stage ;;
     candidate_stage_with (load_common_plugins_dyn scan_level) ;;
     modify EnumLocals.set_total_found ;;
     l <- get_local ;;
     ret (EnumLocals.result l)).

(** [urllib.parse.urlparse] and [urlunparse] are library code and stay
    parameters; either may raise. *)
Variable urlparse : string -> exn + parsed.
Variable urlunparse :
  string * string * string * string * string * string -> exn + string.

(** The address cut down to its scheme and network location; the
    address itself when the library raises. *)
Definition sanitized (url : string) : string :=
  match urlparse url with
  | inr parsed_url =>
      match
        urlunparse (scheme parsed_url, netloc parsed_url,
                    EmptyString, EmptyString, EmptyString, EmptyString)
      with
      | inr sanitized_url => sanitized_url
      | inl _ => url
      end
  | inl _ => url
  end.

(** [url.startswith(('http://', 'https://'))]. *)
Definition has_scheme (url : string) : bool :=
  String.prefix "http://" url || String.prefix "https://" url.

Definition with_scheme (url : string) : string :=
  if has_scheme url then url else ("https://" ++ url)%string.

(** The pool of the handler: one resolver run per plugin found, every
    one run to its end, the outcomes taken in the order of the
    plugins. *)
Definition resolve_all (plugins : list PluginInfo.t)
  : M unit (list CveResult.t) :=
  futures <-
    map_m (fun p =>
             attempt (get_plugin_cves (PluginInfo.plugin_slug p)
                        (PluginInfo.version p)))
      plugins ;;
  map_m lift futures.

(** The body of the second [try] of the handler, from the scanner on. *)
Definition scan (scan_level : pyval) : M unit Results.t :=
  wp_check <- is_wordpress ;;
  if Indicators.is_wordpress wp_check then
    plugin_data <- enumerate_plugins_dyn scan_level ;;
    cve_results <- resolve_all (EnumResult.plugins plugin_data) ;;
    ret (Results.mk wp_check (Some plugin_data) (Some cve_results))
  else ret (Results.mk wp_check None None).

(** [start_scan] on the decoded body [data]: the answer and the
    requests the scan sent, or the exception that leaves the
    handler. *)
Definition start_scan (data : pyval) : exn + reply * list request :=
  match py_get data "target_url" PyNone with
  | inl e => inl e
  | inr url =>
      match py_get data "scan_level" (PyInt 1000) with
      | inl e => inl e
      | inr scan_level =>
          if negb (truthy url) then inr (BadRequest, [])
          else
            match url with
            | PyStr u =>
                let sanitized_url := sanitized (with_scheme u) in
                match scan scan_level (tt, new_scanner sanitized_url) with
                | (inr results, (_, sc)) => inr (Ok results, sent sc)
                | (inl e, (_, sc)) => inr (ServerError e, sent sc)
                end
            | _ => inl AttributeError
            end
      end
  end.

(** ** [plugin_builder.py]: [build_list]

    [math.ceil(total_plugins / PER_PAGE)] is float arithmetic of the
    library, which raises [OverflowError] for a total too large for a
    float, and [str] of a JSON value that is no string is library code
    too: both stay parameters. *)
Variable ceil_quotient : Z -> exn + Z.
Variable py_str : pyval -> string.

(** [plugin[key]]: only a dict can be indexed by a string, and a key
    it does not have raises [KeyError], kept here as an [OtherError]. *)
Definition py_item (v : pyval) (key : string) : exn + pyval :=
  match v with
  | PyDict d =>
      match lookup key d with
      | Some x => inr x
      | None => inl (OtherError "KeyError")
      end
  | _ => inl TypeError
  end.

(** The address of a page of the registry's listing. *)
Definition page_url (sort_by : string) (page : Z) : string :=
  "https://api.wordpress.org/plugins/info/1.2/?action=query_plugins&request[page]="
  ++ Dotted.show (Z.to_N page)
  ++ "&request[per_page]=100&request[browse]=" ++ sort_by.

Definition page_request (sort_by : string) (page : Z) : request :=
  mk_request GET (page_url sort_by page) None.

(** The loop [for plugin in plugins]: the slugs appended before an
    entry raises stay in the list. *)
Fixpoint append_slugs (plugins : list pyval) (st : builder)
  : (exn + unit) * builder :=
  match plugins with
  | [] => (inr tt, st)
  | plugin :: rest =>
      match py_item plugin "slug" with
      | inr slug =>
          append_slugs rest
            (mk_builder (all_plugin_slugs st ++ [slug]) (requested st))
      | inl e => (inl e, st)
      end
  end.

(** The body of the [try] of one page. *)
Definition fetch_page (sort_by : string) (total_plugins page : Z)
  (st : builder) : (exn + flow) * builder :=
  let q := page_request sort_by page in
  let st1 := mk_builder (all_plugin_slugs st) (requested st ++ [q]) in
  match net (requested st) q with
  | inl e => (inl e, st1)
  | inr response =>
      if negb (status_code response =? 200)%Z then (inr Continue, st1)
      else
        match json response with
        | inl e => (inl e, st1)
        | inr data =>
            match py_get data "plugins" (PyList []) with
            | inl e => (inl e, st1)
            | inr plugins =>
                if negb (truthy plugins) then (inr Break, st1)
                else
                  match py_iter plugins with
                  | inl e => (inl e, st1)
                  | inr items =>
                      match append_slugs items st1 with
                      | (inl e, st2) => (inl e, st2)
                      | (inr _, st2) =>
                          if (total_plugins <=?
                              Z.of_nat (List.length (all_plugin_slugs st2)))%Z
                          then (inr Break, st2)
                          else (inr Continue, st2)
                      end
                  end
            end
        end
  end.

(** The loop over the pages: an exception of the body is caught and
    the loop goes on with the next page. *)
Fixpoint fetch_pages (sort_by : string) (total_plugins : Z)
  (pages : list Z) (st : builder) : builder :=
  match pages with
  | [] => st
  | page :: rest =>
      match fetch_page sort_by total_plugins page st with
      | (inr Break, st') => st'
      | (_, st') => fetch_pages sort_by total_plugins rest st'
      end
  end.

(** [range(1, pages_to_fetch + 1)]. *)
Definition page_range (pages_to_fetch : Z) : list Z :=
  map Z.of_nat (seq 1 (Z.to_nat pages_to_fetch)).

(** The state after the loop, and [final_list], for the number of
    pages computed. *)
Definition gathered (sort_by : string) (total_plugins pages_to_fetch : Z)
  : builder :=
  fetch_pages sort_by total_plugins (page_range pages_to_fetch)
    (mk_builder [] []).

Definition final_list (sort_by : string) (total_plugins pages_to_fetch : Z)
  : list pyval :=
  slice_to total_plugins
    (all_plugin_slugs (gathered sort_by total_plugins pages_to_fetch)).

(** The line [f"{slug}\n"]. *)
Definition line_feed : ascii := ascii_of_nat 10.
Definition carriage_return : ascii := ascii_of_nat 13.

Definition slug_line (slug : pyval) : string :=
  match slug with
  | PyStr s => s
  | _ => py_str slug
  end ++ String line_feed EmptyString.

Definition written (slugs : list pyval) : string :=
  String.concat EmptyString (map slug_line slugs).

(** [build_list]: the exception of the number of pages, computed
    outside every [try], that leaves the function before any request
    and any write; or the requests it sends and the text it writes to
    [plugin_list.txt], when the file can be opened and written. *)
Definition build_list (sort_by : string) (total_plugins : Z)
  : exn + list request * string :=
  match ceil_quotient total_plugins with
  | inl e => inl e
  | inr pages_to_fetch =>
      inr (requested (gathered sort_by total_plugins pages_to_fetch),
           written (final_list sort_by total_plugins pages_to_fetch))
  end.

(** The lines a [for line in f] loop draws from a file of text [s]
    opened for reading: a line ends with a line feed, a carriage
    return or both, read as one line feed. *)
Fixpoint readlines (s : string) : list string :=
  match s with
  | EmptyString => []
  | String c s' =>
      if Ascii.eqb c line_feed then
        String line_feed EmptyString :: readlines s'
      else if Ascii.eqb c carriage_return then
        String line_feed EmptyString ::
        match s' with
        | String c' s'' =>
            if Ascii.eqb c' line_feed then readlines s'' else readlines s'
        | EmptyString => []
        end
      else
        match readlines s' with
        | [] => [String c EmptyString]
        | line :: rest => String c line :: rest
        end
  end.

(** ** The terms of the statements *)

(** *** For [is_wordpress] *)

(** The weight the detector adds for each signal it records. *)
Definition signal_weight (tag : string) : Z :=
  if String.eqb tag "wp-content/wp-includes paths" then 30
  else if String.eqb tag "meta generator tag" then 40
  else if String.eqb tag "REST API endpoint" then 30
  else 0.

Definition total_weight (tags : list string) : Z :=
  fold_right Z.add 0%Z (map signal_weight tags).

(** The request [is_wordpress] starts with, and its answer. *)
Definition root_answer {L} (st : L * scanner) : exn + response :=
  net (sent (snd st)) (mk_request GET (target_url (snd st)) None).

(** Unfolds the operations of [M] in a goal. *)
Ltac run_monad :=
  cbv [bind ret try_except lift when get_local modify call attempt
       self_target_url set_target_url session_get session_head
       session_get_auth session_send any_exception fst snd].

(** The REST probe, the second request of the run, and its answer. *)
Definition rest_answer {L} (st : L * scanner) (resp : response)
  : exn + response :=
  net (sent (snd st) ++ [mk_request GET (target_url (snd st)) None])
      (mk_request GET (urljoin (Str.rstrip_slash (url resp)) "/wp-json/")
         None).

(** The three signals of the detector on a fetched page [resp], in the
    order it checks them. *)
Definition matched_signals {L} (st : L * scanner) (resp : response)
  : list string :=
  (if Str.contains "/wp-content/" (text resp)
      || Str.contains "/wp-includes/" (text resp)
   then ["wp-content/wp-includes paths"] else [])
  ++ match Re.search Re.generator_re (text resp) with
     | Some _ => ["meta generator tag"]
     | None => []
     end
  ++ match rest_answer st resp with
     | inr api =>
         if (status_code api =? 200)%Z
            && Str.contains "namespaces" (text api)
         then ["REST API endpoint"] else []
     | inl _ => []
     end.

(** *** For [check_plugin] *)

(** The two URLs a probe of [slug] asks for, and the answers it gets:
    the readme first, the style sheet after it. *)
Definition readme_url (sc : scanner) (slug : string) : string :=
  urljoin (plugin_base_url (target_url sc) slug) "readme.txt".

Definition css_url (sc : scanner) (slug : string) : string :=
  urljoin (plugin_base_url (target_url sc) slug)
    ("assets/css/" ++ slug ++ ".css").

Definition readme_request (sc : scanner) (slug : string) : request :=
  mk_request GET (readme_url sc slug) None.

Definition css_request (sc : scanner) (slug : string) : request :=
  mk_request HEAD (css_url sc slug) None.

Definition readme_answer (sc : scanner) (slug : string) : exn + response :=
  net (sent sc) (readme_request sc slug).

Definition css_answer (sc : scanner) (slug : string) : exn + response :=
  net (sent sc ++ [readme_request sc slug]) (css_request sc slug).

(** A method of detection answers 200. *)
Definition hits (a : exn + response) : bool :=
  match a with
  | inr r => (status_code r =? 200)%Z
  | inl _ => false
  end.

(** It fails without raising to the caller: another status, or a
    network failure. *)
Definition misses (a : exn + response) : bool :=
  match a with
  | inr r => negb (status_code r =? 200)%Z
  | inl e => is_request_exception e
  end.

Definition body_of (a : exn + response) : string :=
  match a with
  | inr r => text r
  | inl _ => EmptyString
  end.

Definition after (sc : scanner) (rs : list request) : scanner :=
  mk_scanner (target_url sc) (sent sc ++ rs).

(** *** For [get_plugin_cves] *)

Definition is_dict (v : pyval) : bool :=
  match v with PyDict _ => true | _ => false end.

(** [vuln.get(key)] of an entry that is a dict. *)
Definition field (vuln : pyval) (key : string) : pyval :=
  match py_get vuln key PyNone with
  | inr v => v
  | inl _ => PyNone
  end.

(** Which entries the report keeps, in the words of the resolver's
    rule: an entry without a fixed-in version always; one with a
    fixed-in version, when the installed version is known, if the
    installed version is older or the two cannot be compared; one with
    a fixed-in version and no installed version, never. *)
Definition relevant (version : option string) (vuln : pyval) : bool :=
  if negb (truthy (field vuln "fixed_in")) then true
  else if truthy (of_opt version) then
    match LooseVersion.less (of_opt version) (field vuln "fixed_in") with
    | inr older => older
    | inl _ => true
    end
  else false.

(** The finding written for an entry that is kept. *)
Definition reported (vuln : pyval) : Finding.t :=
  Finding.mk (field vuln "title") (field vuln "cve")
    (if truthy (field vuln "fixed_in") then field vuln "fixed_in"
     else PyStr "Not fixed").

(** [r] with the findings [fs] appended. *)
Definition extend (fs : list Finding.t) (r : CveResult.t) : CveResult.t :=
  CveResult.mk (CveResult.plugin_slug r) (CveResult.version r)
    (CveResult.vulnerabilities r ++ fs) (CveResult.is_outdated r)
    (CveResult.latest_version r) (CveResult.source r) (CveResult.error r).

(** The findings of the entries up to the first one that is no dict,
    where the loop stops on an [AttributeError]. *)
Fixpoint collected (version : option string) (items : list pyval)
  : list Finding.t * (exn + unit) :=
  match items with
  | [] => ([], inr tt)
  | vuln :: rest =>
      if is_dict vuln then
        let (fs, out) := collected version rest in
        ((if relevant version vuln then [reported vuln] else []) ++ fs, out)
      else ([], inl AttributeError)
  end.

Definition registry_request (slug : string) : request :=
  mk_request GET (registry_url slug) None.

Definition paid_request (slug : string) (api_token : option string)
  : request :=
  mk_request GET (wpscan_url slug)
    (Some ("Token token=" ++ fstr api_token)%string).

(** Read off an answer of the registry: the value under [version],
    when the answer is a 200 whose JSON is a dict. *)
Definition registry_latest (a : exn + response) : option pyval :=
  match a with
  | inr resp =>
      if (status_code resp =? 200)%Z then
        match json resp with
        | inr (PyDict d) =>
            Some (match lookup "version" d with Some v => v | None => PyNone end)
        | _ => None
        end
      else None
  | inl _ => None
  end.

(** Read off an answer of the paid database: the dict stored under
    the slug, when the answer is a 200 whose JSON is a dict. *)
Definition paid_entry (a : exn + response) (slug : string)
  : option (list (string * pyval)) :=
  match a with
  | inr resp =>
      if (status_code resp =? 200)%Z then
        match json resp with
        | inr (PyDict data) =>
            match lookup slug data with
            | Some (PyDict d) => Some d
            | Some _ => None
            | None => Some []
            end
        | _ => None
        end
      else None
  | inl _ => None
  end.

(** Its [latest_version], when there is a truthy one. *)
Definition paid_latest (a : exn + response) (slug : string) : option pyval :=
  match paid_entry a slug with
  | Some d =>
      match lookup "latest_version" d with
      | Some lv => if truthy lv then Some lv else None
      | None => None
      end
  | None => None
  end.

(** [is_outdated] computed anew against [latest], when both versions
    are truthy and can be compared. *)
Definition recomputed (version : option string) (latest : pyval)
  : option (exn + bool) :=
  if truthy (of_opt version) && truthy latest
  then Some (LooseVersion.less (of_opt version) latest)
  else None.

(** The entries the loop of step 2 runs over, when it is reached. *)
Definition paid_items (a : exn + response) (slug : string)
  (version : option string) : option (list pyval) :=
  match paid_entry a slug with
  | Some d =>
      match match paid_latest a slug with
            | Some lv => recomputed version lv
            | None => None
            end
      with
      | Some (inl _) => None
      | _ =>
          match py_iter (match lookup "vulnerabilities" d with
                         | Some v => v | None => PyList [] end) with
          | inr items => Some items
          | inl _ => None
          end
      end
  | None => None
  end.

(** Simplifies without unfolding the URLs. *)
Ltac quiet_cbn := cbn -[String.append wpscan_url registry_url].

(** The label put last: a report that is not outdated, with a token
    in the environment, is marked up to date. *)
Definition relabel (api_token : option string) (r : CveResult.t)
  : CveResult.t :=
  if negb (CveResult.is_outdated r) && truthy (of_opt api_token)
  then CveResult.set_source "WordPress.org API (Up to date)" r
  else r.

Definition api_token : option string := environ "WPSCAN_API_TOKEN".

(** The report as step 1 leaves it. *)
Definition after_tier1 (sc : scanner) (slug : string)
  (version : option string) : CveResult.t :=
  fst (snd (tier1 slug version (CveResult.init slug version, sc))).

(** The report as step 2 leaves it, when it runs. *)
Definition after_tier2 (sc : scanner) (slug : string)
  (version : option string) : CveResult.t :=
  fst (snd (tier2 slug version api_token
              (after_tier1 sc slug version,
               after sc [registry_request slug]))).

(** The answers of the two services in a run that starts at [sc]. *)
Definition registry_answer (sc : scanner) (slug : string) : exn + response :=
  net (sent sc) (registry_request slug).

Definition paid_answer (sc : scanner) (slug : string) : exn + response :=
  net (sent sc ++ [registry_request slug]) (paid_request slug api_token).

(** A paid-API credential is configured: the variable is set and not
    empty. *)
Definition configured : bool := truthy (of_opt api_token).

(** The report of a run and the requests it leaves behind. *)
Definition report_of {L} (out : (exn + CveResult.t) * (L * scanner))
  : option CveResult.t :=
  match fst out with inr r => Some r | inl _ => None end.

Definition requests_of {L A} (out : (exn + A) * (L * scanner))
  : list request :=
  sent (snd (snd out)).

(** *** For the slugs that reach [check_plugin] *)

(** Every character of the group comes from a captured item. *)
Definition captures_only (P : ascii -> Prop) (it : Re.item) : Prop :=
  Re.captured it = true -> forall c, Re.accepts it c = true -> P c.

Definition group_in (P : ascii -> Prop) (k : string -> option Re.result)
  : Prop :=
  forall s r, k s = Some r -> Forall P (list_ascii_of_string (fst r)).

(** *** For [enumerate_plugins] *)

(** The network fails with [RequestException] only. *)
Definition network_failures_only : Prop :=
  forall h q e, net h q = inl e -> is_request_exception e = true.

(** What holds of the locals of [enumerate_plugins] all along: the
    plugins listed are installed, their slugs differ, and each is in
    [found_slugs]. *)
Definition enum_inv (l : EnumLocals.t) : Prop :=
  let ps := EnumResult.plugins (EnumLocals.result l) in
  Forall (fun p => PluginInfo.is_installed p = true) ps
  /\ NoDup (map PluginInfo.plugin_slug ps)
  /\ (forall s, In s (map PluginInfo.plugin_slug ps) ->
       In s (EnumLocals.found_slugs l)).

(** The probes of the pool: one outcome per slug, about that slug. *)
Definition about (slug : string) (out : exn + PluginInfo.t) : Prop :=
  forall info, out = inr info -> PluginInfo.plugin_slug info = slug.

Definition returned (out : exn + PluginInfo.t) : Prop :=
  exists info, out = inr info.

(** The plugins of [l] followed by the installed ones among [infos]:
    what the loop over the futures leaves when every probe returned. *)
Definition add_installed (infos : list PluginInfo.t) (l : EnumLocals.t)
  : list PluginInfo.t :=
  EnumResult.plugins (EnumLocals.result l)
  ++ filter PluginInfo.is_installed infos.

(** The locals as the HTML stage leaves them. *)
Definition after_html (sc : scanner) : EnumLocals.t :=
  fst (snd (html_stage (EnumLocals.init, sc))).

(** *** For the versions the scanner extracts *)

(** A version made of digits and dots, as the patterns of the scanner
    capture them. *)
Definition numeric (v : string) : bool :=
  Str.nonempty v && Chars.all_in Re.digit_or_dot v.

(** Every run of digits of [v] is one that [int] reads: it has at
    most [max_str_digits] digits. *)
Definition short_runs (v : string) : bool :=
  forallb
    (fun r =>
       match fst r with
       | LooseVersion.Digits =>
           (String.length (snd r) <=? LooseVersion.max_str_digits)%nat
       | _ => true
       end)
    (LooseVersion.runs v).

Definition is_int (c : LooseVersion.component) : bool :=
  match c with LooseVersion.CInt _ => true | LooseVersion.CStr _ => false end.

Definition digits_or_dot (r : LooseVersion.cclass * string) : bool :=
  match fst r with
  | LooseVersion.Digits | LooseVersion.Dot => true
  | _ => false
  end.

(** *** For the probes of the pool *)

(** The network answers a request the same way whatever was sent
    before it. *)
Definition stateless : Prop := forall h h' q, net h q = net h' q.

(** What a probe of [slug] returns when it runs alone from [sc]. *)
Definition lone_probe (sc : scanner) (slug : string) : exn + PluginInfo.t :=
  fst (check_plugin slug (tt, sc)).

(** *** For the errors of step 2 *)

(** The exception the body of step 2 ends with, read off the entry
    [d] of the plugin in the paid answer: a comparison with its latest
    version that fails, a list of vulnerabilities that cannot be
    iterated, an entry of that list that is no dict. *)
Definition entry_failure (version : option string)
  (d : list (string * pyval)) : option exn :=
  match
    match lookup "latest_version" d with
    | Some lv => if truthy lv then recomputed version lv else None
    | None => None
    end
  with
  | Some (inl e) => Some e
  | _ =>
      match py_iter (match lookup "vulnerabilities" d with
                     | Some v => v | None => PyList [] end) with
      | inl e => Some e
      | inr items =>
          match snd (collected version items) with
          | inl e => Some e
          | inr _ => None
          end
      end
  end.

(** The same, read off the answer [a] of the paid database. *)
Definition paid_failure (a : exn + response) (slug : string)
  (version : option string) : option exn :=
  match a with
  | inl e => Some e
  | inr resp =>
      if (status_code resp =? 200)%Z then
        match json resp with
        | inl e => Some e
        | inr (PyDict data) =>
            match lookup slug data with
            | Some (PyDict d) => entry_failure version d
            | Some _ => Some AttributeError
            | None => entry_failure version []
            end
        | inr _ => Some AttributeError
        end
      else None
  end.

(** *** For the stages of [enumerate_plugins] *)

(** The slugs the HTML stage draws from the page of the site, when
    the page can be fetched. *)
Definition scraped (sc : scanner) : list string :=
  match net (sent sc) (mk_request GET (target_url sc) None) with
  | inr resp => set_iter (Re.findall Re.plugin_re (text resp))
  | inl _ => []
  end.

(** The methods of detection the result names. *)
Definition methods_used (sc : scanner) : list string :=
  (match scraped sc with [] => [] | _ :: _ => ["HTML parsing"] end)
  ++ ["common plugin checking (concurrent)"].

(** The slugs of the plugins listed in the locals are among [slugs],
    and the methods named so far are [dm]. *)
Definition listed_from (slugs dm : list string) (l : EnumLocals.t) : Prop :=
  (forall p, In p (EnumResult.plugins (EnumLocals.result l)) ->
     In (PluginInfo.plugin_slug p) slugs
     /\ PluginInfo.plugin_url p <> None)
  /\ EnumResult.detection_methods (EnumLocals.result l) = dm.

(** Closes a goal from a hypothesis of membership in a list of
    constants none of which is the member. *)
Ltac in_cases H :=
  repeat (destruct H as [H | H]; [discriminate | ]); contradiction.

(** *** For [build_list] *)

Definition no_break (c : ascii) : bool :=
  negb (Ascii.eqb c line_feed || Ascii.eqb c carriage_return).

(** A slug that is a string without a line break, and one that comes
    back from the file as it was written: not empty, and with no
    white space at either end. *)
Definition one_line (slug : pyval) : bool :=
  match slug with
  | PyStr s => Chars.all_in no_break s
  | _ => false
  end.

Definition clean (slug : pyval) : bool :=
  match slug with
  | PyStr s => Chars.all_in no_break s && Str.nonempty s && Chars.trimmed s
  | _ => false
  end.

Definition text_of (slug : pyval) : string :=
  match slug with
  | PyStr s => s
  | _ => EmptyString
  end.

(** A page that ends the listing: a 200 whose [plugins] is missing or
    falsy. *)
Definition empty_page (a : exn + response) : bool :=
  match a with
  | inr response =>
      (status_code response =? 200)%Z
      && match json response with
         | inr data =>
             match py_get data "plugins" (PyList []) with
             | inr plugins => negb (truthy plugins)
             | inl _ => false
             end
         | inl _ => false
         end
  | inl _ => false
  end.

(** ** Properties of [is_wordpress] *)

Lemma is_wordpress_cases {L} (st : L * scanner) :
  match root_answer st with
  | inr resp =>
      exists r, fst (is_wordpress st) = inr r
        /\ Indicators.error r = None
        /\ Indicators.is_wordpress r = (30 <=? Indicators.confidence r)%Z
        /\ Indicators.confidence r = total_weight (Indicators.detected_by r)
        /\ Indicators.detected_by r = matched_signals st resp
        /\ Indicators.wp_version r = Re.search Re.generator_re (text resp)
  | inl e =>
      if is_request_exception e then
        exists r, fst (is_wordpress st) = inr r
          /\ Indicators.error r = Some e
          /\ Indicators.is_wordpress r = false
          /\ Indicators.confidence r = 0%Z
          /\ Indicators.detected_by r = []
      else fst (is_wordpress (L:=L) st) = inl e
  end.
Proof.
  destruct st as [l sc].
  unfold root_answer, matched_signals, rest_answer, is_wordpress. run_monad.
  cbn [target_url sent].
  destruct (net (sent sc) _) as [e | resp] eqn:Hroot.
  - destruct e; cbn; eauto 10.
  - destruct (Str.contains "/wp-content/" (text resp)
              || Str.contains "/wp-includes/" (text resp));
      destruct (Re.search Re.generator_re (text resp)); cbn;
      match goal with
      | |- context [net ?h ?r] => destruct (net h r) as [e2 | api]
      end; cbn;
      try match goal with
      | |- context [(?a =? 200)%Z && ?b] =>
          destruct ((a =? 200)%Z && b)
      end; cbn; eexists; repeat split; reflexivity.
Qed.

(** C1. Whatever the network answers, a result that [is_wordpress]
    returns has [is_wordpress] equal to [confidence >= 30], its
    confidence is the sum of the weights of the signals it lists (30
    for the paths, 40 for the generator tag, 30 for the REST probe),
    and a failed root fetch returns a result with [error] set and
    confidence 0; the method returns unless the root fetch raises
    something that is no [RequestException]. *)
Theorem is_wordpress_threshold {L} (st : L * scanner) :
  (forall r, fst (is_wordpress st) = inr r ->
     Indicators.is_wordpress r = (30 <=? Indicators.confidence r)%Z
     /\ Indicators.confidence r = total_weight (Indicators.detected_by r)
     /\ (forall e, root_answer st = inl e ->
         Indicators.error r = Some e /\ Indicators.confidence r = 0%Z
         /\ Indicators.is_wordpress r = false))
  /\ (forall resp, root_answer st = inr resp ->
      exists r, fst (is_wordpress st) = inr r
        /\ Indicators.detected_by r = matched_signals st resp
        /\ Indicators.error r = None)
  /\ (forall msg, root_answer st = inl (RequestException msg) ->
      exists r, fst (is_wordpress st) = inr r).
Proof.
  pose proof (is_wordpress_cases st) as H.
  destruct (root_answer st) as [e | resp] eqn:Hroot.
  - destruct (is_request_exception e) eqn:He.
    + destruct H as (r & Hr & Herr & Hwp & Hc & Hd).
      split; [ | split ].
      * intros r' Hr'. rewrite Hr in Hr'. injection Hr' as <-.
        rewrite Hwp, Hc, Hd. split; [reflexivity | split; [reflexivity | ]].
        intros e' He'. injection He' as <-. auto.
      * discriminate.
      * intros msg _. eauto.
    + split; [ | split ].
      * intros r' Hr'. rewrite H in Hr'. discriminate.
      * discriminate.
      * intros msg Hm. injection Hm as ->. discriminate.
  - destruct H as (r & Hr & Herr & Hwp & Hc & Hd & _).
    split; [ | split ].
    + intros r' Hr'. rewrite Hr in Hr'. injection Hr' as <-.
      split; [assumption | split; [assumption | discriminate]].
    + intros resp' Hresp. injection Hresp as <-. eauto.
    + discriminate.
Qed.

(** ** Properties of [check_plugin] *)

(** C8. The probe of a slug tries the readme, then the style sheet,
    and stops at the first that answers 200: the readme gives
    [readme.txt] and the version of the stable tag (none when the
    pattern is absent) and no second request is sent; else the style
    sheet gives [asset file] and no version; else the plugin is not
    installed.  A network failure of either request counts as a miss
    and nothing is raised. *)
Theorem check_plugin_methods {L} (l : L) (sc : scanner) (slug : string) :
  (hits (readme_answer sc slug) = true ->
     check_plugin slug (l, sc) =
       (inr (PluginInfo.mk slug true
               (Re.search Re.stable_tag_re (body_of (readme_answer sc slug)))
               (Some "readme.txt") (Some (readme_url sc slug))),
        (l, after sc [readme_request sc slug])))
  /\ (misses (readme_answer sc slug) = true ->
      hits (css_answer sc slug) = true ->
      check_plugin slug (l, sc) =
        (inr (PluginInfo.mk slug true None
                (Some "asset file") (Some (css_url sc slug))),
         (l, after sc [readme_request sc slug; css_request sc slug])))
  /\ (misses (readme_answer sc slug) = true ->
      misses (css_answer sc slug) = true ->
      check_plugin slug (l, sc) =
        (inr (PluginInfo.mk slug false None None None),
         (l, after sc [readme_request sc slug; css_request sc slug]))).
Proof.
  unfold readme_answer, css_answer, readme_request, css_request,
    readme_url, css_url, after, check_plugin.
  run_monad. cbn [target_url sent].
  destruct (net (sent sc) _) as [e1 | r1];
    [ destruct e1 | destruct (status_code r1 =? 200)%Z eqn:S1 ];
    cbn -[String.append]; rewrite ?S1; cbn -[String.append];
    try match goal with
    | |- context [Re.search ?p ?t] => destruct (Re.search p t)
    end;
    try match goal with
    | |- context [net ?h ?r] =>
        destruct (net h r) as [e2 | r2];
        [ destruct e2 | destruct (status_code r2 =? 200)%Z eqn:S2 ]
    end;
    cbn -[String.append]; rewrite ?S2; cbn -[String.append];
    repeat split; intros; try discriminate;
    rewrite <- ?app_assoc; reflexivity.
Qed.

(** ** Properties of [get_plugin_cves] *)

(** *** The loop over the vulnerabilities *)

Lemma extend_nil (r : CveResult.t) : extend [] r = r.
Proof. destruct r; unfold extend; cbn. now rewrite app_nil_r. Qed.

Lemma extend_extend (fs gs : list Finding.t) (r : CveResult.t) :
  extend gs (extend fs r) = extend (fs ++ gs) r.
Proof. unfold extend; cbn. now rewrite app_assoc. Qed.

Lemma vuln_step_run (version : option string) (vuln : pyval)
  (r : CveResult.t) (sc : scanner) :
  vuln_step version vuln (r, sc) =
    if is_dict vuln then
      (inr tt,
       (extend (if relevant version vuln then [reported vuln] else []) r, sc))
    else (inl AttributeError, (r, sc)).
Proof.
  destruct vuln; try reflexivity.
  unfold vuln_step, relevant, reported, finding_of, field. run_monad.
  cbn [py_get is_dict].
  destruct (truthy (match lookup "fixed_in" d with
                    | Some v => v | None => PyNone end)) eqn:Hf; cbn.
  - destruct (truthy (of_opt version)); cbn.
    + destruct (LooseVersion.less _ _) as [e | []]; cbn;
        rewrite ?extend_nil; reflexivity.
    + now rewrite extend_nil.
  - reflexivity.
Qed.

Lemma vuln_loop_run (version : option string) (items : list pyval) :
  forall (r : CveResult.t) (sc : scanner),
    for_each items (vuln_step version) (r, sc) =
      (snd (collected version items),
       (extend (fst (collected version items)) r, sc)).
Proof.
  induction items as [| vuln rest IH]; intros r sc.
  - cbn. now rewrite extend_nil.
  - cbn [for_each collected]. unfold bind at 1. rewrite vuln_step_run.
    destruct (is_dict vuln).
    + rewrite IH. destruct (collected version rest) as [fs out]. cbn [fst snd].
      now rewrite extend_extend.
    + cbn. now rewrite extend_nil.
Qed.

(** With entries that are all dicts the loop runs to its end. *)
Lemma collected_dicts (version : option string) (items : list pyval) :
  forallb is_dict items = true ->
  collected version items =
    (map reported (filter (relevant version) items), inr tt).
Proof.
  induction items as [| vuln rest IH]; [reflexivity | ].
  cbn [forallb collected]. intros H. apply andb_true_iff in H as [Hd Hrest].
  rewrite Hd, (IH Hrest). cbn [filter].
  destruct (relevant version vuln); reflexivity.
Qed.

(** *** The two steps *)

Lemma tier1_run (slug : string) (version : option string)
  (r : CveResult.t) (sc : scanner) :
  let a := net (sent sc) (registry_request slug) in
  exists r1,
    tier1 slug version (r, sc) =
      (inr tt, (r1, after sc [registry_request slug]))
    /\ CveResult.plugin_slug r1 = CveResult.plugin_slug r
    /\ CveResult.version r1 = CveResult.version r
    /\ CveResult.vulnerabilities r1 = CveResult.vulnerabilities r
    /\ CveResult.error r1 = CveResult.error r
    /\ CveResult.source r1 = "WordPress.org API"
    /\ CveResult.latest_version r1 =
         match registry_latest a with
         | Some lv => lv
         | None => CveResult.latest_version r
         end
    /\ CveResult.is_outdated r1 =
         match registry_latest a with
         | Some lv =>
             match recomputed version lv with
             | Some (inr older) => older
             | Some (inl _) => true
             | None => CveResult.is_outdated r
             end
         | None => true
         end.
Proof.
  unfold tier1, tier1_body, registry_latest, recomputed, registry_request,
    after.
  run_monad. cbn [target_url sent].
  destruct (net (sent sc) _) as [e | resp]; cbn.
  - eexists; repeat split; reflexivity.
  - destruct (status_code resp =? 200)%Z; cbn;
      [ | eexists; repeat split; reflexivity ].
    destruct (json resp) as [e | []]; cbn;
      try (eexists; repeat split; reflexivity).
    destruct (truthy (of_opt version)
              && truthy match lookup "version" d with
                        | Some v => v | None => PyNone end); cbn;
      [ | eexists; repeat split; reflexivity ].
    destruct (LooseVersion.less _ _); cbn; eexists; repeat split; reflexivity.
Qed.

Lemma tier2_run (slug : string) (version api_token : option string)
  (r : CveResult.t) (sc : scanner) :
  let a := net (sent sc) (paid_request slug api_token) in
  exists r2,
    tier2 slug version api_token (r, sc) =
      (inr tt, (r2, after sc [paid_request slug api_token]))
    /\ CveResult.plugin_slug r2 = CveResult.plugin_slug r
    /\ CveResult.version r2 = CveResult.version r
    /\ CveResult.source r2 = "WPScan API (Outdated)"
    /\ CveResult.latest_version r2 =
         match paid_latest a slug with
         | Some lv => lv
         | None => CveResult.latest_version r
         end
    /\ CveResult.is_outdated r2 =
         match paid_latest a slug with
         | Some lv =>
             match recomputed version lv with
             | Some (inr older) => older
             | _ => CveResult.is_outdated r
             end
         | None => CveResult.is_outdated r
         end
    /\ CveResult.vulnerabilities r2 =
         CveResult.vulnerabilities r ++
         match paid_items a slug version with
         | Some items => fst (collected version items)
         | None => []
         end
    /\ CveResult.error r2 =
         match fst (tier2_body slug version api_token
                      (CveResult.set_source "WPScan API (Outdated)" r, sc))
         with
         | inl e => Some e
         | inr _ => CveResult.error r
         end.
Proof.
  unfold tier2, tier2_body, paid_items, paid_latest, paid_entry, recomputed,
    paid_request, after.
  run_monad. cbn [target_url sent].
  destruct (net (sent sc) _) as [e | resp]; quiet_cbn;
    try destruct (status_code resp =? 200)%Z; quiet_cbn;
    try destruct (json resp) as [e | []]; quiet_cbn;
    try match goal with
    | |- context [lookup slug ?d] => destruct (lookup slug d) as [[] | ]
    end; quiet_cbn;
    try match goal with
    | |- context [lookup "latest_version" ?d] =>
        destruct (lookup "latest_version" d) as [lv | ]
    end; quiet_cbn;
    try destruct (truthy lv) eqn:Hlv; quiet_cbn;
    try destruct (truthy (of_opt version)) eqn:Hv; quiet_cbn;
    try match goal with
    | |- context [LooseVersion.less ?a ?b] =>
        destruct (LooseVersion.less a b) as [e | older]
    end; quiet_cbn;
    try match goal with
    | |- context [lookup "vulnerabilities" ?d] =>
        destruct (lookup "vulnerabilities" d) as [v | ]
    end; quiet_cbn;
    try match goal with
    | |- context [py_iter ?v] => destruct (py_iter v) as [e | items]
    end; quiet_cbn;
    try rewrite vuln_loop_run;
    try match goal with
    | |- context [collected ?v ?l] =>
        destruct (collected v l) as [fs [e | []]] eqn:Hc
    end; quiet_cbn;
    eexists; repeat split; try reflexivity;
    cbn; try rewrite Hlv; cbn; try rewrite Hc; cbn;
    rewrite ?app_nil_r; reflexivity.
Qed.

(** *** The whole method *)

Lemma after_after (sc : scanner) (xs ys : list request) :
  after (after sc xs) ys = after sc (xs ++ ys).
Proof. unfold after; cbn. now rewrite app_assoc. Qed.

Lemma get_plugin_cves_run {L} (slug : string) (version : option string)
  (l : L) (sc : scanner) :
  get_plugin_cves slug version (l, sc) =
    if wants_tier2 (after_tier1 sc slug version) version api_token then
      (inr (relabel api_token (after_tier2 sc slug version)),
       (l, after sc [registry_request slug; paid_request slug api_token]))
    else
      (inr (relabel api_token (after_tier1 sc slug version)),
       (l, after sc [registry_request slug])).
Proof.
  unfold after_tier2, after_tier1, relabel.
  destruct (tier1_run slug version (CveResult.init slug version) sc)
    as (r1 & H1 & _).
  unfold get_plugin_cves, call. unfold bind at 1. cbn [snd fst].
  rewrite H1. cbn [fst snd].
  unfold bind at 1, get_local at 1. cbn [fst snd].
  unfold bind at 1. fold api_token.
  destruct (wants_tier2 r1 version api_token); unfold when at 1.
  - destruct (tier2_run slug version api_token r1
                (after sc [registry_request slug])) as (r2 & H2 & _).
    rewrite H2. cbn [fst snd]. rewrite after_after. cbn [app].
    run_monad. destruct (negb (CveResult.is_outdated r2) && _); reflexivity.
  - run_monad. destruct (negb (CveResult.is_outdated r1) && _); reflexivity.
Qed.

Lemma after_tier1_facts (sc : scanner) (slug : string)
  (version : option string) :
  let r1 := after_tier1 sc slug version in
  CveResult.vulnerabilities r1 = []
  /\ CveResult.error r1 = None
  /\ CveResult.source r1 = "WordPress.org API"
  /\ CveResult.latest_version r1 =
       match registry_latest (registry_answer sc slug) with
       | Some lv => lv
       | None => PyNone
       end
  /\ CveResult.is_outdated r1 =
       match registry_latest (registry_answer sc slug) with
       | Some lv =>
           match recomputed version lv with
           | Some (inr older) => older
           | Some (inl _) => true
           | None => false
           end
       | None => true
       end.
Proof.
  unfold after_tier1, registry_answer.
  destruct (tier1_run slug version (CveResult.init slug version) sc)
    as (r1 & H1 & _ & _ & Hv & He & Hs & Hl & Ho).
  rewrite H1. cbn [fst snd]. auto.
Qed.

Lemma after_tier2_facts (sc : scanner) (slug : string)
  (version : option string) :
  let r1 := after_tier1 sc slug version in
  let r2 := after_tier2 sc slug version in
  let a := paid_answer sc slug in
  CveResult.source r2 = "WPScan API (Outdated)"
  /\ CveResult.is_outdated r2 =
       match paid_latest a slug with
       | Some lv =>
           match recomputed version lv with
           | Some (inr older) => older
           | _ => CveResult.is_outdated r1
           end
       | None => CveResult.is_outdated r1
       end
  /\ CveResult.vulnerabilities r2 =
       match paid_items a slug version with
       | Some items => fst (collected version items)
       | None => []
       end
  /\ CveResult.error r2 =
       match fst (tier2_body slug version api_token
                    (CveResult.set_source "WPScan API (Outdated)" r1,
                     after sc [registry_request slug]))
       with
       | inl e => Some e
       | inr _ => None
       end.
Proof.
  cbv zeta. unfold after_tier2, paid_answer.
  destruct (after_tier1_facts sc slug version) as (Hv & He & _).
  destruct (tier2_run slug version api_token (after_tier1 sc slug version)
              (after sc [registry_request slug]))
    as (r2 & H2 & _ & _ & Hs & _ & Ho & Hvs & Her).
  rewrite H2. cbn [fst snd]. cbn [after sent] in Ho, Hvs.
  rewrite Hs, Ho, Hvs, Her, Hv, He. auto.
Qed.

Lemma relabel_keeps (tok : option string) (r : CveResult.t) :
  CveResult.is_outdated (relabel tok r) = CveResult.is_outdated r
  /\ CveResult.vulnerabilities (relabel tok r) = CveResult.vulnerabilities r
  /\ CveResult.error (relabel tok r) = CveResult.error r
  /\ CveResult.latest_version (relabel tok r) = CveResult.latest_version r.
Proof. unfold relabel. destruct (negb _ && _); cbn; auto. Qed.

Lemma miss_registry_latest (a : exn + response) :
  hits a = false -> registry_latest a = None.
Proof.
  destruct a as [e | resp]; cbn; [reflexivity | ].
  now intros ->.
Qed.

(** C4. Step 2 sends its request exactly when a credential is
    configured and step 1 left the plugin outdated or the installed
    version is known while the registry gave no latest version;
    otherwise the registry request is the only one.  Without a
    credential the report lists no vulnerability. *)
Theorem tier2_gate {L} (slug : string) (version : option string)
  (l : L) (sc : scanner) :
  let r1 := after_tier1 sc slug version in
  let known := truthy (of_opt version) in
  let resolved := truthy (CveResult.latest_version r1) in
  let gate :=
    configured
    && (CveResult.is_outdated r1 || (known && negb resolved)) in
  let out := get_plugin_cves slug version (l, sc) in
  requests_of out =
    sent sc ++
    (if gate
     then [registry_request slug; paid_request slug api_token]
     else [registry_request slug])
  /\ (exists r, report_of out = Some r
       /\ (configured = false -> CveResult.vulnerabilities r = [])).
Proof.
  cbv zeta. unfold requests_of, report_of, configured.
  rewrite get_plugin_cves_run. unfold wants_tier2.
  rewrite (andb_comm (truthy (of_opt api_token))).
  rewrite (andb_comm (negb (truthy (CveResult.latest_version _)))).
  destruct (_ && truthy (of_opt api_token)) eqn:Hg; cbn [fst snd after sent].
  - split; [reflexivity | ]. eexists; split; [reflexivity | ].
    intros Hc. rewrite Hc, andb_false_r in Hg. discriminate.
  - split; [reflexivity | ]. eexists; split; [reflexivity | ].
    intros _. destruct (relabel_keeps api_token (after_tier1 sc slug version))
      as (_ & -> & _).
    apply after_tier1_facts.
Qed.

(** C3, as the code has it. When the registry call raises or answers
    another status than 200, step 1 leaves [is_outdated] true; the
    report keeps it true unless step 2 runs and computes it anew from
    the latest version of the paid database: it is false exactly when a
    credential is configured, the paid database gives a latest version,
    and the installed version is known and not older than it.  Without
    a credential it is always true. *)
Theorem registry_failure_outdated {L} (slug : string)
  (version : option string) (l : L) (sc : scanner) :
  hits (registry_answer sc slug) = false ->
  CveResult.is_outdated (after_tier1 sc slug version) = true
  /\ exists r,
       report_of (get_plugin_cves slug version (l, sc)) = Some r
       /\ (configured = false -> CveResult.is_outdated r = true)
       /\ (CveResult.is_outdated r = false <->
           configured = true
           /\ exists lv, paid_latest (paid_answer sc slug) slug = Some lv
                /\ recomputed version lv = Some (inr false)).
Proof.
  intros Hmiss. apply miss_registry_latest in Hmiss.
  destruct (after_tier1_facts sc slug version) as (_ & _ & _ & _ & Ho1).
  rewrite Hmiss in Ho1. split; [exact Ho1 | ].
  unfold report_of, configured. rewrite get_plugin_cves_run.
  unfold wants_tier2. rewrite Ho1. cbn [orb andb].
  destruct (truthy (of_opt api_token)) eqn:Htok; cbn [fst].
  - eexists; split; [reflexivity | ]. split; [discriminate | ].
    destruct (relabel_keeps api_token (after_tier2 sc slug version))
      as (-> & _).
    destruct (after_tier2_facts sc slug version) as (_ & -> & _).
    rewrite Ho1.
    destruct (paid_latest (paid_answer sc slug) slug) as [lv | ].
    + destruct (recomputed version lv) as [[e | []] | ] eqn:Hrec; split;
        try discriminate;
        try (intros (_ & lv' & Hlv & Hr); congruence).
      intros _. split; [reflexivity | eauto].
    + split; [discriminate | intros (_ & lv' & Hlv & _); discriminate].
  - eexists; split; [reflexivity | ].
    destruct (relabel_keeps api_token (after_tier1 sc slug version))
      as (-> & _).
    rewrite Ho1. split; [reflexivity | ].
    split; [discriminate | intros (Hc & _); discriminate].
Qed.

(** C9, as the code has it. The resolver always returns a report.
    An exception raised in step 1 is not recorded: it leaves
    [is_outdated] true and [error] unset.  When step 2 runs, [error]
    holds the exception its body raised, if any; the body does not
    raise for a version comparison that fails inside the loop over the
    vulnerabilities, which keeps the entry.  When step 2 does not run
    [error] stays unset. *)
Theorem resolver_errors {L} (slug : string) (version : option string)
  (l : L) (sc : scanner) :
  let r1 := after_tier1 sc slug version in
  exists r,
    report_of (get_plugin_cves slug version (l, sc)) = Some r
    /\ (forall e st',
          tier1_body slug version
            (CveResult.set_source "WordPress.org API"
               (CveResult.init slug version), sc) = (inl e, st') ->
          CveResult.is_outdated r1 = true /\ CveResult.error r1 = None)
    /\ CveResult.error r =
         if wants_tier2 r1 version api_token then
           match fst (tier2_body slug version api_token
                        (CveResult.set_source "WPScan API (Outdated)" r1,
                         after sc [registry_request slug]))
           with
           | inl e => Some e
           | inr _ => None
           end
         else None.
Proof.
  cbv zeta. unfold report_of. rewrite get_plugin_cves_run.
  destruct (after_tier1_facts sc slug version) as (_ & He1 & _).
  assert (Hbody : forall e st',
            tier1_body slug version
              (CveResult.set_source "WordPress.org API"
                 (CveResult.init slug version), sc) = (inl e, st') ->
            CveResult.is_outdated (after_tier1 sc slug version) = true).
  { intros e st' Hb. unfold after_tier1, tier1.
    unfold bind at 1, modify at 1. cbn [fst snd].
    unfold try_except. rewrite Hb. reflexivity. }
  destruct (wants_tier2 _ version api_token); cbn [fst];
    eexists; (split; [reflexivity | ]);
    (split; [intros e st' Hb; split; [eapply Hbody; eauto | exact He1] | ]).
  - destruct (relabel_keeps api_token (after_tier2 sc slug version))
      as (_ & _ & -> & _).
    apply after_tier2_facts.
  - destruct (relabel_keeps api_token (after_tier1 sc slug version))
      as (_ & _ & -> & _).
    exact He1.
Qed.

(** C5, as the code has it. Over entries that are dicts the loop of
    step 2 appends the finding of every relevant entry, in order.  An
    entry without a fixed-in version is relevant and reported as
    [Not fixed]; one with a fixed-in version, the installed version
    known, is relevant when the installed version is older or the
    comparison fails; one with a fixed-in version and no installed
    version is left out.  When step 2 runs and reaches the loop, these
    findings are the vulnerabilities of the report. *)
Theorem vulnerability_filter {L} (slug : string) (version : option string)
  (l : L) (sc : scanner) :
  (forall items r sc',
     forallb is_dict items = true ->
     for_each items (vuln_step version) (r, sc') =
       (inr tt,
        (extend (map reported (filter (relevant version) items)) r, sc')))
  /\ (forall vuln,
       (truthy (field vuln "fixed_in") = false ->
          relevant version vuln = true
          /\ Finding.fixed_in (reported vuln) = PyStr "Not fixed")
       /\ (truthy (field vuln "fixed_in") = true ->
           truthy (of_opt version) = true ->
           Finding.fixed_in (reported vuln) = field vuln "fixed_in"
           /\ relevant version vuln =
                match LooseVersion.less (of_opt version)
                        (field vuln "fixed_in") with
                | inr older => older
                | inl _ => true
                end)
       /\ (truthy (field vuln "fixed_in") = true ->
           truthy (of_opt version) = false ->
           relevant version vuln = false))
  /\ (forall items,
       wants_tier2 (after_tier1 sc slug version) version api_token = true ->
       paid_items (paid_answer sc slug) slug version = Some items ->
       forallb is_dict items = true ->
       exists r,
         report_of (get_plugin_cves slug version (l, sc)) = Some r
         /\ CveResult.vulnerabilities r =
              map reported (filter (relevant version) items)).
Proof.
  split; [ | split ].
  - intros items r sc' Hd.
    rewrite vuln_loop_run, (collected_dicts _ _ Hd). reflexivity.
  - intros vuln. unfold relevant, reported.
    split; [ | split ].
    + intros ->. cbn. auto.
    + intros -> ->. cbn. auto.
    + intros -> ->. reflexivity.
  - intros items Hw Hitems Hd. unfold report_of.
    rewrite get_plugin_cves_run, Hw. cbn [fst].
    eexists; split; [reflexivity | ].
    destruct (relabel_keeps api_token (after_tier2 sc slug version))
      as (_ & -> & _).
    destruct (after_tier2_facts sc slug version) as (_ & _ & -> & _).
    rewrite Hitems, (collected_dicts _ _ Hd). reflexivity.
Qed.

(** The label of the report: up to date whenever the report is not
    outdated and a credential is configured, whether step 2 ran or
    not. *)
Lemma source_label {L} (slug : string) (version : option string)
  (l : L) (sc : scanner) :
  exists r,
    report_of (get_plugin_cves slug version (l, sc)) = Some r
    /\ CveResult.source r =
         if negb (CveResult.is_outdated r) && configured
         then "WordPress.org API (Up to date)"
         else if wants_tier2 (after_tier1 sc slug version) version api_token
              then "WPScan API (Outdated)"
              else "WordPress.org API".
Proof.
  unfold report_of, configured. rewrite get_plugin_cves_run.
  destruct (after_tier1_facts sc slug version) as (_ & _ & Hs1 & _).
  destruct (after_tier2_facts sc slug version) as (Hs2 & _).
  destruct (wants_tier2 _ version api_token); cbn [fst];
    eexists; (split; [reflexivity | ]); unfold relabel;
    destruct (negb _ && truthy (of_opt api_token)) eqn:Hb; cbn;
    rewrite ?Hb; auto.
Qed.

(** ** Which slugs reach [check_plugin] *)

Lemma keep_group (P : ascii -> Prop) (it : Re.item) (c : ascii)
  (r : Re.result) :
  captures_only P it -> Re.accepts it c = true ->
  Forall P (list_ascii_of_string (fst r)) ->
  Forall P (list_ascii_of_string (fst (Re.keep (Re.captured it) c r))).
Proof.
  intros Hit Hc Hr. unfold Re.keep.
  destruct (Re.captured it) eqn:Hcap; cbn; auto.
Qed.

Lemma one_group (P : ascii -> Prop) (it : Re.item)
  (k : string -> option Re.result) :
  captures_only P it -> group_in P k -> group_in P (Re.one it k).
Proof.
  intros Hit Hk [| c s] r; cbn; [discriminate | ].
  destruct (Re.accepts it c) eqn:Hc; [ | discriminate ].
  destruct (k s) as [r' | ] eqn:Hks; cbn; [ | discriminate ].
  intros [= <-]. apply keep_group; eauto.
Qed.

Lemma greedy_group (P : ascii -> Prop) (it : Re.item)
  (k : string -> option Re.result) :
  captures_only P it -> group_in P k -> group_in P (Re.greedy it k).
Proof.
  intros Hit Hk s. induction s as [| c s IH]; intros r; cbn.
  - apply Hk.
  - destruct (Re.accepts it c) eqn:Hc; [ | apply Hk ].
    destruct (Re.greedy it k s) as [r' | ] eqn:Hg; [ | apply Hk ].
    intros [= <-]. apply keep_group; auto.
Qed.

Lemma match_here_group (P : ascii -> Prop) (p : Re.pattern) :
  Forall (captures_only P) p -> group_in P (Re.match_here p).
Proof.
  induction 1 as [| it p Hit Hp IH]; cbn.
  - intros s r [= <-]. constructor.
  - destruct (Re.quant it).
    + now apply one_group.
    + now apply greedy_group.
    + apply one_group; [assumption | now apply greedy_group].
Qed.

Lemma findall_from_match (p : Re.pattern) (g : string) :
  forall s skip, In g (Re.findall_from p s skip) ->
    exists s' r, Re.match_here p s' = Some r /\ fst r = g.
Proof.
  induction s as [| c s IH]; intros skip; cbn.
  - destruct skip; [ | contradiction ].
    destruct (Re.match_here p EmptyString) as [r | ] eqn:Hm;
      [ | contradiction ].
    intros [<- | []]. eauto.
  - destruct skip as [| n]; [ | apply IH ].
    destruct (Re.match_here p (String c s)) as [r | ] eqn:Hm; [ | apply IH ].
    intros [<- | Hin]; [eauto | eapply IH; eauto].
Qed.

Lemma match_here_lit (t : string) (p : Re.pattern) :
  forall s r, Re.match_here (Re.lit t ++ p) s = Some r ->
    exists s', Re.match_here p s' = Some r.
Proof.
  induction t as [| c t IH]; intros s r; cbn; [eauto | ].
  destruct s as [| c' s]; cbn; [discriminate | ].
  destruct (Ascii.eqb c c'); [ | discriminate ].
  destruct (Re.match_here (Re.lit t ++ p) s) as [r' | ] eqn:Hm;
    cbn; [ | discriminate ].
  intros [= <-]. destruct r' as [g rest]. cbn. eapply IH; eauto.
Qed.

Lemma plugin_re_group (s : string) (r : Re.result) :
  Re.match_here Re.plugin_re s = Some r ->
  fst r <> EmptyString
  /\ Forall (fun c => Re.slug_char c = true) (list_ascii_of_string (fst r)).
Proof.
  intros Hm. split.
  - apply match_here_lit in Hm as (s' & Hm). cbn in Hm.
    destruct s' as [| c s']; cbn in Hm; [discriminate | ].
    destruct (Re.slug_char c); [ | discriminate ].
    destruct (Re.greedy _ _ s'); cbn in Hm; [ | discriminate ].
    injection Hm as <-. discriminate.
  - revert s r Hm. apply match_here_group.
    unfold Re.plugin_re. apply Forall_app. split.
    + generalize "/wp-content/plugins/".
      induction s as [| c t IH]; cbn; constructor; auto.
      intros Hcap. discriminate.
    + constructor; [ | constructor ]. intros _ c Hc. exact Hc.
Qed.

(** C10, as the code has it. The prober neither rejects nor encodes
    a slug: the base URL holds the slug as given, and the readme
    request for it is always sent, whatever the slug contains.  Only
    the slugs scraped from the page are free of separators: the group
    of the plugin pattern is never empty and holds no slash,
    apostrophe or double quote. *)
Theorem slug_reaches_url {L} (l : L) (sc : scanner) (slug : string) :
  plugin_base_url (target_url sc) slug =
    (target_url sc ++ "/wp-content/plugins/" ++ slug ++ "/")%string
  /\ (exists rest,
       requests_of (check_plugin slug (l, sc)) =
         sent sc
         ++ mk_request GET
              (urljoin (plugin_base_url (target_url sc) slug) "readme.txt")
              None :: rest)
  /\ (forall html s, In s (Re.findall Re.plugin_re html) ->
       s <> EmptyString
       /\ forall c, In c (list_ascii_of_string s) ->
            c <> "/"%char /\ c <> Str.squote /\ c <> Str.dquote).
Proof.
  split; [reflexivity | split ].
  - unfold requests_of, check_plugin. run_monad. cbn [target_url sent].
    destruct (net (sent sc) _) as [e1 | r1];
      [ destruct e1 | destruct (status_code r1 =? 200)%Z ];
      cbn -[String.append];
      try match goal with
      | |- context [Re.search ?p ?t] => destruct (Re.search p t)
      end;
      try match goal with
      | |- context [net ?h ?r] =>
          destruct (net h r) as [e2 | r2];
          [ destruct e2 | destruct (status_code r2 =? 200)%Z ]
      end;
      cbn -[String.append]; rewrite <- ?app_assoc; eexists; reflexivity.
  - intros html s Hin. apply findall_from_match in Hin as (s' & r & Hm & <-).
    apply plugin_re_group in Hm as [Hne Hall]. split; [exact Hne | ].
    intros c Hc. rewrite Forall_forall in Hall. specialize (Hall c Hc).
    unfold Re.slug_char in Hall. apply negb_true_iff in Hall.
    apply orb_false_iff in Hall as [Hall Hd].
    apply orb_false_iff in Hall as [Hs Hq].
    repeat split; intros ->; rewrite Ascii.eqb_refl in *; discriminate.
Qed.

(** ** Properties of [enumerate_plugins] *)

Lemma mem_In (x : string) (l : list string) : mem x l = true <-> In x l.
Proof.
  unfold mem. rewrite existsb_exists. split.
  - intros (y & Hy & He). apply String.eqb_eq in He. now subst.
  - intros H. exists x. split; [assumption | apply String.eqb_refl].
Qed.

(** A probe leaves the locals of its caller alone, reports on the slug
    it was given, and returns when the network fails as networks do. *)
Lemma check_plugin_result {L} (slug : string) (l : L) (sc : scanner) :
  exists out sc',
    check_plugin slug (l, sc) = (out, (l, sc'))
    /\ (forall info, out = inr info -> PluginInfo.plugin_slug info = slug)
    /\ (network_failures_only -> exists info, out = inr info).
Proof.
  unfold check_plugin. run_monad. cbn [target_url sent].
  destruct (net (sent sc) _) as [e1 | r1] eqn:H1;
    [ destruct e1 | destruct (status_code r1 =? 200)%Z ];
    cbn -[String.append];
    try match goal with
    | |- context [Re.search ?p ?t] => destruct (Re.search p t)
    end;
    try match goal with
    | |- context [net ?h ?r] =>
        destruct (net h r) as [e2 | r2] eqn:H2;
        [ destruct e2 | destruct (status_code r2 =? 200)%Z ]
    end;
    cbn -[String.append];
    do 2 eexists; (split; [reflexivity | ]);
    (split;
     [ intros info Hi; try discriminate; injection Hi as <-; reflexivity
     | intros Hnet; try (eexists; reflexivity); exfalso;
       first [ apply Hnet in H1; discriminate
             | apply Hnet in H2; discriminate ] ]).
Qed.

Lemma enum_inv_init : enum_inv EnumLocals.init.
Proof. repeat split; cbn; try constructor. contradiction. Qed.

Lemma enum_inv_record (info : PluginInfo.t) (l : EnumLocals.t) :
  enum_inv l ->
  PluginInfo.is_installed info = true ->
  ~ In (PluginInfo.plugin_slug info) (EnumLocals.found_slugs l) ->
  enum_inv (EnumLocals.add_found (PluginInfo.plugin_slug info)
              (EnumLocals.append_plugin info l)).
Proof.
  intros (Hi & Hn & Hf) Hinst Hnew. unfold enum_inv; cbn.
  rewrite map_app; cbn. repeat split.
  - apply Forall_app. split; [assumption | now constructor].
  - apply NoDup_app; [assumption | repeat constructor; intros [] | ].
    intros s Hs [<- | []]. apply Hnew, Hf, Hs.
  - intros s Hs. apply in_app_or in Hs as [Hs | [<- | []]];
      [right; now apply Hf | now left].
Qed.

Lemma for_each_inv {A} (I : EnumLocals.t -> Prop)
  (body : A -> M EnumLocals.t unit) :
  (forall x st, I (fst st) -> I (fst (snd (body x st)))) ->
  forall xs st, I (fst st) -> I (fst (snd (for_each xs body st))).
Proof.
  intros Hbody. induction xs as [| x xs IH]; intros st Hst; cbn.
  - assumption.
  - unfold bind. specialize (Hbody x st Hst).
    destruct (body x st) as [[e | []] st']; cbn in *; auto.
Qed.

Lemma html_step_inv (slug : string) (st : EnumLocals.t * scanner) :
  enum_inv (fst st) -> enum_inv (fst (snd (html_step slug st))).
Proof.
  destruct st as [l sc]. cbn [fst]. intros Hinv.
  unfold html_step, bind, get_local, when. cbn [fst snd].
  destruct (mem slug (EnumLocals.found_slugs l)) eqn:Hm; cbn [negb];
    [assumption | ].
  destruct (check_plugin_result slug l sc) as (out & sc' & Hcp & Hslug & _).
  rewrite Hcp. destruct out as [e | info]; cbn [fst snd]; [assumption | ].
  unfold record_installed, when.
  destruct (PluginInfo.is_installed info) eqn:Hinst; cbn [fst snd];
    [ | assumption ].
  unfold bind, modify; cbn [fst snd].
  specialize (Hslug info eq_refl). subst slug.
  apply enum_inv_record; auto.
  intros Hin. apply mem_In in Hin. congruence.
Qed.

Lemma html_stage_run (l : EnumLocals.t) (sc : scanner) :
  enum_inv l ->
  fst (html_stage (l, sc)) = inr tt
  /\ enum_inv (fst (snd (html_stage (l, sc)))).
Proof.
  intros Hinv. unfold html_stage, try_except, bind, self_target_url,
    session_get, session_send. cbn [fst snd].
  destruct (net (sent sc) _) as [e | resp]; cbn; [auto | ].
  destruct (set_iter _) as [| slug slugs]; cbn [when]; [cbn; auto | ].
  unfold bind, modify. cbn [fst snd].
  match goal with
  | |- context [for_each ?xs html_step ?st] =>
      pose proof (for_each_inv enum_inv html_step html_step_inv xs st) as H;
      destruct (for_each xs html_step st) as [[e | []] st']
  end; cbn in *; auto.
Qed.

Lemma probes_run (slugs : list string) :
  forall (l : EnumLocals.t) (sc : scanner),
  exists outs sc',
    map_m (fun slug => attempt (check_plugin slug)) slugs (l, sc) =
      (inr outs, (l, sc'))
    /\ Forall2 about slugs outs
    /\ (network_failures_only -> Forall returned outs).
Proof.
  induction slugs as [| slug slugs IH]; intros l sc; cbn [map_m].
  - exists [], sc. split; [reflexivity | split; [constructor | ] ].
    intros _. constructor.
  - destruct (check_plugin_result slug l sc) as (out & sc1 & Hcp & Ha & Hr).
    destruct (IH l sc1) as (outs & sc2 & Hm & Hall & Hrs).
    exists (out :: outs), sc2. unfold bind at 1, attempt at 1.
    rewrite Hcp. unfold bind at 1. rewrite Hm.
    split; [reflexivity | split ].
    + constructor; assumption.
    + intros Hnet. constructor; [exact (Hr Hnet) | exact (Hrs Hnet)].
Qed.


Lemma collect_returned (infos : list PluginInfo.t) :
  forall (l : EnumLocals.t) (sc : scanner),
  exists l',
    for_each (map inr infos) collect_step (l, sc) = (inr tt, (l', sc))
    /\ EnumResult.plugins (EnumLocals.result l') = add_installed infos l.
Proof.
  unfold add_installed.
  induction infos as [| info infos IH]; intros l sc; cbn [map for_each filter].
  - exists l. cbn. now rewrite app_nil_r.
  - unfold bind at 1, collect_step at 1, lift, record_installed, when.
    unfold bind at 1. cbn [fst snd].
    destruct (PluginInfo.is_installed info); cbn [fst snd].
    + unfold bind at 1, modify. cbn [fst snd].
      match goal with
      | |- context [for_each _ collect_step (?l1, sc)] =>
          destruct (IH l1 sc) as (l' & Hrun & Hps)
      end.
      exists l'. split; [exact Hrun | ]. rewrite Hps. cbn.
      now rewrite <- app_assoc.
    + unfold ret. destruct (IH l sc) as (l' & Hrun & Hps). eauto.
Qed.


Lemma all_returned (futures : list (exn + PluginInfo.t)) :
  Forall returned futures -> exists infos, futures = map inr infos.
Proof.
  induction 1 as [| future futures [info ->] _ (infos & ->)].
  - now exists [].
  - now exists (info :: infos).
Qed.




(** ** Properties of [__init__] and of the stripping functions *)

Lemma rstrip_with_split (f : ascii -> bool) (s : string) :
  exists t, s = (Str.rstrip_with f s ++ t)%string /\ Chars.all_in f t = true.
Proof.
  induction s as [| c s IH]; cbn.
  - now exists EmptyString.
  - destruct IH as (t & Hs & Ht).
    destruct (Str.rstrip_with f s) as [| d u] eqn:Hr.
    + cbn in Hs. subst t. destruct (f c) eqn:Hc.
      * exists (String c s). cbn. now rewrite Hc, Ht.
      * now exists s.
    + exists t. split; [ | assumption ]. cbn. now rewrite Hs at 1.
Qed.

Lemma rstrip_with_last (f : ascii -> bool) (s : string) (c : ascii) :
  Chars.last (Str.rstrip_with f s) = Some c -> f c = false.
Proof.
  induction s as [| d s IH]; cbn; [discriminate | ].
  destruct (Str.rstrip_with f s) as [| e u] eqn:Hr.
  - destruct (f d) eqn:Hd; cbn; [discriminate | ]. now intros [= <-].
  - exact IH.
Qed.

Lemma all_slashes (t : string) :
  Chars.all_in (Ascii.eqb "/"%char) t = true ->
  t = Chars.repeat "/"%char (String.length t).
Proof.
  induction t as [| c t IH]; [reflexivity | ].
  cbn [Chars.all_in String.length Chars.repeat].
  intros H. apply andb_true_iff in H as [Hc Ht].
  apply Ascii.eqb_eq in Hc. subst c. now rewrite <- IH.
Qed.

Lemma rstrip_with_idem (f : ascii -> bool) (s : string) :
  Str.rstrip_with f (Str.rstrip_with f s) = Str.rstrip_with f s.
Proof.
  induction s as [| c s IH]; [reflexivity | ].
  cbn [Str.rstrip_with].
  destruct (Str.rstrip_with f s) as [| e u] eqn:Hr.
  - destruct (f c) eqn:Hc; cbn; [reflexivity | now rewrite Hc].
  - cbn [Str.rstrip_with] in *. now rewrite IH.
Qed.

Lemma lstrip_with_split (f : ascii -> bool) (s : string) :
  exists p, s = (p ++ Str.lstrip_with f s)%string.
Proof.
  induction s as [| c s IH]; cbn.
  - now exists EmptyString.
  - destruct (f c).
    + destruct IH as (p & Hp). exists (String c p). cbn. now rewrite <- Hp.
    + now exists EmptyString.
Qed.

Lemma lstrip_with_first (f : ascii -> bool) (s : string) (c : ascii) :
  Chars.first (Str.lstrip_with f s) = Some c -> f c = false.
Proof.
  induction s as [| d s IH]; cbn; [discriminate | ].
  destruct (f d) eqn:Hd; [exact IH | ]. cbn. now intros [= <-].
Qed.

Lemma last_suffix (p t : string) :
  t <> EmptyString -> Chars.last (p ++ t) = Chars.last t.
Proof.
  intros Ht. induction p as [| c p IH]; [reflexivity | ].
  cbn [append Chars.last]. rewrite IH.
  destruct (p ++ t)%string eqn:Hpt; [ | reflexivity ].
  destruct p; cbn in Hpt; congruence.
Qed.

Lemma strip_trimmed (s : string) : Chars.trimmed (Str.strip s) = true.
Proof.
  unfold Chars.trimmed, Str.strip.
  destruct (Chars.first _) as [a | ] eqn:Ha; [ | reflexivity ].
  destruct (Chars.last _) as [b | ] eqn:Hb; [ | reflexivity ].
  apply lstrip_with_first in Ha. rewrite Ha. cbn.
  destruct (lstrip_with_split Str.is_space (Str.rstrip_with Str.is_space s))
    as (p & Hp).
  assert (Hne : Str.lstrip_with Str.is_space (Str.rstrip_with Str.is_space s)
                <> EmptyString).
  { intros H. rewrite H in Hb. discriminate. }
  rewrite <- (last_suffix p _ Hne), <- Hp in Hb.
  apply rstrip_with_last in Hb. now rewrite Hb.
Qed.

Lemma slice_to_prefix {A} (n : Z) (l : list A) :
  exists rest, l = slice_to n l ++ rest.
Proof.
  unfold slice_to. destruct (0 <=? n)%Z; eexists; symmetry; apply firstn_skipn.
Qed.

Lemma slice_to_In {A} (n : Z) (l : list A) (x : A) :
  In x (slice_to n l) -> In x l.
Proof.
  intros H. destruct (slice_to_prefix n l) as (rest & ->).
  apply in_or_app. now left.
Qed.

(** X1. [__init__] keeps the address without its trailing slashes, and
    nothing else is removed: the address given is the stored one
    followed by slashes only, the stored one does not end in a slash,
    no request has been sent, and building a scanner from the stored
    address changes nothing. *)
Theorem new_scanner_strips (target : string) :
  (exists n,
     target = (target_url (new_scanner target) ++ Chars.repeat "/"%char n)%string)
  /\ Chars.last (target_url (new_scanner target)) <> Some "/"%char
  /\ sent (new_scanner target) = []
  /\ new_scanner (target_url (new_scanner target)) = new_scanner target.
Proof.
  unfold new_scanner, Str.rstrip_slash. cbn [target_url sent].
  split; [ | split; [ | split ] ].
  - destruct (rstrip_with_split (Ascii.eqb "/"%char) target) as (t & Ht & Hall).
    exists (String.length t). now rewrite <- (all_slashes t Hall).
  - intros H. apply rstrip_with_last in H. discriminate.
  - reflexivity.
  - now rewrite rstrip_with_idem.
Qed.

(** ** Properties of [load_common_plugins] *)

(** X2. Every slug read from a readable [plugin_list.txt] is the
    stripped text of one of its lines: it is not empty and neither
    starts nor ends with white space. *)
Theorem load_common_plugins_entries (ls : list string) (scan_level : Z)
  (slug : string) :
  plugin_list = Lines ls ->
  In slug (load_common_plugins scan_level) ->
  slug <> EmptyString
  /\ Chars.trimmed slug = true
  /\ exists line, In line ls /\ slug = Str.strip line.
Proof.
  unfold load_common_plugins. intros -> Hin.
  assert (H : In slug (filter Str.nonempty (map Str.strip ls))).
  { destruct (scan_level =? -1)%Z; [assumption | ].
    eapply slice_to_In; eassumption. }
  apply filter_In in H as [Hmap Hne].
  apply in_map_iff in Hmap as (line & <- & Hline).
  split; [ | split ].
  - intros H. rewrite H in Hne. discriminate.
  - apply strip_trimmed.
  - eauto.
Qed.

(** X3. How [scan_level] cuts the list.  With a readable file the
    level -1 gives every slug of the file; any level gives a prefix of
    them, of [scan_level] slugs when there are that many and the level
    is not negative, and without the last [-scan_level] ones when it is
    below -1.  With a missing or unreadable file the level is ignored:
    the seven default slugs are returned, also for the level 0. *)
Theorem load_common_plugins_slice (scan_level : Z) :
  (forall ls, plugin_list = Lines ls ->
     load_common_plugins (-1) = filter Str.nonempty (map Str.strip ls)
     /\ (exists rest,
          load_common_plugins (-1) = load_common_plugins scan_level ++ rest)
     /\ ((0 <= scan_level)%Z ->
         List.length (load_common_plugins scan_level) =
           Nat.min (Z.to_nat scan_level)
             (List.length (load_common_plugins (-1))))
     /\ ((scan_level < -1)%Z ->
         List.length (load_common_plugins scan_level) =
           List.length (load_common_plugins (-1)) - Z.to_nat (- scan_level)))
  /\ ((plugin_list = Missing \/ exists e, plugin_list = Unreadable e) ->
      load_common_plugins scan_level = default_list
      /\ List.length (load_common_plugins scan_level) = 7).
Proof.
  unfold load_common_plugins. split.
  - intros ls ->. cbn [Z.eqb Pos.eqb].
    set (plugins := filter Str.nonempty (map Str.strip ls)).
    split; [reflexivity | split; [ | split ] ].
    + destruct (scan_level =? -1)%Z.
      * exists []. now rewrite app_nil_r.
      * apply slice_to_prefix.
    + intros H. destruct (scan_level =? -1)%Z eqn:He; [lia | ].
      unfold slice_to. destruct (0 <=? scan_level)%Z eqn:Hle; [ | lia ].
      apply length_firstn.
    + intros H. destruct (scan_level =? -1)%Z eqn:He; [lia | ].
      unfold slice_to. destruct (0 <=? scan_level)%Z eqn:Hle; [lia | ].
      rewrite length_firstn. lia.
  - intros [-> | [e ->]]; split; reflexivity.
Qed.
(** ** More on [enumerate_plugins] *)

(** The scanner as the HTML stage leaves it. *)
Lemma enumerate_plugins_stages {L} (scan_level : Z) (l : L) (sc : scanner) :
  enumerate_plugins scan_level (l, sc) =
    match candidate_stage scan_level (snd (html_stage (EnumLocals.init, sc)))
    with
    | (inr _, st2) =>
        (inr (EnumLocals.result (EnumLocals.set_total_found (fst st2))),
         (l, snd st2))
    | (inl e, st2) => (inl e, (l, snd st2))
    end.
Proof.
  destruct (html_stage_run EnumLocals.init sc enum_inv_init) as [Hout _].
  unfold enumerate_plugins, call. cbn [fst snd]. unfold bind at 1.
  destruct (html_stage (EnumLocals.init, sc)) as [o st1].
  cbn [fst snd] in *. subst o. unfold bind at 1.
  destruct (candidate_stage scan_level st1) as [[e | []] [l2 sc2]];
    reflexivity.
Qed.

Lemma load_common_plugins_blank (ls : list string) (scan_level : Z) :
  plugin_list = Lines ls ->
  scan_level = 0%Z \/ (forall line, In line ls -> Str.strip line = EmptyString) ->
  load_common_plugins scan_level = [].
Proof.
  unfold load_common_plugins. intros -> [-> | Hblank]; [reflexivity | ].
  assert (H : filter Str.nonempty (map Str.strip ls) = []).
  { induction ls as [| line ls IH]; [reflexivity | ].
    cbn [map filter]. rewrite (Hblank line (or_introl eq_refl)). cbn.
    apply IH. intros line' Hin. apply Hblank. now right. }
  rewrite H. destruct (scan_level =? -1)%Z; [reflexivity | ].
  unfold slice_to. destruct (0 <=? scan_level)%Z; apply firstn_nil.
Qed.

(** X4. With a readable list that is blank, or with the scan level 0,
    no candidate is probed: the enumeration returns, whatever the
    network does, the plugins the HTML stage confirmed, and sends no
    request after that stage. *)
Theorem enumerate_plugins_no_candidates {L} (ls : list string)
  (scan_level : Z) (l : L) (sc : scanner) :
  plugin_list = Lines ls ->
  scan_level = 0%Z
  \/ (forall line, In line ls -> Str.strip line = EmptyString) ->
  load_common_plugins scan_level = []
  /\ exists r,
       enumerate_plugins scan_level (l, sc) =
         (inr r, (l, snd (snd (html_stage (EnumLocals.init, sc)))))
       /\ EnumResult.plugins r =
            EnumResult.plugins (EnumLocals.result (after_html sc))
       /\ EnumResult.total_found r =
            Z.of_nat (List.length (EnumResult.plugins r)).
Proof.
  intros Hfile Hcase.
  pose proof (load_common_plugins_blank ls scan_level Hfile Hcase) as Hnil.
  split; [exact Hnil | ].
  rewrite enumerate_plugins_stages. unfold after_html.
  destruct (html_stage (EnumLocals.init, sc)) as [o [l1 sc1]].
  unfold candidate_stage. rewrite Hnil. cbn.
  eexists. split; [reflexivity | split; reflexivity].
Qed.

(** ** More on [is_wordpress] *)

(** The whole outcome of a run, result and scanner. *)
Lemma is_wordpress_run {L} (l : L) (sc : scanner) :
  is_wordpress (l, sc) =
    match root_answer (l, sc) with
    | inr resp =>
        let sigs := matched_signals (l, sc) resp in
        (inr (Indicators.mk (30 <=? total_weight sigs)%Z (total_weight sigs)
                sigs (Re.search Re.generator_re (text resp))
                (target_url sc) None),
         (l, mk_scanner (Str.rstrip_slash (url resp))
               (sent sc
                ++ [mk_request GET (target_url sc) None;
                    mk_request GET
                      (urljoin (Str.rstrip_slash (url resp)) "/wp-json/")
                      None])))
    | inl e =>
        (if is_request_exception e
         then inr (Indicators.mk false 0 [] None (target_url sc) (Some e))
         else inl e,
         (l, mk_scanner (target_url sc)
               (sent sc ++ [mk_request GET (target_url sc) None])))
    end.
Proof.
  unfold root_answer, matched_signals, rest_answer, is_wordpress. run_monad.
  cbn [target_url sent].
  destruct (net (sent sc) _) as [e | resp] eqn:Hroot.
  - destruct e; reflexivity.
  - destruct (Str.contains "/wp-content/" (text resp)
              || Str.contains "/wp-includes/" (text resp));
      destruct (Re.search Re.generator_re (text resp)); cbn;
      match goal with
      | |- context [net ?h ?r] => destruct (net h r) as [e2 | api]
      end; cbn;
      try match goal with
      | |- context [(?a =? 200)%Z && ?b] =>
          destruct ((a =? 200)%Z && b)
      end; cbn; rewrite <- ?app_assoc; reflexivity.
Qed.

(** X5. A result of the detector has one of six confidences, so never
    more than 100; it says WordPress exactly when it lists a signal;
    it lists no signal twice; it has a version exactly when it lists
    the generator tag; and its [url] is the address the scanner had
    before the fetch. *)
Theorem is_wordpress_confidence {L} (st : L * scanner) (r : Indicators.t) :
  fst (is_wordpress st) = inr r ->
  In (Indicators.confidence r) [0; 30; 40; 60; 70; 100]%Z
  /\ (Indicators.is_wordpress r = true <-> Indicators.detected_by r <> [])
  /\ NoDup (Indicators.detected_by r)
  /\ (Indicators.wp_version r <> None <->
      In "meta generator tag" (Indicators.detected_by r))
  /\ Indicators.url r = target_url (snd st).
Proof.
  destruct st as [l sc]. rewrite is_wordpress_run.
  destruct (root_answer (l, sc)) as [e | resp].
  - destruct (is_request_exception e); cbn [fst]; [ | discriminate ].
    intros [= <-]. cbn. repeat split; try (intros; congruence); auto;
      try constructor; try (intros []).
  - cbv zeta. cbn [fst]. intros [= <-]. unfold matched_signals.
    cbn [Indicators.confidence Indicators.is_wordpress Indicators.detected_by
         Indicators.wp_version Indicators.url snd].
    destruct (Str.contains "/wp-content/" (text resp)
              || Str.contains "/wp-includes/" (text resp));
      destruct (Re.search Re.generator_re (text resp));
      destruct (rest_answer (l, sc) resp) as [e2 | api];
      try destruct ((status_code api =? 200)%Z
                    && Str.contains "namespaces" (text api));
      cbn; repeat split;
      try (intros; congruence); try discriminate; auto 10;
      try (repeat (constructor; [cbn; intros H; in_cases H | ]);
           constructor);
      try (intros H; exfalso; cbn in H; in_cases H).
Qed.

(** ** More on [check_plugin] *)

(** The whole outcome of a probe, result and scanner. *)
Lemma check_plugin_run {L} (slug : string) (l : L) (sc : scanner) :
  let second :=
    (match css_answer sc slug with
     | inr r2 =>
         inr (if (status_code r2 =? 200)%Z
              then PluginInfo.mk slug true None (Some "asset file")
                     (Some (css_url sc slug))
              else PluginInfo.mk slug false None None None)
     | inl e2 =>
         if is_request_exception e2
         then inr (PluginInfo.mk slug false None None None)
         else inl e2
     end,
     (l, after sc [readme_request sc slug; css_request sc slug])) in
  check_plugin slug (l, sc) =
    match readme_answer sc slug with
    | inr r1 =>
        if (status_code r1 =? 200)%Z
        then (inr (PluginInfo.mk slug true
                     (Re.search Re.stable_tag_re (text r1))
                     (Some "readme.txt") (Some (readme_url sc slug))),
              (l, after sc [readme_request sc slug]))
        else second
    | inl e1 =>
        if is_request_exception e1 then second
        else (inl e1, (l, after sc [readme_request sc slug]))
    end.
Proof.
  unfold readme_answer, css_answer, readme_request, css_request,
    readme_url, css_url, after, check_plugin.
  run_monad. cbn [target_url sent].
  destruct (net (sent sc) _) as [e1 | r1];
    [ destruct e1 | destruct (status_code r1 =? 200)%Z eqn:S1 ];
    cbn -[String.append]; rewrite ?S1; cbn -[String.append];
    try match goal with
    | |- context [Re.search ?p ?t] => destruct (Re.search p t)
    end;
    try match goal with
    | |- context [net ?h ?r] =>
        destruct (net h r) as [e2 | r2];
        [ destruct e2 | destruct (status_code r2 =? 200)%Z eqn:S2 ]
    end;
    cbn -[String.append]; rewrite ?S2; cbn -[String.append];
    rewrite <- ?app_assoc; reflexivity.
Qed.

(** X6. The detector follows redirects: after a fetched root page the
    scanner works on the address the response came from, without its
    trailing slashes, and the REST probe and every later plugin probe
    are built from that address, while the [url] of the result stays
    the address asked for; exactly two requests were sent.  After a
    failed fetch the address is unchanged and one request was sent. *)
Theorem is_wordpress_follows_redirect {L} (l : L) (sc : scanner) :
  let sc' := snd (snd (is_wordpress (l, sc))) in
  match root_answer (l, sc) with
  | inr resp =>
      target_url sc' = Str.rstrip_slash (url resp)
      /\ sent sc' =
           sent sc
           ++ [mk_request GET (target_url sc) None;
               mk_request GET
                 (urljoin (Str.rstrip_slash (url resp)) "/wp-json/") None]
      /\ (exists r, fst (is_wordpress (l, sc)) = inr r
            /\ Indicators.url r = target_url sc)
      /\ (forall slug, exists rest,
            requests_of (check_plugin slug (l, sc')) =
              sent sc'
              ++ mk_request GET
                   (urljoin
                      (Str.rstrip_slash (url resp) ++ "/wp-content/plugins/"
                       ++ slug ++ "/") "readme.txt") None :: rest)
  | inl e =>
      target_url sc' = target_url sc
      /\ sent sc' = sent sc ++ [mk_request GET (target_url sc) None]
  end.
Proof.
  cbv zeta. rewrite is_wordpress_run.
  destruct (root_answer (l, sc)) as [e | resp]; cbn [fst snd target_url sent].
  - split; reflexivity.
  - split; [reflexivity | split; [reflexivity | split ] ].
    + eexists. split; reflexivity.
    + intros slug. unfold requests_of. rewrite check_plugin_run. cbv zeta.
      unfold readme_request, readme_url, plugin_base_url, after.
      match goal with
      | |- context [readme_answer ?s slug] =>
          destruct (readme_answer s slug) as [e1 | r1];
          [ destruct (is_request_exception e1)
          | destruct (status_code r1 =? 200)%Z ]
      end; cbn [fst snd sent target_url]; eexists; reflexivity.
Qed.

(** X7. What a probe returns is consistent: it is about the slug it
    was given; it says installed exactly when it names a method and an
    address; the method is the readme or the asset file; a version
    comes only with the readme.  The probe sends one or two requests
    after those already sent, and leaves the address of the scanner
    and the locals of its caller as they were. *)
Theorem check_plugin_consistent {L} (slug : string) (l : L) (sc : scanner) :
  let out := check_plugin slug (l, sc) in
  (forall info, fst out = inr info ->
     PluginInfo.plugin_slug info = slug
     /\ (PluginInfo.is_installed info = true <->
         PluginInfo.detected_by info <> None)
     /\ (PluginInfo.detected_by info <> None <->
         PluginInfo.plugin_url info <> None)
     /\ (PluginInfo.detected_by info = None
         \/ (PluginInfo.detected_by info = Some "readme.txt"
             /\ PluginInfo.plugin_url info = Some (readme_url sc slug))
         \/ (PluginInfo.detected_by info = Some "asset file"
             /\ PluginInfo.plugin_url info = Some (css_url sc slug)))
     /\ (PluginInfo.version info <> None ->
         PluginInfo.detected_by info = Some "readme.txt"))
  /\ fst (snd out) = l
  /\ target_url (snd (snd out)) = target_url sc
  /\ (requests_of out = sent sc ++ [readme_request sc slug]
      \/ requests_of out =
           sent sc ++ [readme_request sc slug; css_request sc slug]).
Proof.
  cbv zeta. unfold requests_of. rewrite check_plugin_run. cbv zeta.
  destruct (readme_answer sc slug) as [e1 | r1];
    [ destruct (is_request_exception e1)
    | destruct (status_code r1 =? 200)%Z ];
    try (destruct (css_answer sc slug) as [e2 | r2];
         [ destruct (is_request_exception e2)
         | destruct (status_code r2 =? 200)%Z ]);
    cbn [fst snd after target_url sent];
    (split; [ | split; [reflexivity | split; [reflexivity | auto ] ] ]);
    intros info Hi; try discriminate; injection Hi as <-;
    cbn; repeat split; intros; try congruence; auto.
Qed.

(** ** The versions the scanner extracts *)

Lemma search_match (p : Re.pattern) (g : string) :
  forall s, Re.search p s = Some g ->
    exists s' r, Re.match_here p s' = Some r /\ fst r = g.
Proof.
  induction s as [| c s IH]; cbn [Re.search].
  - destruct (Re.match_here p EmptyString) as [r | ] eqn:Hm; [ | discriminate ].
    intros [= <-]. eauto.
  - destruct (Re.match_here p (String c s)) as [r | ] eqn:Hm; [ | exact IH ].
    intros [= <-]. eauto.
Qed.

Lemma one_uncaptured (it : Re.item) (k : string -> option Re.result)
  (s : string) (r : Re.result) :
  Re.captured it = false -> Re.one it k s = Some r ->
  exists s', k s' = Some r.
Proof.
  intros Hcap. destruct s as [| c s]; cbn; [discriminate | ].
  destruct (Re.accepts it c); [ | discriminate ].
  destruct (k s) as [[g rest] | ] eqn:Hk; cbn; [ | discriminate ].
  rewrite Hcap. unfold Re.keep. cbn. intros [= <-]. eauto.
Qed.

Lemma greedy_uncaptured (it : Re.item) (k : string -> option Re.result)
  (r : Re.result) :
  Re.captured it = false ->
  forall s, Re.greedy it k s = Some r -> exists s', k s' = Some r.
Proof.
  intros Hcap. induction s as [| c s IH]; cbn; [eauto | ].
  destruct (Re.accepts it c); [ | eauto ].
  destruct (Re.greedy it k s) as [[g rest] | ] eqn:Hg; [ | eauto ].
  rewrite Hcap. unfold Re.keep. cbn. intros [= <-]. now apply IH.
Qed.

Lemma match_here_uncaptured (pre p : Re.pattern) :
  Forall (fun it => Re.captured it = false) pre ->
  forall s r, Re.match_here (pre ++ p) s = Some r ->
    exists s', Re.match_here p s' = Some r.
Proof.
  induction 1 as [| it pre Hit Hpre IH]; intros s r; cbn [app Re.match_here];
    [eauto | ].
  destruct (Re.quant it); intros Hm.
  - apply one_uncaptured in Hm as (s1 & Hm); eauto.
  - apply greedy_uncaptured in Hm as (s1 & Hm); eauto.
  - apply one_uncaptured in Hm as (s1 & Hm); [ | assumption ].
    apply greedy_uncaptured in Hm as (s2 & Hm); eauto.
Qed.

Lemma lit_nocase_uncaptured (t : string) :
  Forall (fun it => Re.captured it = false) (Re.lit_nocase t).
Proof. induction t; cbn; constructor; auto. Qed.

Lemma uncaptured_group (P : ascii -> Prop) (p : Re.pattern) :
  Forall (fun it => Re.captured it = false) p -> Forall (captures_only P) p.
Proof.
  intros H. eapply Forall_impl; [ | exact H ].
  intros it Hit Hcap. congruence.
Qed.

Lemma plus_nonempty (it : Re.item) (k : string -> option Re.result)
  (s : string) (r : Re.result) :
  Re.captured it = true -> Re.one it k s = Some r -> fst r <> EmptyString.
Proof.
  intros Hcap. destruct s as [| c s]; cbn; [discriminate | ].
  destruct (Re.accepts it c); [ | discriminate ].
  destruct (k s) as [r' | ]; cbn; [ | discriminate ].
  rewrite Hcap. intros [= <-]. discriminate.
Qed.

Lemma all_in_Forall (f : ascii -> bool) (s : string) :
  Forall (fun c => f c = true) (list_ascii_of_string s) ->
  Chars.all_in f s = true.
Proof.
  induction s as [| c s IH]; cbn; [reflexivity | ].
  intros H. inversion H; subst. apply andb_true_iff. auto.
Qed.

Lemma generator_re_group (s : string) (r : Re.result) :
  Re.match_here Re.generator_re s = Some r -> numeric (fst r) = true.
Proof.
  intros Hm. unfold numeric. apply andb_true_iff. split.
  - unfold Re.generator_re in Hm.
    repeat (apply match_here_uncaptured in Hm as (? & Hm);
            [ | first [ apply lit_nocase_uncaptured
                      | repeat constructor ] ]).
    cbn [Re.match_here Re.quant] in Hm.
    apply plus_nonempty in Hm; [ | reflexivity ].
    destruct (fst r); [congruence | reflexivity].
  - apply all_in_Forall. revert s r Hm. apply match_here_group.
    unfold Re.generator_re.
    repeat (apply Forall_app; split;
            [ apply uncaptured_group;
              first [ apply lit_nocase_uncaptured | repeat constructor ] | ]).
    constructor; [intros _ c Hc; exact Hc | ].
    apply uncaptured_group. repeat constructor.
Qed.

Lemma stable_tag_re_group (s : string) (r : Re.result) :
  Re.match_here Re.stable_tag_re s = Some r -> numeric (fst r) = true.
Proof.
  intros Hm. unfold numeric. apply andb_true_iff. split.
  - unfold Re.stable_tag_re in Hm.
    apply match_here_uncaptured in Hm as (s1 & Hm);
      [ | apply lit_nocase_uncaptured ].
    apply (match_here_uncaptured [_] [_]) in Hm as (s2 & Hm);
      [ | repeat constructor ].
    cbn [Re.match_here Re.quant] in Hm.
    apply plus_nonempty in Hm; [ | reflexivity ].
    destruct (fst r); [congruence | reflexivity].
  - apply all_in_Forall. revert s r Hm. apply match_here_group.
    unfold Re.stable_tag_re. apply Forall_app. split.
    + apply uncaptured_group, lit_nocase_uncaptured.
    + constructor; [intros Hcap; discriminate | ].
      constructor; [intros _ c Hc; exact Hc | constructor ].
Qed.

(** X8. The versions the scanner extracts are never empty and hold
    digits and dots only: the version of the generator tag in a result
    of [is_wordpress], and the version of the stable tag in a result
    of [check_plugin]. *)
Theorem extracted_versions_numeric {L} (st : L * scanner) :
  (forall r v,
     fst (is_wordpress st) = inr r -> Indicators.wp_version r = Some v ->
     numeric v = true)
  /\ (forall slug info v,
       fst (check_plugin slug st) = inr info ->
       PluginInfo.version info = Some v ->
       numeric v = true).
Proof.
  destruct st as [l sc]. split.
  - intros r v. rewrite is_wordpress_run.
    destruct (root_answer (l, sc)) as [e | resp].
    + destruct (is_request_exception e); cbn [fst]; [ | discriminate ].
      intros [= <-]. discriminate.
    + cbv zeta. cbn [fst]. intros [= <-]. cbn [Indicators.wp_version].
      intros Hs. apply search_match in Hs as (s' & r & Hm & <-).
      eapply generator_re_group; eassumption.
  - intros slug info v. rewrite check_plugin_run. cbv zeta.
    destruct (readme_answer sc slug) as [e1 | r1];
      [ destruct (is_request_exception e1)
      | destruct (status_code r1 =? 200)%Z ];
      try (destruct (css_answer sc slug) as [e2 | r2];
           [ destruct (is_request_exception e2)
           | destruct (status_code r2 =? 200)%Z ]);
      cbn [fst]; intros Hi; try discriminate; injection Hi as <-;
      cbn [PluginInfo.version]; try discriminate.
    all: intros Hs; apply search_match in Hs as (s' & r & Hm & <-).
    all: eapply stable_tag_re_group; eassumption.
Qed.

Lemma classify_numeric (c : ascii) :
  Re.digit_or_dot c = true ->
  LooseVersion.classify c = LooseVersion.Digits
  \/ LooseVersion.classify c = LooseVersion.Dot.
Proof.
  unfold Re.digit_or_dot, LooseVersion.classify.
  destruct (Str.is_digit c); [now left | ]. cbn [orb].
  intros H. apply Ascii.eqb_eq in H. subst c. now right.
Qed.

Lemma runs_numeric (s : string) :
  Chars.all_in Re.digit_or_dot s = true ->
  forallb digits_or_dot (LooseVersion.runs s) = true.
Proof.
  induction s as [| c s IH]; [reflexivity | ].
  cbn [Chars.all_in LooseVersion.runs]. intros H.
  apply andb_true_iff in H as [Hc Hs]. specialize (IH Hs).
  apply classify_numeric in Hc.
  unfold LooseVersion.push.
  destruct (LooseVersion.runs s) as [| [k t] rs].
  - cbn. unfold digits_or_dot. cbn. destruct Hc as [-> | ->]; reflexivity.
  - cbn [forallb] in IH. apply andb_true_iff in IH as [Hk Hrs].
    destruct (LooseVersion.same_run (LooseVersion.classify c) k).
    + cbn [forallb]. apply andb_true_iff. split; [exact Hk | exact Hrs].
    + cbn [forallb]. rewrite Hk, Hrs.
      unfold digits_or_dot. cbn. destruct Hc as [-> | ->]; reflexivity.
Qed.

Lemma parse_numeric (s : string) :
  Chars.all_in Re.digit_or_dot s = true ->
  short_runs s = true ->
  forallb is_int (LooseVersion.parse s) = true.
Proof.
  intros H Hshort. apply runs_numeric in H.
  unfold short_runs in Hshort. unfold LooseVersion.parse.
  induction (LooseVersion.runs s) as [| [k t] rs IH]; [reflexivity | ].
  cbn [forallb] in H, Hshort.
  apply andb_true_iff in H as [Hk Hrs].
  apply andb_true_iff in Hshort as [Hlen Hrest].
  specialize (IH Hrs Hrest).
  destruct k; try discriminate; cbn [filter LooseVersion.not_dot fst map];
    [ | exact IH ].
  cbn [forallb]. rewrite IH, andb_true_r.
  unfold LooseVersion.component_of, LooseVersion.int_of_digits.
  cbn [fst snd] in *. now rewrite Hlen.
Qed.

Lemma list_lt_ints (a : list LooseVersion.component) :
  forall b, forallb is_int a = true -> forallb is_int b = true ->
    exists older, LooseVersion.list_lt a b = inr older.
Proof.
  induction a as [| x a IH]; intros [| y b] Ha Hb; cbn; eauto.
  cbn in Ha, Hb. apply andb_true_iff in Ha as [Hx Ha].
  apply andb_true_iff in Hb as [Hy Hb].
  destruct (LooseVersion.comp_eq x y); [now apply IH | ].
  destruct x, y; try discriminate. cbn. eauto.
Qed.

Lemma less_numeric (v w : string) :
  numeric v = true -> numeric w = true ->
  short_runs v = true -> short_runs w = true ->
  exists older, LooseVersion.less_str v w = inr older.
Proof.
  unfold numeric. intros Hv Hw Sv Sw.
  apply andb_true_iff in Hv as [Hv1 Hv2].
  apply andb_true_iff in Hw as [Hw1 Hw2].
  unfold LooseVersion.less_str, LooseVersion.less, LooseVersion.make.
  cbn [truthy]. rewrite Hv1, Hw1. unfold LooseVersion.lt.
  destruct (LooseVersion.list_eq _ _); [eauto | ].
  apply list_lt_ints; now apply parse_numeric.
Qed.

(** X9. Two versions made of digits and dots, as the probes extract
    them, can be compared whenever each of their runs of digits has at
    most 4300 digits, the most that [int] reads: [LooseVersion] raises
    for neither.  So against such a latest version of the registry,
    step 1 of the resolver sets [is_outdated] to the outcome of the
    comparison itself, never to the value it assumes after an
    error. *)
Theorem numeric_versions_comparable (v w : string) :
  numeric v = true -> numeric w = true ->
  short_runs v = true -> short_runs w = true ->
  exists older,
    LooseVersion.less_str v w = inr older
    /\ forall sc slug,
         registry_latest (registry_answer sc slug) = Some (PyStr w) ->
         CveResult.is_outdated (after_tier1 sc slug (Some v)) = older.
Proof.
  intros Hv Hw Sv Sw.
  destruct (less_numeric v w Hv Hw Sv Sw) as (older & Hless).
  exists older. split; [exact Hless | ].
  intros sc slug Hreg.
  destruct (after_tier1_facts sc slug (Some v)) as (_ & _ & _ & _ & ->).
  rewrite Hreg. unfold recomputed. cbn [of_opt truthy].
  unfold numeric in Hv, Hw.
  apply andb_true_iff in Hv as [-> _]. apply andb_true_iff in Hw as [-> _].
  cbn [andb]. unfold LooseVersion.less_str in Hless. now rewrite Hless.
Qed.

(** ** The probes of the pool *)

Lemma check_plugin_state {L} (slug : string) (l : L) (sc : scanner) :
  exists out rs,
    check_plugin slug (l, sc) = (out, (l, after sc rs))
    /\ (List.length rs <= 2)%nat.
Proof.
  rewrite check_plugin_run. cbv zeta.
  destruct (readme_answer sc slug) as [e1 | r1];
    [ destruct (is_request_exception e1)
    | destruct (status_code r1 =? 200)%Z ];
    do 2 eexists; (split; [reflexivity | cbn; lia]).
Qed.

Lemma check_plugin_stateless {L L'} (slug : string) (l : L) (l' : L')
  (sc sc' : scanner) :
  stateless -> target_url sc = target_url sc' ->
  fst (check_plugin slug (l, sc)) = fst (check_plugin slug (l', sc')).
Proof.
  intros Hnet Ht. rewrite !check_plugin_run. cbv zeta.
  unfold readme_answer, css_answer, readme_request, css_request,
    readme_url, css_url.
  rewrite Ht.
  rewrite (Hnet (sent sc) (sent sc')).
  match goal with
  | |- context [net (sent sc ++ ?x) ?q] =>
      rewrite (Hnet (sent sc ++ x) (sent sc' ++ x))
  end.
  destruct (net (sent sc') _) as [e1 | r1];
    [ destruct (is_request_exception e1)
    | destruct (status_code r1 =? 200)%Z ]; reflexivity.
Qed.

(** X10. On a network whose answers do not depend on what was sent
    before, the probes of the pool do not interfere: each slug gets
    the outcome a probe of it alone would get from the scanner as the
    pool found it, so the schedule of the pool does not change what
    the candidate stage collects; the address of the scanner is left
    unchanged. *)
Theorem probes_independent (slugs : list string) (l : EnumLocals.t)
  (sc : scanner) :
  stateless ->
  exists sc',
    map_m (fun slug => attempt (check_plugin slug)) slugs (l, sc)
    = (inr (map (lone_probe sc) slugs), (l, sc'))
    /\ target_url sc' = target_url sc.
Proof.
  intros Hnet.
  assert (H : forall sc1, target_url sc1 = target_url sc ->
            exists sc',
              map_m (fun slug => attempt (check_plugin slug)) slugs (l, sc1)
              = (inr (map (lone_probe sc) slugs), (l, sc'))
              /\ target_url sc' = target_url sc).
  { induction slugs as [| slug slugs IH]; intros sc1 Ht; cbn [map_m map].
    - exists sc1. split; [reflexivity | assumption].
    - destruct (check_plugin_state slug l sc1) as (out & rs & Hcp & _).
      destruct (IH (after sc1 rs) Ht) as (sc2 & Hm & Ht2).
      exists sc2. unfold bind at 1, attempt at 1. rewrite Hcp.
      unfold bind at 1. rewrite Hm. split; [ | exact Ht2 ].
      unfold ret. do 3 f_equal. unfold lone_probe.
      rewrite <- (check_plugin_stateless slug l tt sc1 sc Hnet Ht).
      now rewrite Hcp. }
  now apply H.
Qed.

(** ** More on [get_plugin_cves] *)

Lemma tier2_body_outcome (slug : string) (version tok : option string)
  (r : CveResult.t) (sc : scanner) :
  fst (tier2_body slug version tok (r, sc)) =
    match paid_failure (net (sent sc) (paid_request slug tok)) slug version
    with
    | Some e => inl e
    | None => inr tt
    end.
Proof.
  unfold tier2_body, paid_failure, entry_failure, recomputed, paid_request.
  run_monad. cbn [target_url sent].
  destruct (net (sent sc) _) as [e | resp]; quiet_cbn;
    try destruct (status_code resp =? 200)%Z; quiet_cbn;
    try destruct (json resp) as [e | []]; quiet_cbn;
    try match goal with
    | |- context [lookup slug ?d] => destruct (lookup slug d) as [[] | ]
    end; quiet_cbn;
    try match goal with
    | |- context [lookup "latest_version" ?d] =>
        destruct (lookup "latest_version" d) as [lv | ]
    end; quiet_cbn;
    try destruct (truthy lv) eqn:Hlv; quiet_cbn;
    try destruct (truthy (of_opt version)) eqn:Hv; quiet_cbn;
    try match goal with
    | |- context [LooseVersion.less ?a ?b] =>
        destruct (LooseVersion.less a b) as [e | older]
    end; quiet_cbn;
    try match goal with
    | |- context [lookup "vulnerabilities" ?d] =>
        destruct (lookup "vulnerabilities" d) as [v | ]
    end; quiet_cbn;
    try match goal with
    | |- context [py_iter ?v] => destruct (py_iter v) as [e | items]
    end; quiet_cbn;
    try rewrite vuln_loop_run;
    try match goal with
    | |- context [collected ?v ?l] =>
        destruct (collected v l) as [fs [e | []]] eqn:Hc
    end; quiet_cbn;
    try reflexivity;
    cbn; try rewrite Hlv; cbn; try rewrite Hc; cbn; reflexivity.
Qed.

Lemma relabel_echo (tok : option string) (r : CveResult.t) :
  CveResult.plugin_slug (relabel tok r) = CveResult.plugin_slug r
  /\ CveResult.version (relabel tok r) = CveResult.version r
  /\ CveResult.source (relabel tok r) =
       if negb (CveResult.is_outdated r) && truthy (of_opt tok)
       then "WordPress.org API (Up to date)"
       else CveResult.source r.
Proof. unfold relabel. destruct (negb _ && _); cbn; auto. Qed.

(** Every field of the report, read off the two answers. *)
Lemma get_plugin_cves_report {L} (slug : string) (version : option string)
  (l : L) (sc : scanner) :
  let r1 := after_tier1 sc slug version in
  let ran := wants_tier2 r1 version api_token in
  let a := paid_answer sc slug in
  exists r,
    get_plugin_cves slug version (l, sc) =
      (inr r,
       (l, after sc (registry_request slug ::
                     if ran then [paid_request slug api_token] else [])))
    /\ CveResult.plugin_slug r = slug
    /\ CveResult.version r = version
    /\ CveResult.vulnerabilities r =
         (if ran then
            match paid_items a slug version with
            | Some items => fst (collected version items)
            | None => []
            end
          else [])
    /\ CveResult.is_outdated r =
         (if ran then
            match paid_latest a slug with
            | Some lv =>
                match recomputed version lv with
                | Some (inr older) => older
                | _ => CveResult.is_outdated r1
                end
            | None => CveResult.is_outdated r1
            end
          else CveResult.is_outdated r1)
    /\ CveResult.latest_version r =
         (if ran then
            match paid_latest a slug with
            | Some lv => lv
            | None => CveResult.latest_version r1
            end
          else CveResult.latest_version r1)
    /\ CveResult.error r =
         (if ran then paid_failure a slug version else None)
    /\ CveResult.source r =
         (if negb (CveResult.is_outdated r) && configured
          then "WordPress.org API (Up to date)"
          else if ran then "WPScan API (Outdated)" else "WordPress.org API").
Proof.
  cbv zeta. rewrite get_plugin_cves_run.
  destruct (tier1_run slug version (CveResult.init slug version) sc)
    as (r1 & H1 & Hs1 & Hv1 & Hvs1 & He1 & Hsrc1 & _).
  assert (Hr1 : after_tier1 sc slug version = r1).
  { unfold after_tier1. now rewrite H1. }
  rewrite Hr1.
  destruct (wants_tier2 r1 version api_token).
  - destruct (tier2_run slug version api_token r1
                (after sc [registry_request slug]))
      as (r2 & H2 & Hs2 & Hv2 & Hsrc2 & Hl2 & Ho2 & Hvs2 & He2).
    assert (Hr2 : after_tier2 sc slug version = r2).
    { unfold after_tier2. now rewrite Hr1, H2. }
    rewrite Hr2.
    destruct (relabel_keeps api_token r2) as (Ko & Kv & Ke & Kl).
    destruct (relabel_echo api_token r2) as (Ks & Kver & Ksrc).
    rewrite tier2_body_outcome in He2. cbn [after sent] in *.
    unfold paid_answer, configured.
    eexists. split; [reflexivity | ].
    rewrite Ks, Kver, Kv, Ko, Kl, Ke, Ksrc, Hs2, Hv2, Hvs2, Ho2, Hl2, He2,
      Hsrc2, Hs1, Hv1, Hvs1, He1.
    cbn [CveResult.init CveResult.plugin_slug CveResult.version
         CveResult.vulnerabilities CveResult.error app].
    repeat split.
    destruct (paid_failure _ slug version); reflexivity.
  - destruct (relabel_keeps api_token r1) as (Ko & Kv & Ke & Kl).
    destruct (relabel_echo api_token r1) as (Ks & Kver & Ksrc).
    unfold configured.
    eexists. split; [reflexivity | ].
    rewrite Ks, Kver, Kv, Ko, Kl, Ke, Ksrc, Hs1, Hv1, Hvs1, He1, Hsrc1.
    repeat split.
Qed.

Lemma paid_entry_failure (a : exn + response) (slug : string)
  (version : option string) (d : list (string * pyval)) :
  paid_entry a slug = Some d ->
  paid_failure a slug version = entry_failure version d.
Proof.
  unfold paid_entry, paid_failure.
  destruct a as [e | resp]; [discriminate | ].
  destruct (status_code resp =? 200)%Z; [ | discriminate ].
  destruct (json resp) as [e | []]; try discriminate.
  destruct (lookup slug d0) as [[] | ]; try discriminate;
    now intros [= <-].
Qed.

Lemma paid_items_failure (a : exn + response) (slug : string)
  (version : option string) (items : list pyval) :
  paid_items a slug version = Some items ->
  paid_failure a slug version =
    match snd (collected version items) with
    | inl e => Some e
    | inr _ => None
    end.
Proof.
  unfold paid_items, paid_latest.
  destruct (paid_entry a slug) as [d | ] eqn:Hd; [ | discriminate ].
  rewrite (paid_entry_failure a slug version d Hd). unfold entry_failure.
  destruct (lookup "latest_version" d) as [lv | ];
    [ destruct (truthy lv);
      [ destruct (recomputed version lv) as [[e | older] | ] | ] | ];
    try discriminate;
    destruct (py_iter _) as [e | items']; try discriminate;
    now intros [= <-].
Qed.

Lemma collected_stop (version : option string) (good : list pyval)
  (bad : pyval) (rest : list pyval) :
  forallb is_dict good = true -> is_dict bad = false ->
  collected version (good ++ bad :: rest) =
    (map reported (filter (relevant version) good), inl AttributeError).
Proof.
  intros Hgood Hbad. induction good as [| vuln good IH].
  - cbn. now rewrite Hbad.
  - cbn [forallb] in Hgood. apply andb_true_iff in Hgood as [Hd Hgood].
    cbn [app collected filter]. rewrite Hd, (IH Hgood).
    destruct (relevant version vuln); reflexivity.
Qed.

Lemma wants_tier2_configured (r : CveResult.t) (version : option string) :
  wants_tier2 r version api_token = true -> configured = true.
Proof.
  unfold wants_tier2, configured. intros H.
  now apply andb_true_iff in H as [_ H].
Qed.

(** X11. What the label of a report tells.  The report is about the
    slug and the version asked for and carries one of three labels.
    It is labelled up to date exactly when it is not outdated and a
    credential is configured; a report labelled as an outdated answer
    of the paid database is outdated, and the paid request was sent;
    a report labelled as an answer of the free registry lists no
    vulnerability and no error, and the registry request was the only
    one. *)
Theorem report_labels {L} (slug : string) (version : option string)
  (l : L) (sc : scanner) :
  let out := get_plugin_cves slug version (l, sc) in
  exists r,
    report_of out = Some r
    /\ CveResult.plugin_slug r = slug
    /\ CveResult.version r = version
    /\ In (CveResult.source r)
         ["WordPress.org API"; "WPScan API (Outdated)";
          "WordPress.org API (Up to date)"]
    /\ (CveResult.source r = "WordPress.org API (Up to date)" <->
        CveResult.is_outdated r = false /\ configured = true)
    /\ (CveResult.source r = "WPScan API (Outdated)" ->
        CveResult.is_outdated r = true
        /\ configured = true
        /\ requests_of out =
             sent sc ++ [registry_request slug; paid_request slug api_token])
    /\ (CveResult.source r = "WordPress.org API" ->
        CveResult.vulnerabilities r = []
        /\ CveResult.error r = None
        /\ requests_of out = sent sc ++ [registry_request slug]).
Proof.
  cbv zeta. unfold report_of, requests_of.
  destruct (get_plugin_cves_report slug version l sc)
    as (r & Hrun & Hs & Hv & Hvs & _ & _ & He & Hsrc).
  rewrite Hrun. cbn [fst snd after sent].
  exists r. split; [reflexivity | split; [exact Hs | split; [exact Hv | ] ] ].
  rewrite Hsrc, Hvs, He.
  destruct (wants_tier2 _ version api_token) eqn:Hran;
    [ rewrite (wants_tier2_configured _ _ Hran) | ];
    destruct (CveResult.is_outdated r); try destruct configured;
    cbn; repeat split; intros; try discriminate; auto;
    try match goal with
    | H : _ /\ _ |- _ => destruct H; discriminate
    end.
Qed.

(** X12. Without a credential the report is the one of step 1: one
    request, to the registry; no vulnerability and no error; the label
    of the free registry; the latest version as the registry gave it;
    outdated when the registry failed or the installed version is
    older or cannot be compared, and not outdated when the registry
    gave no version or the installed version is unknown. *)
Theorem report_without_credential {L} (slug : string)
  (version : option string) (l : L) (sc : scanner) :
  configured = false ->
  get_plugin_cves slug version (l, sc) =
    (inr (CveResult.mk slug version []
            match registry_latest (registry_answer sc slug) with
            | Some lv =>
                match recomputed version lv with
                | Some (inr older) => older
                | Some (inl _) => true
                | None => false
                end
            | None => true
            end
            match registry_latest (registry_answer sc slug) with
            | Some lv => lv
            | None => PyNone
            end
            "WordPress.org API" None),
     (l, after sc [registry_request slug])).
Proof.
  intros Hc.
  destruct (get_plugin_cves_report slug version l sc)
    as (r & Hrun & Hs & Hv & Hvs & Ho & Hl & He & Hsrc).
  destruct (after_tier1_facts sc slug version) as (_ & _ & _ & Hl1 & Ho1).
  assert (Hran : wants_tier2 (after_tier1 sc slug version) version api_token
                 = false).
  { unfold wants_tier2. unfold configured in Hc. rewrite Hc.
    apply andb_false_r. }
  rewrite Hran in *. rewrite Hc, andb_false_r in Hsrc.
  rewrite Hrun. destruct r; cbn in *. subst.
  rewrite Ho1, Hl1. reflexivity.
Qed.

(** X13. A plugin whose installed version is not known (no version,
    or an empty one) and that the registry knows is never looked up in
    the paid database, credential or not: the registry request is the
    only one, and the report is not outdated and lists no
    vulnerability. *)
Theorem versionless_plugin {L} (slug : string) (version : option string)
  (lv : pyval) (l : L) (sc : scanner) :
  truthy (of_opt version) = false ->
  registry_latest (registry_answer sc slug) = Some lv ->
  get_plugin_cves slug version (l, sc) =
    (inr (CveResult.mk slug version [] false lv
            (if configured then "WordPress.org API (Up to date)"
             else "WordPress.org API") None),
     (l, after sc [registry_request slug])).
Proof.
  intros Hver Hreg.
  destruct (get_plugin_cves_report slug version l sc)
    as (r & Hrun & Hs & Hv & Hvs & Ho & Hl & He & Hsrc).
  destruct (after_tier1_facts sc slug version) as (_ & _ & _ & Hl1 & Ho1).
  rewrite Hreg in Hl1, Ho1. unfold recomputed in Ho1.
  rewrite Hver in Ho1. cbn [andb] in Ho1.
  assert (Hran : wants_tier2 (after_tier1 sc slug version) version api_token
                 = false).
  { unfold wants_tier2. rewrite Ho1, Hver, andb_false_r. reflexivity. }
  rewrite Hran in *. rewrite Ho1 in Ho. rewrite Ho in Hsrc. cbn in Hsrc.
  rewrite Hrun. destruct r; cbn in *. subst. reflexivity.
Qed.

(** X14. An answer of the paid database with another status than 200
    (a refused credential, a rate limit) leaves no trace in the
    report: no error, no vulnerability, and the outdated flag and the
    latest version as step 1 left them. *)
Theorem paid_status_ignored {L} (slug : string) (version : option string)
  (resp : response) (l : L) (sc : scanner) :
  wants_tier2 (after_tier1 sc slug version) version api_token = true ->
  paid_answer sc slug = inr resp ->
  (status_code resp =? 200)%Z = false ->
  exists r,
    report_of (get_plugin_cves slug version (l, sc)) = Some r
    /\ CveResult.error r = None
    /\ CveResult.vulnerabilities r = []
    /\ CveResult.is_outdated r =
         CveResult.is_outdated (after_tier1 sc slug version)
    /\ CveResult.latest_version r =
         CveResult.latest_version (after_tier1 sc slug version).
Proof.
  intros Hran Ha Hst.
  destruct (get_plugin_cves_report slug version l sc)
    as (r & Hrun & _ & _ & Hvs & Ho & Hl & He & _).
  rewrite Hran in *. rewrite Ha in *.
  unfold paid_items, paid_latest, paid_entry, paid_failure in *.
  rewrite Hst in *.
  exists r. unfold report_of. rewrite Hrun. auto.
Qed.

(** X15. When step 2 runs and the latest version of the paid database
    cannot be compared with the installed one, the comparison error is
    the error of the report, the latest version of the paid database is
    kept, the outdated flag stays as step 1 left it, and the loop over
    the vulnerabilities is not reached: none is reported. *)
Theorem paid_latest_incomparable {L} (slug : string)
  (version : option string) (lv : pyval) (e : exn) (l : L) (sc : scanner) :
  wants_tier2 (after_tier1 sc slug version) version api_token = true ->
  paid_latest (paid_answer sc slug) slug = Some lv ->
  recomputed version lv = Some (inl e) ->
  exists r,
    report_of (get_plugin_cves slug version (l, sc)) = Some r
    /\ CveResult.error r = Some e
    /\ CveResult.vulnerabilities r = []
    /\ CveResult.latest_version r = lv
    /\ CveResult.is_outdated r =
         CveResult.is_outdated (after_tier1 sc slug version).
Proof.
  intros Hran Hlv Hrec.
  destruct (get_plugin_cves_report slug version l sc)
    as (r & Hrun & _ & _ & Hvs & Ho & Hl & He & _).
  rewrite Hran in *. rewrite Hlv in *. rewrite Hrec in Ho.
  assert (Hitems : paid_items (paid_answer sc slug) slug version = None).
  { unfold paid_items. rewrite Hlv, Hrec.
    now destruct (paid_entry _ slug). }
  assert (Hfail : paid_failure (paid_answer sc slug) slug version = Some e).
  { unfold paid_latest in Hlv.
    destruct (paid_entry (paid_answer sc slug) slug) as [d | ] eqn:Hd;
      [ | discriminate ].
    rewrite (paid_entry_failure _ _ version d Hd). unfold entry_failure.
    destruct (lookup "latest_version" d) as [lv' | ]; [ | discriminate ].
    destruct (truthy lv'); [ | discriminate ].
    injection Hlv as ->. now rewrite Hrec. }
  rewrite Hitems in Hvs. rewrite Hfail in He.
  exists r. unfold report_of. rewrite Hrun. auto.
Qed.

(** X16. An entry of the paid list of vulnerabilities that is no
    object stops the loop with [AttributeError]: the findings of the
    entries before it stay in the report, the entries after it are not
    looked at, and the error is recorded. *)
Theorem vulnerability_loop_stops {L} (slug : string)
  (version : option string) (good : list pyval) (bad : pyval)
  (rest : list pyval) (l : L) (sc : scanner) :
  wants_tier2 (after_tier1 sc slug version) version api_token = true ->
  paid_items (paid_answer sc slug) slug version = Some (good ++ bad :: rest) ->
  forallb is_dict good = true ->
  is_dict bad = false ->
  exists r,
    report_of (get_plugin_cves slug version (l, sc)) = Some r
    /\ CveResult.vulnerabilities r =
         map reported (filter (relevant version) good)
    /\ CveResult.error r = Some AttributeError.
Proof.
  intros Hran Hitems Hgood Hbad.
  destruct (get_plugin_cves_report slug version l sc)
    as (r & Hrun & _ & _ & Hvs & _ & _ & He & _).
  rewrite Hran in *.
  rewrite (paid_items_failure _ _ _ _ Hitems) in He.
  rewrite Hitems, (collected_stop version good bad rest Hgood Hbad) in *.
  exists r. unfold report_of. rewrite Hrun. auto.
Qed.

(** ** Where the plugins of [enumerate_plugins] come from *)

Lemma for_each_inv_in {A} (I : EnumLocals.t -> Prop)
  (body : A -> M EnumLocals.t unit) (xs : list A) :
  (forall x st, In x xs -> I (fst st) -> I (fst (snd (body x st)))) ->
  forall st, I (fst st) -> I (fst (snd (for_each xs body st))).
Proof.
  induction xs as [| x xs IH]; intros Hbody st Hst; cbn.
  - assumption.
  - unfold bind. pose proof (Hbody x st (or_introl eq_refl) Hst) as Hx.
    destruct (body x st) as [[e | []] st']; cbn in *; auto.
Qed.

Lemma installed_has_url {L} (slug : string) (l : L) (sc : scanner)
  (info : PluginInfo.t) :
  fst (check_plugin slug (l, sc)) = inr info ->
  PluginInfo.plugin_slug info = slug
  /\ (PluginInfo.is_installed info = true -> PluginInfo.plugin_url info <> None).
Proof.
  rewrite check_plugin_run. cbv zeta.
  destruct (readme_answer sc slug) as [e1 | r1];
    [ destruct (is_request_exception e1)
    | destruct (status_code r1 =? 200)%Z ];
    try (destruct (css_answer sc slug) as [e2 | r2];
         [ destruct (is_request_exception e2)
         | destruct (status_code r2 =? 200)%Z ]);
    cbn [fst]; intros Hi; try discriminate; injection Hi as <-;
    cbn; split; intros; congruence.
Qed.

Lemma listed_from_record (slugs dm : list string) (info : PluginInfo.t)
  (slug : string) (st : EnumLocals.t * scanner) :
  listed_from slugs dm (fst st) ->
  In (PluginInfo.plugin_slug info) slugs ->
  (PluginInfo.is_installed info = true -> PluginInfo.plugin_url info <> None) ->
  listed_from slugs dm (fst (snd (record_installed info slug st))).
Proof.
  destruct st as [l sc]. intros [Hps Hdm] Hin Hurl.
  unfold record_installed, when.
  destruct (PluginInfo.is_installed info) eqn:Hinst; [ | now split ].
  unfold bind, modify. cbn. split; [ | exact Hdm ].
  intros p Hp. apply in_app_or in Hp as [Hp | [<- | []]]; auto.
Qed.

Lemma html_step_listed (slugs dm : list string) (slug : string)
  (st : EnumLocals.t * scanner) :
  In slug slugs -> listed_from slugs dm (fst st) ->
  listed_from slugs dm (fst (snd (html_step slug st))).
Proof.
  destruct st as [l sc]. cbn [fst]. intros Hin Hinv.
  unfold html_step, bind, get_local, when. cbn [fst snd].
  destruct (mem slug (EnumLocals.found_slugs l)); cbn [negb];
    [assumption | ].
  destruct (check_plugin_state slug l sc) as (out & rs & Hcp & _).
  pose proof (installed_has_url slug l sc) as Hinfo.
  rewrite Hcp in *. cbn [fst] in Hinfo.
  destruct out as [e | info]; cbn [fst snd]; [assumption | ].
  destruct (Hinfo info eq_refl) as [Hslug Hurl].
  apply listed_from_record; cbn [fst]; [assumption | | assumption].
  now rewrite Hslug.
Qed.

Lemma html_stage_listed (sc : scanner) :
  listed_from (scraped sc)
    (match scraped sc with [] => [] | _ :: _ => ["HTML parsing"] end)
    (after_html sc).
Proof.
  unfold after_html, scraped, html_stage, try_except, bind, self_target_url,
    session_get, session_send. cbn [fst snd].
  destruct (net (sent sc) _) as [e | resp]; cbn;
    [split; [intros p [] | reflexivity] | ].
  destruct (set_iter _) as [| slug slugs] eqn:Hs; cbn [when];
    [cbn; split; [intros p [] | reflexivity] | ].
  unfold bind, modify. cbn [fst snd].
  match goal with
  | |- context [for_each ?xs html_step ?st] =>
      pose proof (for_each_inv_in
                    (listed_from (slug :: slugs) ["HTML parsing"])
                    html_step xs
                    (fun x st' Hin => html_step_listed _ _ x st' Hin) st) as H;
      destruct (for_each xs html_step st) as [[e | []] st']
  end; cbn in *; apply H; (split; [intros p [] | reflexivity]).
Qed.

Lemma probes_facts (slugs : list string) :
  forall (l : EnumLocals.t) (sc : scanner),
  exists outs sc',
    map_m (fun slug => attempt (check_plugin slug)) slugs (l, sc) =
      (inr outs, (l, sc'))
    /\ Forall2
         (fun slug out => forall info, out = inr info ->
            PluginInfo.plugin_slug info = slug
            /\ (PluginInfo.is_installed info = true ->
                PluginInfo.plugin_url info <> None))
         slugs outs.
Proof.
  induction slugs as [| slug slugs IH]; intros l sc; cbn [map_m].
  - exists [], sc. split; [reflexivity | constructor].
  - destruct (check_plugin_state slug l sc) as (out & rs & Hcp & _).
    pose proof (installed_has_url slug l sc) as Hinfo.
    rewrite Hcp in Hinfo. cbn [fst] in Hinfo.
    destruct (IH l (after sc rs)) as (outs & sc2 & Hm & Hall).
    exists (out :: outs), sc2. unfold bind at 1, attempt at 1.
    rewrite Hcp. unfold bind at 1. rewrite Hm.
    split; [reflexivity | ]. constructor; [ | assumption ].
    intros info ->. now apply Hinfo.
Qed.

Lemma Forall2_In_r {A B} (R : A -> B -> Prop) (xs : list A) (ys : list B)
  (y : B) :
  Forall2 R xs ys -> In y ys -> exists x, In x xs /\ R x y.
Proof.
  induction 1 as [| x y' xs ys Hxy _ IH]; intros Hin; [contradiction | ].
  destruct Hin as [<- | Hin].
  - exists x. split; [now left | assumption].
  - destruct (IH Hin) as (x' & Hx' & Hr). exists x'. split; [now right | auto].
Qed.

Lemma candidate_stage_listed (slugs dm : list string) (scan_level : Z)
  (l1 : EnumLocals.t) (sc1 : scanner) :
  listed_from slugs dm l1 ->
  (forall s, In s (load_common_plugins scan_level) -> In s slugs) ->
  listed_from slugs (dm ++ ["common plugin checking (concurrent)"])
    (fst (snd (candidate_stage scan_level (l1, sc1)))).
Proof.
  intros [Hps Hdm] Hsub.
  set (l0 := EnumLocals.add_method "common plugin checking (concurrent)" l1).
  set (scheduled := plugins_to_check (load_common_plugins scan_level)
                      (EnumLocals.found_slugs l1)).
  destruct (probes_facts scheduled l0 sc1) as (outs & sc2 & Hm & Hall).
  assert (Heq : candidate_stage scan_level (l1, sc1) =
                for_each outs collect_step (l0, sc2)).
  { change (candidate_stage scan_level (l1, sc1))
      with (bind (map_m (fun slug => attempt (check_plugin slug)) scheduled)
              (fun futures => for_each futures collect_step) (l0, sc1)).
    unfold bind. now rewrite Hm. }
  rewrite Heq. apply for_each_inv_in.
  - intros future st Hin Hinv.
    destruct (Forall2_In_r _ _ _ _ Hall Hin) as (slug & Hslug & Hout).
    unfold collect_step, bind, lift. cbn [fst snd].
    destruct future as [e | info]; cbn [fst snd]; [assumption | ].
    destruct (Hout info eq_refl) as [Hs Hurl].
    apply listed_from_record; [assumption | | assumption].
    rewrite Hs. apply Hsub. unfold scheduled, plugins_to_check in Hslug.
    now apply filter_In in Hslug as [Hslug _].
  - split; [exact Hps | ]. cbn. now rewrite Hdm.
Qed.

(** X17. Where the plugins of a result come from: the slug of every
    plugin listed was drawn from the page of the site or read from the
    candidate list, and every plugin listed has its address.  The
    result names the HTML parsing when the page gave at least one slug
    and, always, the checking of the common plugins; a root page that
    cannot be fetched only leaves the first method out. *)
Theorem enumerate_plugins_provenance {L} (scan_level : Z) (l : L)
  (sc : scanner) (r : EnumResult.t) :
  fst (enumerate_plugins scan_level (l, sc)) = inr r ->
  (forall p, In p (EnumResult.plugins r) ->
     (In (PluginInfo.plugin_slug p) (scraped sc)
      \/ In (PluginInfo.plugin_slug p) (load_common_plugins scan_level))
     /\ PluginInfo.plugin_url p <> None)
  /\ EnumResult.detection_methods r = methods_used sc.
Proof.
  rewrite enumerate_plugins_stages.
  pose proof (html_stage_listed sc) as [Hps Hdm]. unfold after_html in *.
  destruct (html_stage (EnumLocals.init, sc)) as [o [l1 sc1]].
  cbn [fst snd] in *.
  assert (H1 : listed_from (scraped sc ++ load_common_plugins scan_level)
                 (match scraped sc with
                  | [] => []
                  | _ :: _ => ["HTML parsing"]
                  end) l1).
  { split; [ | exact Hdm ]. intros p Hp. destruct (Hps p Hp) as [Hin Hurl].
    split; [apply in_or_app; now left | exact Hurl]. }
  pose proof (candidate_stage_listed _ _ scan_level l1 sc1 H1
                (fun s Hs => in_or_app _ _ s (or_intror Hs))) as [Hps2 Hdm2].
  destruct (candidate_stage scan_level (l1, sc1)) as [[e | []] st2];
    [discriminate | ].
  cbn [fst snd] in *. intros [= <-].
  cbn [EnumLocals.result EnumLocals.set_total_found EnumResult.plugins
       EnumResult.detection_methods].
  split; [ | exact Hdm2 ].
  intros p Hp. destruct (Hps2 p Hp) as [Hin Hurl].
  split; [now apply in_app_or | exact Hurl].
Qed.

(** ** How many requests [enumerate_plugins] sends *)

Lemma after_nil (sc : scanner) : after sc [] = sc.
Proof. destruct sc. unfold after. cbn. now rewrite app_nil_r. Qed.

Lemma for_each_requests {A} (body : A -> M EnumLocals.t unit) (k : nat) :
  (forall x l sc, exists rs,
      snd (snd (body x (l, sc))) = after sc rs /\ (List.length rs <= k)%nat) ->
  forall xs l sc, exists rs,
    snd (snd (for_each xs body (l, sc))) = after sc rs
    /\ (List.length rs <= k * List.length xs)%nat.
Proof.
  intros Hbody. induction xs as [| x xs IH]; intros l sc; cbn [for_each].
  - exists []. cbn. rewrite after_nil. split; [reflexivity | lia].
  - unfold bind. destruct (Hbody x l sc) as (rs1 & H1 & Hk1).
    destruct (body x (l, sc)) as [[e | []] [l' sc']]; cbn [snd] in *; subst sc'.
    + exists rs1. split; [reflexivity | cbn [List.length]; lia].
    + destruct (IH l' (after sc rs1)) as (rs2 & H2 & Hk2).
      exists (rs1 ++ rs2). rewrite H2, after_after, length_app.
      split; [reflexivity | cbn [List.length]; lia].
Qed.

Lemma html_step_requests (slug : string) (l : EnumLocals.t) (sc : scanner) :
  exists rs,
    snd (snd (html_step slug (l, sc))) = after sc rs
    /\ (List.length rs <= 2)%nat.
Proof.
  unfold html_step, bind, get_local, when. cbn [fst snd].
  destruct (mem slug (EnumLocals.found_slugs l)); cbn [negb].
  - exists []. cbn. rewrite after_nil. split; [reflexivity | lia].
  - destruct (check_plugin_state slug l sc) as (out & rs & Hcp & Hk).
    rewrite Hcp. exists rs. split; [ | exact Hk ].
    destruct out as [e | info]; cbn [snd]; [reflexivity | ].
    unfold record_installed, when, bind, modify, ret.
    destruct (PluginInfo.is_installed info); reflexivity.
Qed.

Lemma collect_step_requests (future : exn + PluginInfo.t)
  (l : EnumLocals.t) (sc : scanner) :
  exists rs,
    snd (snd (collect_step future (l, sc))) = after sc rs
    /\ (List.length rs <= 0)%nat.
Proof.
  exists []. rewrite after_nil. split; [ | cbn; lia ].
  unfold collect_step, bind, lift, record_installed, when, modify, ret.
  cbn [fst snd]. destruct future as [e | info]; [reflexivity | ].
  destruct (PluginInfo.is_installed info); reflexivity.
Qed.

Lemma probes_requests (slugs : list string) :
  forall (l : EnumLocals.t) (sc : scanner),
  exists outs rs,
    map_m (fun slug => attempt (check_plugin slug)) slugs (l, sc) =
      (inr outs, (l, after sc rs))
    /\ (List.length rs <= 2 * List.length slugs)%nat.
Proof.
  induction slugs as [| slug slugs IH]; intros l sc; cbn [map_m].
  - exists [], []. rewrite after_nil. split; [reflexivity | cbn; lia].
  - destruct (check_plugin_state slug l sc) as (out & rs1 & Hcp & Hk1).
    destruct (IH l (after sc rs1)) as (outs & rs2 & Hm & Hk2).
    exists (out :: outs), (rs1 ++ rs2). unfold bind at 1, attempt at 1.
    rewrite Hcp. unfold bind at 1. rewrite Hm, after_after, length_app.
    split; [reflexivity | cbn [List.length]; lia].
Qed.

Lemma html_stage_requests (l : EnumLocals.t) (sc : scanner) :
  exists rs,
    snd (snd (html_stage (l, sc))) =
      after sc (mk_request GET (target_url sc) None :: rs)
    /\ (List.length rs <= 2 * List.length (scraped sc))%nat.
Proof.
  unfold scraped, html_stage, try_except, bind, self_target_url,
    session_get, session_send. cbn [fst snd].
  destruct (net (sent sc) _) as [e | resp]; cbn -[Nat.mul].
  - exists []. split; [reflexivity | cbn; lia].
  - destruct (set_iter _) as [| slug slugs]; cbn [when].
    + exists []. split; [reflexivity | cbn; lia].
    + unfold bind, modify. cbn [fst snd].
      match goal with
      | |- context [for_each ?xs html_step (?l0, ?sc0)] =>
          destruct (for_each_requests html_step 2 html_step_requests xs l0 sc0)
            as (rs & Hrs & Hk);
          destruct (for_each xs html_step (l0, sc0)) as [[e | []] [l' sc']]
      end; cbn [snd] in *; subst; exists rs;
        (split; [unfold after; cbn; now rewrite <- app_assoc | exact Hk]).
Qed.

Lemma candidate_stage_with_requests (common_plugins : list string)
  (l1 : EnumLocals.t) (sc1 : scanner) :
  exists rs,
    snd (snd (candidate_stage_with common_plugins (l1, sc1))) = after sc1 rs
    /\ (List.length rs <= 2 * List.length common_plugins)%nat.
Proof.
  set (l0 := EnumLocals.add_method "common plugin checking (concurrent)" l1).
  set (scheduled := plugins_to_check common_plugins
                      (EnumLocals.found_slugs l1)).
  destruct (probes_requests scheduled l0 sc1) as (outs & rs & Hm & Hk).
  assert (Heq : candidate_stage_with common_plugins (l1, sc1) =
                for_each outs collect_step (l0, after sc1 rs)).
  { change (candidate_stage_with common_plugins (l1, sc1))
      with (bind (map_m (fun slug => attempt (check_plugin slug)) scheduled)
              (fun futures => for_each futures collect_step) (l0, sc1)).
    unfold bind. now rewrite Hm. }
  rewrite Heq.
  destruct (for_each_requests collect_step 0 collect_step_requests outs l0
              (after sc1 rs)) as (rs' & Hrs & Hk').
  rewrite Hrs. destruct rs'; [ | cbn in Hk'; lia ].
  rewrite after_nil. exists rs. split; [reflexivity | ].
  pose proof (filter_length_le
                (fun slug => negb (mem slug (EnumLocals.found_slugs l1)))
                common_plugins) as Hle.
  fold (plugins_to_check common_plugins (EnumLocals.found_slugs l1)) in Hle.
  fold scheduled in Hle. lia.
Qed.

(** X18. The load the enumeration puts on the site is bounded, whatever
    the network answers and whether the run returns or raises: it
    sends the request for the root page and then at most two requests
    for each slug drawn from the page and for each slug of the
    candidate list; the address of the scanner is left as it was. *)
Theorem enumerate_plugins_requests {L} (scan_level : Z) (l : L)
  (sc : scanner) :
  exists rs,
    snd (enumerate_plugins scan_level (l, sc)) =
      (l, after sc (mk_request GET (target_url sc) None :: rs))
    /\ (List.length rs <=
        2 * (List.length (scraped sc)
             + List.length (load_common_plugins scan_level)))%nat.
Proof.
  rewrite enumerate_plugins_stages.
  destruct (html_stage_requests EnumLocals.init sc) as (rs1 & H1 & Hk1).
  destruct (html_stage (EnumLocals.init, sc)) as [o [l1 sc1]].
  cbn [fst snd] in *. subst sc1.
  destruct (candidate_stage_with_requests (load_common_plugins scan_level) l1
              (after sc (mk_request GET (target_url sc) None :: rs1)))
    as (rs2 & H2 & Hk2).
  exists (rs1 ++ rs2).
  change (candidate_stage scan_level)
    with (candidate_stage_with (load_common_plugins scan_level)).
  destruct (candidate_stage_with _ _) as [[e | []] [l2 sc2]];
    cbn [fst snd] in *; subst sc2; rewrite after_after, length_app;
    (split; [reflexivity | lia]).
Qed.

(** ** Properties of [start_scan] *)

Lemma resolvers_run (plugins : list PluginInfo.t) :
  forall (l : unit) (sc : scanner),
  exists reports rs,
    map_m (fun p =>
             attempt (get_plugin_cves (PluginInfo.plugin_slug p)
                        (PluginInfo.version p)))
      plugins (l, sc)
    = (inr (map inr reports), (l, after sc rs))
    /\ map CveResult.plugin_slug reports = map PluginInfo.plugin_slug plugins
    /\ map CveResult.version reports = map PluginInfo.version plugins
    /\ (List.length rs <= 2 * List.length plugins)%nat.
Proof.
  induction plugins as [| p plugins IH]; intros l sc; cbn [map_m].
  - exists [], []. rewrite after_nil. repeat split. cbn. lia.
  - destruct (get_plugin_cves_report (PluginInfo.plugin_slug p)
                (PluginInfo.version p) l sc)
      as (r & Hrun & Hs & Hv & _).
    cbv zeta in Hrun.
    match type of Hrun with
    | _ = (_, (_, after sc ?rs1)) =>
        destruct (IH l (after sc rs1)) as (reports & rs2 & Hm & Hss & Hvs & Hk);
        exists (r :: reports), (rs1 ++ rs2);
        assert (Hk1 : (List.length rs1 <= 2)%nat)
          by (destruct (wants_tier2 _ _ _); cbn; lia)
    end.
    unfold bind at 1, attempt at 1. rewrite Hrun.
    unfold bind at 1. rewrite Hm, after_after, length_app.
    cbn [map List.length] in *. rewrite Hs, Hv, Hss, Hvs.
    repeat split. lia.
Qed.

Lemma map_m_lift_inr {L A} (xs : list A) (st : L * scanner) :
  map_m lift (map inr xs) st = (inr xs, st).
Proof.
  induction xs as [| x xs IH]; [reflexivity | ].
  cbn [map map_m]. unfold bind at 1, lift at 1. unfold bind at 1.
  now rewrite IH.
Qed.

Lemma resolve_all_run (plugins : list PluginInfo.t) (sc : scanner) :
  exists reports rs,
    resolve_all plugins (tt, sc) = (inr reports, (tt, after sc rs))
    /\ map CveResult.plugin_slug reports = map PluginInfo.plugin_slug plugins
    /\ map CveResult.version reports = map PluginInfo.version plugins
    /\ (List.length rs <= 2 * List.length plugins)%nat.
Proof.
  destruct (resolvers_run plugins tt sc) as (reports & rs & Hm & H).
  exists reports, rs. split; [ | exact H ].
  unfold resolve_all, bind. now rewrite Hm, map_m_lift_inr.
Qed.

(** The run of [scan], stage by stage. *)
Lemma scan_run (scan_level : pyval) (sc : scanner) :
  scan scan_level (tt, sc) =
    match is_wordpress (tt, sc) with
    | (inl e, st1) => (inl e, st1)
    | (inr wp_check, st1) =>
        if Indicators.is_wordpress wp_check then
          match enumerate_plugins_dyn scan_level st1 with
          | (inl e, st2) => (inl e, st2)
          | (inr plugin_data, st2) =>
              match resolve_all (EnumResult.plugins plugin_data) st2 with
              | (inl e, st3) => (inl e, st3)
              | (inr cve_results, st3) =>
                  (inr (Results.mk wp_check (Some plugin_data)
                          (Some cve_results)), st3)
              end
          end
        else (inr (Results.mk wp_check None None), st1)
    end.
Proof.
  unfold scan. unfold bind at 1.
  destruct (is_wordpress (tt, sc)) as [[e | wp] st1]; [reflexivity | ].
  destruct (Indicators.is_wordpress wp); [ | reflexivity ].
  unfold bind at 1.
  destruct (enumerate_plugins_dyn scan_level st1) as [[e | pd] st2];
    [reflexivity | ].
  unfold bind at 1.
  destruct (resolve_all (EnumResult.plugins pd) st2) as [[e | reports] st3];
    reflexivity.
Qed.

(** X19. What an answer with results holds.  For a site the detector
    does not take for WordPress the results hold the check alone, and
    the scan sent at most two requests; for a WordPress site they hold
    the plugins and one report per plugin listed, in the order of the
    list, each about the slug and the version of its plugin. *)
Theorem start_scan_results (data : pyval) (results : Results.t)
  (requests : list request) :
  start_scan data = inr (Ok results, requests) ->
  let wp_check := Results.wp_check results in
  if Indicators.is_wordpress wp_check then
    exists plugin_data cve_results,
      Results.plugins results = Some plugin_data
      /\ Results.vulnerabilities results = Some cve_results
      /\ map CveResult.plugin_slug cve_results =
           map PluginInfo.plugin_slug (EnumResult.plugins plugin_data)
      /\ map CveResult.version cve_results =
           map PluginInfo.version (EnumResult.plugins plugin_data)
  else
    Results.plugins results = None
    /\ Results.vulnerabilities results = None
    /\ (List.length requests <= 2)%nat.
Proof.
  unfold start_scan.
  destruct (py_get data "target_url" PyNone) as [e | url]; [discriminate | ].
  destruct (py_get data "scan_level" (PyInt 1000)) as [e | scan_level];
    [discriminate | ].
  destruct (negb (truthy url)); [discriminate | ].
  destruct url as [ | | | | u | | ]; try discriminate.
  cbv zeta. rewrite scan_run.
  set (sc := new_scanner (sanitized (with_scheme u))).
  pose proof (is_wordpress_run tt sc) as Hwp.
  destruct (is_wordpress (tt, sc)) as [[e | wp] [[] sc1]] eqn:Hrun;
    [discriminate | ].
  destruct (Indicators.is_wordpress wp) eqn:Hflag.
  - destruct (enumerate_plugins_dyn scan_level (tt, sc1))
      as [[e | pd] [[] sc2]]; [discriminate | ].
    destruct (resolve_all_run (EnumResult.plugins pd) sc2)
      as (reports & rs & Hres & Hs & Hv & _).
    rewrite Hres. intros [= <- <-]. cbn. rewrite Hflag. eauto 10.
  - intros [= <- <-]. cbn. rewrite Hflag.
    split; [reflexivity | split; [reflexivity | ] ].
    apply (f_equal (fun out => List.length (sent (snd (snd out))))) in Hwp.
    cbn [fst snd] in Hwp. rewrite Hwp. subst sc.
    destruct (root_answer _) as [e | resp]; cbn; lia.
Qed.

Lemma enumerate_plugins_dyn_stages {L} (scan_level : pyval) (l : L)
  (sc : scanner) :
  enumerate_plugins_dyn scan_level (l, sc) =
    match
      candidate_stage_with (load_common_plugins_dyn scan_level)
        (snd (html_stage (EnumLocals.init, sc)))
    with
    | (inr _, st2) =>
        (inr (EnumLocals.result (EnumLocals.set_total_found (fst st2))),
         (l, snd st2))
    | (inl e, st2) => (inl e, (l, snd st2))
    end.
Proof.
  destruct (html_stage_run EnumLocals.init sc enum_inv_init) as [Hout _].
  unfold enumerate_plugins_dyn, call. cbn [fst snd]. unfold bind at 1.
  destruct (html_stage (EnumLocals.init, sc)) as [o st1].
  cbn [fst snd] in *. subst o. unfold bind at 1.
  destruct (candidate_stage_with _ st1) as [[e | []] [l2 sc2]];
    reflexivity.
Qed.

Lemma candidate_stage_with_returns (common_plugins : list string)
  (l1 : EnumLocals.t) (sc1 : scanner) :
  network_failures_only ->
  exists st2, candidate_stage_with common_plugins (l1, sc1) = (inr tt, st2).
Proof.
  intros Hnet.
  set (l0 := EnumLocals.add_method "common plugin checking (concurrent)" l1).
  set (slugs := plugins_to_check common_plugins (EnumLocals.found_slugs l1)).
  destruct (probes_run slugs l0 sc1) as (outs & sc2 & Hm & _ & Hr).
  assert (Heq : candidate_stage_with common_plugins (l1, sc1) =
                for_each outs collect_step (l0, sc2)).
  { change (candidate_stage_with common_plugins (l1, sc1))
      with (bind (map_m (fun slug => attempt (check_plugin slug)) slugs)
              (fun futures => for_each futures collect_step) (l0, sc1)).
    unfold bind. now rewrite Hm. }
  rewrite Heq. destruct (all_returned _ (Hr Hnet)) as (infos & ->).
  destruct (collect_returned infos l0 sc2) as (l' & Hrun' & _).
  eauto.
Qed.

Lemma enumerate_plugins_dyn_requests {L} (scan_level : pyval) (l : L)
  (sc : scanner) :
  exists rs, snd (enumerate_plugins_dyn scan_level (l, sc)) = (l, after sc rs).
Proof.
  rewrite enumerate_plugins_dyn_stages.
  destruct (html_stage_requests EnumLocals.init sc) as (rs1 & H1 & _).
  destruct (html_stage (EnumLocals.init, sc)) as [o [l1 sc1]].
  cbn [fst snd] in *. subst sc1.
  destruct (candidate_stage_with_requests
              (load_common_plugins_dyn scan_level) l1
              (after sc (mk_request GET (target_url sc) None :: rs1)))
    as (rs2 & H2 & _).
  destruct (candidate_stage_with _ _) as [[e | []] [l2 sc2]];
    cbn [fst snd] in *; subst sc2; rewrite after_after; eauto.
Qed.

(** The requests of a scan begin with the one for the root page. *)
Lemma scan_requests (scan_level : pyval) (sc : scanner) :
  exists rest,
    sent (snd (snd (scan scan_level (tt, sc)))) =
      sent sc ++ mk_request GET (target_url sc) None :: rest.
Proof.
  rewrite scan_run. pose proof (is_wordpress_run tt sc) as Hwp.
  destruct (is_wordpress (tt, sc)) as [[e | wp] [[] sc1]] eqn:Hrun.
  - apply (f_equal (fun out => sent (snd (snd out)))) in Hwp.
    cbn [fst snd] in *. rewrite Hwp.
    destruct (root_answer (tt, sc)); cbn; eauto.
  - assert (H1 : exists rest1,
               sent sc1 = sent sc ++ mk_request GET (target_url sc) None :: rest1).
    { apply (f_equal (fun out => sent (snd (snd out)))) in Hwp.
      cbn [fst snd] in *. rewrite Hwp.
      destruct (root_answer (tt, sc)); cbn; eauto. }
    destruct H1 as (rest1 & H1).
    destruct (Indicators.is_wordpress wp); [ | cbn [snd]; eauto ].
    destruct (enumerate_plugins_dyn_requests scan_level tt sc1) as (rs2 & H2).
    destruct (enumerate_plugins_dyn scan_level (tt, sc1))
      as [[e | pd] [[] sc2]]; cbn [snd] in *; injection H2 as ->.
    + cbn. rewrite H1, <- app_assoc. cbn. eauto.
    + destruct (resolve_all_run (EnumResult.plugins pd) (after sc1 rs2))
        as (reports & rs3 & Hres & _).
      rewrite Hres. cbn. rewrite H1, <- !app_assoc. cbn. eauto.
Qed.

(** X20. How the handler treats its input.  A body without an
    address, or with an empty one, is answered 400 and nothing is
    sent.  A body that is no object, or whose address is neither
    empty nor a string, makes [AttributeError] leave the handler, and
    nothing is sent.  For an address that is a string the scan runs on
    the address given [https://] when it names neither [http://] nor
    [https://], cut down to scheme and network location and without
    trailing slashes: the first request of the scan is the one for
    that address, and the answer is never the 400. *)
Theorem start_scan_input (data : pyval) :
  (is_dict data = false -> start_scan data = inl AttributeError)
  /\ (forall url,
        py_get data "target_url" PyNone = inr url ->
        (truthy url = false -> start_scan data = inr (BadRequest, []))
        /\ (truthy url = true ->
            match url with
            | PyStr u =>
                exists answer rest,
                  start_scan data =
                    inr (answer,
                         mk_request GET
                           (Str.rstrip_slash (sanitized (with_scheme u)))
                           None :: rest)
                  /\ ((exists results, answer = Ok results)
                      \/ exists e, answer = ServerError e)
            | _ => start_scan data = inl AttributeError
            end)).
Proof.
  split.
  - destruct data; try reflexivity. discriminate.
  - intros url Hurl. unfold start_scan. rewrite Hurl.
    destruct data as [ | | | | | | kvs]; try discriminate.
    cbn [py_get]. split.
    + now intros ->.
    + intros ->. cbn [negb]. destruct url as [ | | | | u | | ]; try reflexivity.
      cbv zeta.
      match goal with
      | |- context [scan ?v (tt, ?sc)] =>
          destruct (scan_requests v sc) as (rest & Hreq);
          destruct (scan v (tt, sc)) as [[e | results] [[] sc']]
      end; cbn [snd] in Hreq; rewrite Hreq; cbn; eauto 10.
Qed.

(** X21. On a network that fails with [RequestException] only, the
    handler answers every body whose address is a non-empty string
    with results, never with the 500. *)
Theorem start_scan_no_server_error (data : pyval) (u : string) :
  network_failures_only ->
  py_get data "target_url" PyNone = inr (PyStr u) ->
  u <> EmptyString ->
  exists results requests, start_scan data = inr (Ok results, requests).
Proof.
  intros Hnet Hurl Hu. unfold start_scan. rewrite Hurl.
  destruct data as [ | | | | | | kvs]; try discriminate.
  cbn [py_get]. destruct u as [| c u]; [congruence | ].
  cbn [truthy Str.nonempty negb]. cbv zeta. rewrite scan_run.
  set (sc := new_scanner _). rewrite is_wordpress_run.
  destruct (root_answer (tt, sc)) as [e | resp] eqn:Hroot.
  - unfold root_answer in Hroot. rewrite (Hnet _ _ _ Hroot). cbn. eauto.
  - cbv beta iota zeta. cbn [Indicators.is_wordpress].
    destruct (30 <=? _)%Z; [ | eauto ].
    match goal with
    | |- context [enumerate_plugins_dyn ?v (tt, ?sc1)] =>
        rewrite (enumerate_plugins_dyn_stages v tt sc1);
        destruct (html_stage (EnumLocals.init, sc1)) as [o [l1 sc2]]
    end.
    cbn [snd].
    destruct (candidate_stage_with_returns
                (load_common_plugins_dyn
                   match lookup "scan_level" kvs with
                   | Some v => v
                   | None => PyInt 1000
                   end) l1 sc2 Hnet) as ([l2 sc3] & ->).
    cbn [fst snd].
    match goal with
    | |- context [resolve_all ?ps (tt, ?sc4)] =>
        destruct (resolve_all_run ps sc4) as (reports & rs & -> & _)
    end.
    eauto.
Qed.

(** X22. How the level of the body selects the candidates.  An
    integer level is the level of [load_common_plugins], and the
    enumeration is the one of that level; [null] stands for the whole
    list, [true] and [false] for the levels 1 and 0; and with a level
    that is a string, a list or an object the slice raises and the
    seven default slugs are returned, whatever the file holds. *)
Theorem scan_level_of_body :
  (forall z, load_common_plugins_dyn (PyInt z) = load_common_plugins z)
  /\ (forall L z (st : L * scanner),
        enumerate_plugins_dyn (PyInt z) st = enumerate_plugins z st)
  /\ load_common_plugins_dyn PyNone = load_common_plugins (-1)
  /\ (forall b : bool,
        load_common_plugins_dyn (PyBool b) =
          load_common_plugins (if b then 1 else 0))
  /\ (forall v,
        match v with
        | PyStr _ | PyList _ | PyDict _ => True
        | _ => False
        end ->
        load_common_plugins_dyn v = default_list).
Proof.
  assert (Hint : forall z,
            load_common_plugins_dyn (PyInt z) = load_common_plugins z).
  { intros z. unfold load_common_plugins_dyn, load_common_plugins.
    destruct plugin_list; reflexivity. }
  split; [exact Hint | split; [ | split; [ | split ] ] ].
  - intros L z st. unfold enumerate_plugins_dyn, enumerate_plugins.
    rewrite Hint. reflexivity.
  - unfold load_common_plugins_dyn, load_common_plugins.
    destruct plugin_list; reflexivity.
  - intros b. unfold load_common_plugins_dyn, load_common_plugins.
    destruct plugin_list; try reflexivity. now destruct b.
  - intros v Hv. unfold load_common_plugins_dyn.
    destruct plugin_list; try reflexivity.
    destruct v; try contradiction; reflexivity.
Qed.

(** ** Properties of [build_list] *)

Lemma append_slugs_requested (plugins : list pyval) :
  forall st, requested (snd (append_slugs plugins st)) = requested st.
Proof.
  induction plugins as [| plugin rest IH]; intros st; cbn; [reflexivity | ].
  destruct (py_item plugin "slug"); [reflexivity | ]. now rewrite IH.
Qed.

Lemma fetch_page_requested (sort_by : string) (total_plugins page : Z)
  (st : builder) :
  requested (snd (fetch_page sort_by total_plugins page st)) =
    requested st ++ [page_request sort_by page].
Proof.
  unfold fetch_page.
  destruct (net (requested st) _) as [e | response]; [reflexivity | ].
  destruct (negb (status_code response =? 200)%Z); [reflexivity | ].
  destruct (json response) as [e | data]; [reflexivity | ].
  destruct (py_get data "plugins" (PyList [])) as [e | plugins];
    [reflexivity | ].
  destruct (negb (truthy plugins)); [reflexivity | ].
  destruct (py_iter plugins) as [e | items]; [reflexivity | ].
  match goal with
  | |- context [append_slugs items ?st1] =>
      pose proof (append_slugs_requested items st1) as H;
      destruct (append_slugs items st1) as [[e | []] st2]
  end; cbn [snd] in *; [exact H | ].
  destruct (total_plugins <=? _)%Z; exact H.
Qed.

Lemma fetch_page_break (sort_by : string) (total_plugins page : Z)
  (st st' : builder) :
  fetch_page sort_by total_plugins page st = (inr Break, st') ->
  (total_plugins <= Z.of_nat (List.length (all_plugin_slugs st')))%Z
  \/ empty_page (net (requested st) (page_request sort_by page)) = true.
Proof.
  unfold fetch_page, empty_page.
  destruct (net (requested st) _) as [e | response]; [discriminate | ].
  destruct (status_code response =? 200)%Z; cbn [negb andb];
    [ | discriminate ].
  destruct (json response) as [e | data]; [discriminate | ].
  destruct (py_get data "plugins" (PyList [])) as [e | plugins];
    [discriminate | ].
  destruct (negb (truthy plugins)); [now right | ].
  destruct (py_iter plugins) as [e | items]; [discriminate | ].
  destruct (append_slugs items _) as [[e | []] st2]; [discriminate | ].
  destruct (total_plugins <=? _)%Z eqn:Hle; [ | discriminate ].
  intros [= <-]. left. lia.
Qed.

Lemma fetch_pages_run (sort_by : string) (total_plugins : Z)
  (pages : list Z) :
  forall st, exists k,
    (k <= List.length pages)%nat
    /\ requested (fetch_pages sort_by total_plugins pages st) =
         requested st ++ map (page_request sort_by) (firstn k pages)
    /\ ((k < List.length pages)%nat ->
        exists page,
          nth_error pages (k - 1) = Some page
          /\ (0 < k)%nat
          /\ ((total_plugins <=
               Z.of_nat
                 (List.length
                    (all_plugin_slugs
                       (fetch_pages sort_by total_plugins pages st))))%Z
              \/ empty_page
                   (net (requested st
                         ++ map (page_request sort_by) (firstn (k - 1) pages))
                      (page_request sort_by page)) = true)).
Proof.
  induction pages as [| page rest IH]; intros st.
  - exists 0%nat. cbn. rewrite app_nil_r.
    split; [lia | split; [reflexivity | lia] ].
  - cbn [fetch_pages].
    pose proof (fetch_page_requested sort_by total_plugins page st) as Hreq.
    pose proof (fetch_page_break sort_by total_plugins page st) as Hbrk.
    destruct (fetch_page sort_by total_plugins page st) as [o st1].
    cbn [snd] in Hreq.
    assert (Hgo : forall k',
              (k' <= List.length rest)%nat ->
              requested (fetch_pages sort_by total_plugins rest st1) =
                requested st1
                ++ map (page_request sort_by) (firstn k' rest) ->
              ((k' < List.length rest)%nat ->
               exists page',
                 nth_error rest (k' - 1) = Some page'
                 /\ (0 < k')%nat
                 /\ ((total_plugins <=
                      Z.of_nat
                        (List.length
                           (all_plugin_slugs
                              (fetch_pages sort_by total_plugins rest st1))))%Z
                     \/ empty_page
                          (net (requested st1
                                ++ map (page_request sort_by)
                                     (firstn (k' - 1) rest))
                             (page_request sort_by page')) = true)) ->
              exists k,
                (k <= List.length (page :: rest))%nat
                /\ requested (fetch_pages sort_by total_plugins rest st1) =
                     requested st
                     ++ map (page_request sort_by) (firstn k (page :: rest))
                /\ ((k < List.length (page :: rest))%nat ->
                    exists page',
                      nth_error (page :: rest) (k - 1) = Some page'
                      /\ (0 < k)%nat
                      /\ ((total_plugins <=
                           Z.of_nat
                             (List.length
                                (all_plugin_slugs
                                   (fetch_pages sort_by total_plugins rest
                                      st1))))%Z
                          \/ empty_page
                               (net (requested st
                                     ++ map (page_request sort_by)
                                          (firstn (k - 1) (page :: rest)))
                                  (page_request sort_by page')) = true))).
    { intros k' Hk' Hr Hstop. exists (S k'). cbn [List.length firstn map].
      split; [lia | split ].
      - rewrite Hr, Hreq, <- app_assoc. reflexivity.
      - intros Hlt. destruct Hstop as (page' & Hnth & Hpos & Hwhy); [lia | ].
        exists page'. replace (S k' - 1)%nat with (S (k' - 1)) by lia.
        cbn [nth_error firstn map]. split; [exact Hnth | split; [lia | ] ].
        rewrite Hreq, <- app_assoc in Hwhy. exact Hwhy. }
    destruct o as [e | [ | ]].
    + destruct (IH st1) as (k' & Hk' & Hr & Hstop). eauto.
    + destruct (IH st1) as (k' & Hk' & Hr & Hstop). eauto.
    + exists 1%nat. cbn [List.length firstn map nth_error Nat.sub].
      split; [lia | split; [exact Hreq | ] ].
      intros _. exists page. split; [reflexivity | split; [lia | ] ].
      cbn. rewrite app_nil_r. now apply Hbrk.
Qed.

Lemma firstn_seq_le (k : nat) :
  forall start n, (k <= n)%nat -> firstn k (seq start n) = seq start k.
Proof.
  induction k as [| k IH]; intros start n Hk; [reflexivity | ].
  destruct n as [| n]; [lia | ]. cbn. f_equal. apply IH. lia.
Qed.

Lemma firstn_page_range (k n : nat) :
  (k <= n)%nat ->
  firstn k (page_range (Z.of_nat n)) = page_range (Z.of_nat k).
Proof.
  intros Hk. unfold page_range.
  now rewrite !Nat2Z.id, firstn_map, firstn_seq_le.
Qed.

(** X23. An exception of the number of pages (the [OverflowError]
    of a total too large for a float) leaves [build_list] before any
    request is sent and anything is written.  Otherwise the requests
    of the build are those for the pages 1, 2, ... up to some page
    [k], each once and in this order, and [k] is at most the number of
    pages planned (none when that number is zero or less, and then
    nothing is written but an empty file); and no error of a page
    stops the build: it ends before the last page planned only after a
    page that is empty or once as many slugs as asked for are
    gathered. *)
Theorem build_list_requests (sort_by : string) (total_plugins : Z) :
  match ceil_quotient total_plugins with
  | inl e => build_list sort_by total_plugins = inl e
  | inr pages_to_fetch =>
      let pages := Z.to_nat pages_to_fetch in
      exists k text,
        (k <= pages)%nat
        /\ build_list sort_by total_plugins =
             inr (map (page_request sort_by) (page_range (Z.of_nat k)), text)
        /\ ((k < pages)%nat ->
            (total_plugins <=
             Z.of_nat
               (List.length
                  (all_plugin_slugs
                     (gathered sort_by total_plugins pages_to_fetch))))%Z
            \/ empty_page
                 (net (map (page_request sort_by)
                         (page_range (Z.of_nat (k - 1))))
                    (page_request sort_by (Z.of_nat k))) = true)
        /\ (pages = 0%nat -> text = EmptyString)
  end.
Proof.
  unfold build_list.
  destruct (ceil_quotient total_plugins) as [e | pages_to_fetch];
    [reflexivity | ].
  cbv zeta. unfold final_list, gathered.
  set (n := Z.to_nat pages_to_fetch).
  assert (Hrange : page_range pages_to_fetch = page_range (Z.of_nat n)).
  { unfold page_range, n. now rewrite Nat2Z.id. }
  rewrite Hrange.
  destruct (fetch_pages_run sort_by total_plugins (page_range (Z.of_nat n))
              (mk_builder [] [])) as (k & Hk & Hreq & Hstop).
  assert (Hlen : List.length (page_range (Z.of_nat n)) = n).
  { unfold page_range. now rewrite length_map, length_seq, Nat2Z.id. }
  rewrite Hlen in *. exists k. eexists.
  split; [exact Hk | split; [ | split ] ].
  - rewrite Hreq. cbn [requested app]. rewrite firstn_page_range by exact Hk.
    reflexivity.
  - intros Hlt. destruct (Hstop Hlt) as (page & Hnth & Hpos & Hwhy).
    assert (Hpage : page = Z.of_nat k).
    { unfold page_range in Hnth. rewrite Nat2Z.id in Hnth.
      rewrite nth_error_map, nth_error_seq in Hnth.
      destruct (k - 1 <? n)%nat; [ | discriminate ]. cbn in Hnth.
      injection Hnth as <-. f_equal. lia. }
    subst page. destruct Hwhy as [Hwhy | Hwhy]; [now left | right].
    cbn [requested app] in Hwhy.
    rewrite firstn_page_range in Hwhy by lia. exact Hwhy.
  - intros Hn. rewrite Hn. cbn. unfold slice_to.
    destruct (0 <=? total_plugins)%Z; rewrite firstn_nil; reflexivity.
Qed.

(** *** The file the build writes, read back by the scanner *)

Lemma concat_cons (x : string) (xs : list string) :
  String.concat EmptyString (x :: xs) =
    (x ++ String.concat EmptyString xs)%string.
Proof.
  destruct xs as [| y ys]; cbn; [ | reflexivity ].
  induction x as [| c x IH]; cbn; congruence.
Qed.

Lemma append_assoc (a b c : string) :
  ((a ++ b) ++ c)%string = (a ++ (b ++ c))%string.
Proof. induction a as [| x a IH]; cbn; congruence. Qed.

Lemma readlines_line (s rest : string) :
  Chars.all_in no_break s = true ->
  readlines (s ++ String line_feed rest) =
    (s ++ String line_feed EmptyString)%string :: readlines rest.
Proof.
  induction s as [| c s IH]; [reflexivity | ].
  cbn [Chars.all_in]. intros H. apply andb_true_iff in H as [Hc Hs].
  cbn [append readlines]. rewrite (IH Hs).
  unfold no_break in Hc. apply negb_true_iff, orb_false_iff in Hc as [-> ->].
  reflexivity.
Qed.

Lemma readlines_written (slugs : list pyval) :
  forallb one_line slugs = true ->
  readlines (written slugs) =
    map (fun slug => (text_of slug ++ String line_feed EmptyString)%string)
      slugs.
Proof.
  unfold written. induction slugs as [| slug slugs IH]; [reflexivity | ].
  cbn [forallb map]. intros H. apply andb_true_iff in H as [Hs Hrest].
  rewrite concat_cons. destruct slug as [ | | | | s | | ]; try discriminate.
  change (slug_line (PyStr s))
    with (s ++ String line_feed EmptyString)%string.
  cbn [text_of one_line] in *. rewrite append_assoc.
  cbn [append]. rewrite (readlines_line _ _ Hs), (IH Hrest). reflexivity.
Qed.

Lemma rstrip_with_snoc (f : ascii -> bool) (c : ascii) (s : string) :
  f c = true ->
  Str.rstrip_with f (s ++ String c EmptyString) = Str.rstrip_with f s.
Proof.
  intros Hc. induction s as [| d s IH]; cbn.
  - now rewrite Hc.
  - now rewrite IH.
Qed.

Lemma strip_line (s : string) :
  Str.strip (s ++ String line_feed EmptyString) = Str.strip s.
Proof. unfold Str.strip. now rewrite rstrip_with_snoc. Qed.

Lemma rstrip_with_keep (f : ascii -> bool) (s : string) (c : ascii) :
  Chars.last s = Some c -> f c = false -> Str.rstrip_with f s = s.
Proof.
  intros Hlast Hc. induction s as [| d s IH]; [reflexivity | ].
  cbn [Str.rstrip_with]. destruct s as [| e s'].
  - cbn in *. injection Hlast as ->. now rewrite Hc.
  - rewrite IH by exact Hlast. reflexivity.
Qed.

Lemma strip_clean (s : string) :
  Str.nonempty s = true -> Chars.trimmed s = true -> Str.strip s = s.
Proof.
  unfold Chars.trimmed, Str.strip. intros Hne Ht.
  destruct s as [| a s]; [discriminate | ].
  cbn [Chars.first] in Ht.
  destruct (Chars.last (String a s)) as [b | ] eqn:Hlast.
  - apply andb_true_iff in Ht as [Ha Hb].
    apply negb_true_iff in Ha. apply negb_true_iff in Hb.
    rewrite (rstrip_with_keep _ _ b Hlast Hb). cbn. now rewrite Ha.
  - exfalso. clear -Hlast. revert a Hlast.
    induction s as [| c s IH]; intros a; cbn; [discriminate | ].
    intros H. now apply (IH c).
Qed.

Lemma load_written (slugs : list pyval) :
  forallb one_line slugs = true ->
  filter Str.nonempty (map Str.strip (readlines (written slugs))) =
    filter Str.nonempty (map Str.strip (map text_of slugs)).
Proof.
  intros H. rewrite (readlines_written slugs H), !map_map. f_equal.
  apply map_ext. intros slug. apply strip_line.
Qed.

Lemma load_clean (slugs : list pyval) :
  forallb clean slugs = true ->
  forallb one_line slugs = true
  /\ filter Str.nonempty (map Str.strip (map text_of slugs)) =
       map text_of slugs.
Proof.
  induction slugs as [| slug slugs IH]; [now split | ].
  cbn [forallb map filter]. intros H. apply andb_true_iff in H as [Hs Hrest].
  destruct (IH Hrest) as [H1 H2]. destruct slug; try discriminate.
  cbn [clean one_line text_of] in *.
  apply andb_true_iff in Hs as [Hs Ht]. apply andb_true_iff in Hs as [Hb Hn].
  rewrite Hb, H1, (strip_clean _ Hn Ht), Hn, H2. now split.
Qed.

(** X24. What the build writes is what the scanner reads.  When
    [plugin_list.txt] is the file a build wrote and the slugs written
    are strings without line breaks, [load_common_plugins] reads back,
    at the level -1, the slugs written, stripped and without the empty
    ones, in their order; when they are clean (not empty, no white
    space at either end) it reads back exactly the slugs written, and
    at a level [n] that is not negative the first [n] of them.  A
    build asked for a number of slugs that is not negative writes no
    more than that number. *)
Theorem build_list_round_trip (sort_by : string)
  (total_plugins scan_level pages_to_fetch : Z) (requests : list request)
  (text : string) :
  ceil_quotient total_plugins = inr pages_to_fetch ->
  build_list sort_by total_plugins = inr (requests, text) ->
  plugin_list = Lines (readlines text) ->
  forallb one_line (final_list sort_by total_plugins pages_to_fetch) = true ->
  load_common_plugins (-1) =
    filter Str.nonempty
      (map Str.strip
         (map text_of (final_list sort_by total_plugins pages_to_fetch)))
  /\ (forallb clean (final_list sort_by total_plugins pages_to_fetch) = true ->
      load_common_plugins (-1) =
        map text_of (final_list sort_by total_plugins pages_to_fetch)
      /\ ((0 <= scan_level)%Z ->
          load_common_plugins scan_level =
            firstn (Z.to_nat scan_level)
              (map text_of
                 (final_list sort_by total_plugins pages_to_fetch))))
  /\ ((0 <= total_plugins)%Z ->
      (Z.of_nat
         (List.length (final_list sort_by total_plugins pages_to_fetch))
       <= total_plugins)%Z).
Proof.
  intros Hpages Hbuild Hfile Hline. unfold build_list in Hbuild.
  rewrite Hpages in Hbuild. injection Hbuild as _ <-.
  unfold load_common_plugins. rewrite Hfile.
  cbn [Z.eqb]. rewrite (load_written _ Hline).
  split; [reflexivity | split ].
  - intros Hclean. destruct (load_clean _ Hclean) as [_ ->].
    split; [reflexivity | ]. intros Hlevel.
    destruct (scan_level =? -1)%Z eqn:He; [lia | ].
    unfold slice_to. destruct (0 <=? scan_level)%Z eqn:Hle; [reflexivity | lia].
  - intros Htotal. unfold final_list, slice_to.
    destruct (0 <=? total_plugins)%Z eqn:Hle; [ | lia ].
    rewrite length_firstn. lia.
Qed.

End Scanner.

(** ** The order of [LooseVersion] *)

Module VersionOrder.
Import LooseVersion Dotted.

Lemma push_tail (c : ascii) (rs tl : list (cclass * string)) :
  rs <> [] -> push c (rs ++ tl) = push c rs ++ tl.
Proof.
  destruct rs as [| [k t] rs]; [congruence | intros _; cbn].
  destruct (same_run (classify c) k); reflexivity.
Qed.

Lemma push_before_dot (c : ascii) (t : string) (tl : list (cclass * string)) :
  push c ((Dot, t) :: tl) = (classify c, String c EmptyString) :: (Dot, t) :: tl.
Proof. cbn. destruct (classify c); reflexivity. Qed.

Lemma runs_dot (t : string) :
  runs (String "."%char t) = (Dot, String "."%char EmptyString) :: runs t.
Proof. cbn [runs]. destruct (runs t) as [| [[] u] rs]; reflexivity. Qed.

Lemma runs_append_dot_zero (v : string) :
  runs (v ++ ".0") = runs v ++ [(Dot, "."); (Digits, "0")].
Proof.
  induction v as [| c v IH]; [reflexivity | ].
  cbn [append runs]. rewrite IH.
  destruct (runs v) as [| r rs] eqn:Hv.
  - cbn [app]. now rewrite push_before_dot.
  - now rewrite push_tail.
Qed.

Lemma parse_append_dot_zero (v : string) :
  parse (v ++ ".0") = parse v ++ [CInt 0].
Proof.
  unfold parse. now rewrite runs_append_dot_zero, filter_app, map_app.
Qed.

Lemma comp_eq_refl (x : component) : comp_eq x x = true.
Proof. destruct x; cbn; [apply N.eqb_refl | apply String.eqb_refl]. Qed.

Lemma list_eq_lt (a b : list component) :
  list_eq a b = true -> list_lt a b = inr false.
Proof.
  revert b. induction a as [| x a IH]; intros [| y b]; cbn;
    try discriminate; [reflexivity | ].
  intros H. apply andb_true_iff in H as [-> H]. auto.
Qed.

Lemma lt_list_lt (a b : list component) :
  lt (Some a) (Some b) = list_lt a b.
Proof.
  cbn. destruct (list_eq a b) eqn:H; [ | reflexivity ].
  now rewrite (list_eq_lt _ _ H).
Qed.

Lemma list_lt_snoc (a : list component) (x : component) :
  list_lt a (a ++ [x]) = inr true.
Proof.
  induction a as [| y a IH]; cbn; [reflexivity | ].
  now rewrite comp_eq_refl.
Qed.

Lemma nonempty_append (v w : string) :
  Str.nonempty v = true -> Str.nonempty (v ++ w) = true.
Proof. destruct v; [discriminate | reflexivity]. Qed.

Lemma less_append_dot_zero (v : string) :
  v <> EmptyString -> less_str v (v ++ ".0") = inr true.
Proof.
  intros Hv. assert (Hn : Str.nonempty v = true) by now destruct v.
  unfold less_str, less, make. cbn [truthy].
  rewrite Hn, (nonempty_append _ _ Hn), lt_list_lt, parse_append_dot_zero.
  apply list_lt_snoc.
Qed.

(** Numbers in, numbers out. *)
Lemma string_of_uint_digits (d : Decimal.uint) :
  all_digits (NilEmpty.string_of_uint d) = true.
Proof. induction d; cbn; auto. Qed.

Lemma show_digits (n : N) : all_digits (show n) = true.
Proof. apply string_of_uint_digits. Qed.

Lemma show_nonempty (n : N) : show n <> EmptyString.
Proof.
  unfold show. destruct n as [| p]; cbn; [discriminate | ].
  pose proof (DecimalPos.Unsigned.to_uint_nonnil p) as H.
  destruct (Pos.to_uint p); cbn; congruence.
Qed.

Lemma int_of_show (n : N) :
  (digits n <=? max_str_digits)%nat = true ->
  int_of_digits (show n) = inr n.
Proof.
  unfold int_of_digits, digits. intros ->. unfold show.
  now rewrite NilEmpty.usu, DecimalN.Unsigned.of_to.
Qed.

Lemma runs_digits (s : string) :
  s <> EmptyString -> all_digits s = true -> runs s = [(Digits, s)].
Proof.
  induction s as [| c s IH]; [congruence | intros _ H].
  cbn in H. apply andb_true_iff in H as [Hc Hs]. cbn [runs].
  destruct s as [| c' s'].
  - cbn. unfold classify. now rewrite Hc.
  - rewrite IH; [ | discriminate | assumption ].
    cbn. unfold classify. now rewrite Hc.
Qed.

Lemma runs_digits_dot (s t : string) :
  s <> EmptyString -> all_digits s = true ->
  runs (s ++ String "."%char t) =
    (Digits, s) :: (Dot, String "."%char EmptyString) :: runs t.
Proof.
  induction s as [| c s IH]; [congruence | intros _ H].
  cbn in H. apply andb_true_iff in H as [Hc Hs]. cbn [append runs].
  destruct s as [| c' s'].
  - cbn [append]. rewrite runs_dot, push_before_dot.
    unfold classify. now rewrite Hc.
  - rewrite IH; [ | discriminate | assumption ].
    cbn. unfold classify. now rewrite Hc.
Qed.

Lemma parse_dotted (l : list N) :
  within_limit l = true -> parse (dotted l) = map CInt l.
Proof.
  unfold within_limit.
  induction l as [| n l IH]; [reflexivity | ].
  cbn [forallb]. intros H. apply andb_true_iff in H as [Hn Hl].
  destruct l as [| m l].
  - cbn [dotted]. unfold parse.
    rewrite (runs_digits _ (show_nonempty n) (show_digits n)).
    cbn [filter not_dot fst map]. unfold component_of; cbn [fst snd].
    now rewrite (int_of_show n Hn).
  - change (dotted (n :: m :: l))
      with (show n ++ String "."%char (dotted (m :: l)))%string.
    unfold parse in *.
    rewrite (runs_digits_dot _ _ (show_nonempty n) (show_digits n)).
    cbn [filter not_dot fst map]. rewrite (IH Hl).
    unfold component_of at 1; cbn [fst snd]. now rewrite (int_of_show n Hn).
Qed.

Lemma dotted_nonempty (l : list N) :
  l <> [] -> Str.nonempty (dotted l) = true.
Proof.
  destruct l as [| n l]; [congruence | intros _].
  pose proof (show_nonempty n) as H.
  destruct l; cbn [dotted]; destruct (show n); cbn; congruence.
Qed.

Lemma list_lt_numbers (a b : list N) :
  list_lt (map CInt a) (map CInt b) = inr (lex_ltb a b).
Proof.
  revert b. induction a as [| x a IH]; intros [| y b]; cbn;
    try reflexivity.
  destruct (x =? y)%N; [apply IH | reflexivity].
Qed.

Lemma less_dotted (a b : list N) :
  a <> [] -> b <> [] ->
  within_limit a = true -> within_limit b = true ->
  less_str (dotted a) (dotted b) = inr (lex_ltb a b).
Proof.
  intros Ha Hb La Lb. unfold less_str, less, make. cbn [truthy].
  rewrite (dotted_nonempty _ Ha), (dotted_nonempty _ Hb), lt_list_lt.
  rewrite (parse_dotted a La), (parse_dotted b Lb). apply list_lt_numbers.
Qed.

End VersionOrder.

(** C2, as the code has it. The comparison behind [is_outdated] is
    that of [LooseVersion]: versions written as numbers joined by dots,
    each number of at most 4300 digits (the most that [int] reads),
    compare number by number, so 1.9 is older than 1.10; a shorter
    sequence is not padded with zeros: a proper prefix is the older
    version, so every non-empty [v] is older than [v] followed by
    [.0].  Step 1 of the resolver sets [is_outdated] to the outcome of
    this comparison (to true when the two cannot be compared). *)
Theorem version_comparison :
  LooseVersion.less_str "1.9" "1.10" = inr true
  /\ (forall a b : list N, a <> [] -> b <> [] ->
       Dotted.within_limit a = true -> Dotted.within_limit b = true ->
       LooseVersion.less_str (Dotted.dotted a) (Dotted.dotted b)
       = inr (Dotted.lex_ltb a b))
  /\ (forall v : string, v <> EmptyString ->
       LooseVersion.less_str v (v ++ ".0") = inr true)
  /\ (forall (net : oracle) (sc : scanner) (slug v latest : string),
       v <> EmptyString -> latest <> EmptyString ->
       registry_latest (registry_answer net sc slug) = Some (PyStr latest) ->
       CveResult.is_outdated (after_tier1 net sc slug (Some v)) =
         match LooseVersion.less_str v latest with
         | inr older => older
         | inl _ => true
         end)
  /\ (forall (net : oracle) (sc : scanner) (slug v : string),
       v <> EmptyString ->
       registry_latest (registry_answer net sc slug)
       = Some (PyStr (v ++ ".0")) ->
       CveResult.is_outdated (after_tier1 net sc slug (Some v)) = true).
Proof.
  assert (Hres : forall (net : oracle) (sc : scanner) (slug v latest : string),
            v <> EmptyString -> latest <> EmptyString ->
            registry_latest (registry_answer net sc slug)
            = Some (PyStr latest) ->
            CveResult.is_outdated (after_tier1 net sc slug (Some v)) =
              match LooseVersion.less_str v latest with
              | inr older => older
              | inl _ => true
              end).
  { intros net sc slug v latest Hv Hl Hreg.
    destruct (after_tier1_facts net sc slug (Some v)) as (_ & _ & _ & _ & ->).
    rewrite Hreg. unfold recomputed. cbn [of_opt truthy].
    destruct v; [congruence | ]. destruct latest; [congruence | ].
    cbn [Str.nonempty andb]. reflexivity. }
  split; [vm_compute; reflexivity | split; [ | split; [ | split ] ] ].
  - exact VersionOrder.less_dotted.
  - exact VersionOrder.less_append_dot_zero.
  - exact Hres.
  - intros net sc slug v Hv Hreg.
    rewrite (Hres net sc slug v (v ++ ".0")%string Hv); [ | | exact Hreg ].
    + now rewrite (VersionOrder.less_append_dot_zero v Hv).
    + destruct v; [congruence | discriminate].
Qed.

(** ** The statements on concrete sites *)

(** The generator tag of WordPress 6.2 alone gives confidence 40. *)
Lemma is_wordpress_threshold_witness :
  exists r,
    fst (is_wordpress Runs.urljoin Runs.wp62 (tt, Runs.sc0)) = inr r
    /\ Indicators.is_wordpress r = (30 <=? Indicators.confidence r)%Z
    /\ Indicators.confidence r = total_weight (Indicators.detected_by r)
    /\ Indicators.confidence r = 40%Z
    /\ Indicators.is_wordpress r = true
    /\ Indicators.wp_version r = Some "6.2".
Proof.
  set (r := Indicators.mk true 40 ["meta generator tag"] (Some "6.2")
              "http://example.com" None).
  assert (Hr : fst (is_wordpress Runs.urljoin Runs.wp62 (tt, Runs.sc0))
               = inr r) by (vm_compute; reflexivity).
  destruct (proj1 (is_wordpress_threshold Runs.urljoin Runs.wp62
                     (tt, Runs.sc0)) r Hr) as (H1 & H2 & _).
  exists r. repeat split; assumption || (vm_compute; reflexivity).
Defined.

(** The readme of contact-form-7 with its stable tag. *)
Lemma check_plugin_methods_witness :
  hits (readme_answer Runs.urljoin Runs.cf7 Runs.sc0 "contact-form-7") = true
  /\ check_plugin Runs.urljoin Runs.cf7 "contact-form-7" (tt, Runs.sc0) =
       (inr (PluginInfo.mk "contact-form-7" true (Some "5.4.2")
               (Some "readme.txt")
               (Some "http://example.com/wp-content/plugins/contact-form-7/readme.txt")),
        (tt, mk_scanner "http://example.com"
               [Runs.get "http://example.com/wp-content/plugins/contact-form-7/readme.txt"])).
Proof.
  assert (H : hits (readme_answer Runs.urljoin Runs.cf7 Runs.sc0
                      "contact-form-7") = true) by (vm_compute; reflexivity).
  split; [exact H | ].
  rewrite (proj1 (check_plugin_methods Runs.urljoin Runs.cf7 tt Runs.sc0
                    "contact-form-7") H).
  vm_compute. reflexivity.
Defined.

(** Without a credential only the registry is asked. *)
Lemma tier2_gate_witness :
  requests_of (get_plugin_cves Runs.registry_550 Runs.no_token
                 "contact-form-7" (Some "5.4.2") (tt, Runs.sc0))
  = [Runs.get (Runs.registry "contact-form-7")]
  /\ exists r,
       report_of (get_plugin_cves Runs.registry_550 Runs.no_token
                    "contact-form-7" (Some "5.4.2") (tt, Runs.sc0)) = Some r
       /\ CveResult.vulnerabilities r = []
       /\ CveResult.is_outdated r = true
       /\ CveResult.source r = "WordPress.org API".
Proof.
  destruct (tier2_gate Runs.registry_550 Runs.no_token "contact-form-7"
              (Some "5.4.2") tt Runs.sc0) as (Hreq & r & Hr & Hv).
  split; [rewrite Hreq; vm_compute; reflexivity | ].
  exists r. split; [exact Hr | ].
  split; [apply Hv; vm_compute; reflexivity | ].
  vm_compute in Hr. injection Hr as <-. split; reflexivity.
Defined.

(** The registry is out of reach and no credential is configured. *)
Lemma registry_failure_outdated_witness :
  hits (registry_answer Runs.offline Runs.sc0 "demo") = false
  /\ CveResult.is_outdated
       (after_tier1 Runs.offline Runs.sc0 "demo" (Some "1.0")) = true
  /\ option_map CveResult.is_outdated
       (report_of (get_plugin_cves Runs.offline Runs.no_token "demo"
                     (Some "1.0") (tt, Runs.sc0))) = Some true.
Proof.
  assert (H : hits (registry_answer Runs.offline Runs.sc0 "demo") = false)
    by (vm_compute; reflexivity).
  destruct (registry_failure_outdated Runs.offline Runs.no_token "demo"
              (Some "1.0") tt Runs.sc0 H) as (H1 & r & Hr & Hc & _).
  split; [exact H | split; [exact H1 | ] ].
  assert (Hn : configured Runs.no_token = false)
    by (vm_compute; reflexivity).
  rewrite Hr. cbn [option_map]. now rewrite (Hc Hn).
Defined.

(** The registry answers 404, a credential is configured, and the paid
    database knows 2.0, the installed version, as the latest: the
    report is not outdated. *)
Lemma registry_failure_counterexample :
  hits (registry_answer Runs.paid_20 Runs.sc0 "demo") = false
  /\ option_map CveResult.is_outdated
       (report_of (get_plugin_cves Runs.paid_20 Runs.token "demo"
                     (Some "2.0") (tt, Runs.sc0))) = Some false.
Proof. split; vm_compute; reflexivity. Qed.

(** Installed 1.5 against entries fixed in 2.0, fixed in 1.2 and not
    fixed: the first and the last are reported. *)
Lemma vulnerability_filter_witness :
  wants_tier2 (after_tier1 Runs.paid_vulns Runs.sc0 "demo" (Some "1.5"))
    (Some "1.5") (api_token Runs.token) = true
  /\ paid_items (paid_answer Runs.paid_vulns Runs.token Runs.sc0 "demo")
       "demo" (Some "1.5") = Some Runs.three_vulns
  /\ exists r,
       report_of (get_plugin_cves Runs.paid_vulns Runs.token "demo"
                    (Some "1.5") (tt, Runs.sc0)) = Some r
       /\ CveResult.vulnerabilities r =
            [Finding.mk (PyStr "XSS") (PyStr "CVE-1") (PyStr "2.0");
             Finding.mk (PyStr "SQLi") PyNone (PyStr "Not fixed")].
Proof.
  assert (Hw : wants_tier2
                 (after_tier1 Runs.paid_vulns Runs.sc0 "demo" (Some "1.5"))
                 (Some "1.5") (api_token Runs.token) = true)
    by (vm_compute; reflexivity).
  assert (Hi : paid_items
                 (paid_answer Runs.paid_vulns Runs.token Runs.sc0 "demo")
                 "demo" (Some "1.5") = Some Runs.three_vulns)
    by (vm_compute; reflexivity).
  assert (Hd : forallb is_dict Runs.three_vulns = true)
    by (vm_compute; reflexivity).
  destruct (proj2 (proj2 (vulnerability_filter Runs.paid_vulns Runs.token
                            "demo" (Some "1.5") tt Runs.sc0))
              Runs.three_vulns Hw Hi Hd) as (r & Hr & Hv).
  split; [exact Hw | split; [exact Hi | ] ].
  exists r. split; [exact Hr | ]. rewrite Hv. vm_compute. reflexivity.
Defined.

(** The same entries with no installed version: step 2 runs, and the
    two entries that have a fixed-in version are left out. *)
Lemma vulnerability_filter_counterexample :
  requests_of (get_plugin_cves Runs.paid_vulns Runs.token "demo" None
                 (tt, Runs.sc0))
  = [Runs.get (Runs.registry "demo");
     mk_request GET (Runs.wpscan "demo") (Some "Token token=secret")]
  /\ paid_items (paid_answer Runs.paid_vulns Runs.token Runs.sc0 "demo")
       "demo" None = Some Runs.three_vulns
  /\ map (fun v => truthy (field v "fixed_in")) Runs.three_vulns
     = [true; true; false]
  /\ option_map CveResult.vulnerabilities
       (report_of (get_plugin_cves Runs.paid_vulns Runs.token "demo" None
                     (tt, Runs.sc0)))
     = Some [Finding.mk (PyStr "SQLi") PyNone (PyStr "Not fixed")].
Proof. repeat split; vm_compute; reflexivity. Qed.

(** C6. The registry does not know the plugin, a credential is
    configured and the installed version 1.0 is known: step 2 runs,
    finds 1.0 to be the latest version and reports a vulnerability
    that is not fixed; the report is labelled as an up-to-date answer
    of the free registry all the same. *)
Theorem label_after_paid_lookup :
  requests_of (get_plugin_cves Runs.paid_current Runs.token "demo"
                 (Some "1.0") (tt, Runs.sc0))
  = [Runs.get (Runs.registry "demo");
     mk_request GET (Runs.wpscan "demo") (Some "Token token=secret")]
  /\ report_of (get_plugin_cves Runs.paid_current Runs.token "demo"
                  (Some "1.0") (tt, Runs.sc0))
     = Some (CveResult.mk "demo" (Some "1.0")
               [Finding.mk (PyStr "XSS") PyNone (PyStr "Not fixed")]
               false (PyStr "1.0") "WordPress.org API (Up to date)" None).
Proof. split; vm_compute; reflexivity. Qed.

(** The paid database is out of reach: its failure is the error of
    the report. *)
Lemma resolver_errors_witness :
  exists r,
    report_of (get_plugin_cves Runs.offline Runs.token "demo" (Some "1.0")
                 (tt, Runs.sc0)) = Some r
    /\ CveResult.error r = Some (RequestException "connection refused").
Proof.
  destruct (resolver_errors Runs.offline Runs.token "demo" (Some "1.0")
              tt Runs.sc0) as (r & Hr & _ & He).
  exists r. split; [exact Hr | ]. rewrite He. vm_compute. reflexivity.
Defined.

(** The registry is out of reach and no credential is configured: the
    body of step 1 raises and the report has no error. *)
Lemma resolver_errors_counterexample :
  fst (tier1_body Runs.offline "demo" (Some "1.0")
         (CveResult.set_source "WordPress.org API"
            (CveResult.init "demo" (Some "1.0")), Runs.sc0))
  = inl (RequestException "connection refused")
  /\ option_map CveResult.error
       (report_of (get_plugin_cves Runs.offline Runs.no_token "demo"
                     (Some "1.0") (tt, Runs.sc0)))
     = Some None.
Proof. split; vm_compute; reflexivity. Qed.

(** A slug with a slash is probed as it is. *)
Lemma slug_reaches_url_witness :
  (exists rest,
     requests_of (check_plugin Runs.urljoin Runs.offline "a/b" (tt, Runs.sc0))
     = sent Runs.sc0
       ++ mk_request GET
            (Runs.urljoin (plugin_base_url (target_url Runs.sc0) "a/b")
               "readme.txt") None :: rest)
  /\ plugin_base_url (target_url Runs.sc0) "a/b"
     = "http://example.com/wp-content/plugins/a/b/"
  /\ In "hello"
       (Re.findall Re.plugin_re
          "<link href=/wp-content/plugins/hello/style.css>")
  /\ forall c, In c (list_ascii_of_string "hello") -> c <> "/"%char.
Proof.
  destruct (slug_reaches_url Runs.urljoin Runs.offline tt Runs.sc0 "a/b")
    as (_ & Hreq & Hslug).
  assert (Hin : In "hello"
                  (Re.findall Re.plugin_re
                     "<link href=/wp-content/plugins/hello/style.css>"))
    by (vm_compute; left; reflexivity).
  split; [exact Hreq | split; [vm_compute; reflexivity | ] ].
  split; [exact Hin | ].
  intros c Hc. exact (proj1 (proj2 (Hslug _ _ Hin) c Hc)).
Defined.

(** Both requests for the slug [a/b] carry its slash. *)
Lemma slug_reaches_url_counterexample :
  Str.has_char "/" "a/b" = true
  /\ requests_of (check_plugin Runs.urljoin Runs.offline "a/b" (tt, Runs.sc0))
     = [Runs.get "http://example.com/wp-content/plugins/a/b/readme.txt";
        Runs.head "http://example.com/wp-content/plugins/a/b/assets/css/a/b.css"].
Proof. split; vm_compute; reflexivity. Qed.

(** Installed 1.0 against 1.0.0 of the registry. *)
Lemma version_comparison_witness :
  LooseVersion.less_str "1.0" "1.0.0" = inr true
  /\ LooseVersion.less_str "1.9" "1.10" = inr true
  /\ LooseVersion.less_str "2.5" "2.0" = inr false
  /\ CveResult.is_outdated
       (after_tier1 Runs.registry_100 Runs.sc0 "demo" (Some "1.0")) = true.
Proof.
  destruct version_comparison as (_ & Hnum & Hpad & Hres & _).
  split; [ | split; [ | split ] ].
  - apply (Hpad "1.0"). discriminate.
  - apply (Hnum [1; 9] [1; 10])%N;
      first [discriminate | vm_compute; reflexivity].
  - apply (Hnum [2; 5] [2; 0])%N;
      first [discriminate | vm_compute; reflexivity].
  - rewrite (Hres Runs.registry_100 Runs.sc0 "demo" "1.0" "1.0.0");
      [ | discriminate | discriminate | ]; vm_compute; reflexivity.
Defined.

(** Installed 1.0 is older than 1.0.0, and the report says outdated. *)
Lemma version_comparison_counterexample :
  LooseVersion.less_str "1.0" ("1.0" ++ ".0") = inr true
  /\ option_map CveResult.is_outdated
       (report_of (get_plugin_cves Runs.registry_100 Runs.no_token "demo"
                     (Some "1.0") (tt, Runs.sc0)))
     = Some true.
Proof. split; vm_compute; reflexivity. Qed.


(** The slugs of a list with blank lines and padded names. *)
Lemma load_common_plugins_entries_witness :
  load_common_plugins Runs.three_slugs 1000 = ["akismet"; "jetpack"; "hello"]
  /\ "akismet" <> EmptyString
  /\ Chars.trimmed "akismet" = true
  /\ exists line,
       In line [" akismet " ++ Runs.nl; Runs.nl; "jetpack" ++ Runs.nl;
                "   " ++ Runs.nl; "hello" ++ Runs.nl]%string
       /\ "akismet" = Str.strip line.
Proof.
  split; [vm_compute; reflexivity | ].
  apply (load_common_plugins_entries Runs.three_slugs _ 1000 "akismet").
  - reflexivity.
  - vm_compute. left. reflexivity.
Defined.

(** The blog with a list of blank lines: only the plugin of the page
    is listed, after the three requests of the HTML stage. *)
Lemma enumerate_plugins_no_candidates_witness :
  load_common_plugins Runs.blank_lines 1000 = []
  /\ exists r,
       enumerate_plugins Runs.urljoin Runs.blog Runs.blank_lines
         Runs.first_seen 1000 (tt, Runs.sc0)
       = (inr r,
          (tt, snd (snd (html_stage Runs.urljoin Runs.blog Runs.first_seen
                           (EnumLocals.init, Runs.sc0)))))
       /\ EnumResult.plugins r =
            EnumResult.plugins
              (EnumLocals.result
                 (after_html Runs.urljoin Runs.blog Runs.first_seen Runs.sc0))
       /\ EnumResult.total_found r =
            Z.of_nat (List.length (EnumResult.plugins r)).
Proof.
  apply (enumerate_plugins_no_candidates Runs.urljoin Runs.blog
           Runs.blank_lines Runs.first_seen
           [Runs.nl; ("   " ++ Runs.nl)%string] 1000 tt Runs.sc0).
  - reflexivity.
  - right. intros line [<- | [<- | []]]; vm_compute; reflexivity.
Defined.

(** The generator tag alone: confidence 40, one signal, a version. *)
Lemma is_wordpress_confidence_witness :
  exists r,
    fst (is_wordpress Runs.urljoin Runs.wp62 (tt, Runs.sc0)) = inr r
    /\ In (Indicators.confidence r) [0; 30; 40; 60; 70; 100]%Z
    /\ (Indicators.is_wordpress r = true <-> Indicators.detected_by r <> [])
    /\ NoDup (Indicators.detected_by r)
    /\ (Indicators.wp_version r <> None <->
        In "meta generator tag" (Indicators.detected_by r))
    /\ Indicators.url r = "http://example.com".
Proof.
  set (r := Indicators.mk true 40 ["meta generator tag"] (Some "6.2")
              "http://example.com" None).
  assert (Hr : fst (is_wordpress Runs.urljoin Runs.wp62 (tt, Runs.sc0))
               = inr r) by (vm_compute; reflexivity).
  exists r. split; [exact Hr | ].
  exact (is_wordpress_confidence Runs.urljoin Runs.wp62 (tt, Runs.sc0) r Hr).
Defined.

(** Installed 5.4.2 against 5.5.0 of the registry. *)
Lemma numeric_versions_comparable_witness :
  numeric "5.4.2" = true
  /\ numeric "5.5.0" = true
  /\ short_runs "5.4.2" = true
  /\ short_runs "5.5.0" = true
  /\ exists older,
       LooseVersion.less_str "5.4.2" "5.5.0" = inr older
       /\ CveResult.is_outdated
            (after_tier1 Runs.registry_550 Runs.sc0 "contact-form-7"
               (Some "5.4.2")) = older.
Proof.
  assert (Hv : numeric "5.4.2" = true) by (vm_compute; reflexivity).
  assert (Hw : numeric "5.5.0" = true) by (vm_compute; reflexivity).
  assert (Sv : short_runs "5.4.2" = true) by (vm_compute; reflexivity).
  assert (Sw : short_runs "5.5.0" = true) by (vm_compute; reflexivity).
  split; [exact Hv | split; [exact Hw | split; [exact Sv | split ] ] ];
    [exact Sw | ].
  destruct (numeric_versions_comparable Runs.registry_550 "5.4.2" "5.5.0"
              Hv Hw Sv Sw) as (older & Hless & Hreg).
  exists older. split; [exact Hless | ].
  apply Hreg. vm_compute. reflexivity.
Defined.

(** The two candidates of the blog, probed in either order. *)
Lemma probes_independent_witness :
  stateless Runs.blog
  /\ (exists sc',
        map_m (fun slug => attempt (check_plugin Runs.urljoin Runs.blog slug))
          ["akismet"; "hello"] (EnumLocals.init, Runs.sc0)
        = (inr (map (lone_probe Runs.urljoin Runs.blog Runs.sc0)
                  ["akismet"; "hello"]),
           (EnumLocals.init, sc'))
        /\ target_url sc' = target_url Runs.sc0)
  /\ (exists sc',
        map_m (fun slug => attempt (check_plugin Runs.urljoin Runs.blog slug))
          ["hello"; "akismet"] (EnumLocals.init, Runs.sc0)
        = (inr (map (lone_probe Runs.urljoin Runs.blog Runs.sc0)
                  ["hello"; "akismet"]),
           (EnumLocals.init, sc'))
        /\ target_url sc' = target_url Runs.sc0).
Proof.
  assert (H : stateless Runs.blog) by (intros h h' q; reflexivity).
  split; [exact H | split ].
  - exact (probes_independent Runs.urljoin Runs.blog ["akismet"; "hello"]
             EnumLocals.init Runs.sc0 H).
  - exact (probes_independent Runs.urljoin Runs.blog ["hello"; "akismet"]
             EnumLocals.init Runs.sc0 H).
Defined.
(** Without a credential, installed 5.4.2 against 5.5.0. *)
Lemma report_without_credential_witness :
  configured Runs.no_token = false
  /\ get_plugin_cves Runs.registry_550 Runs.no_token "contact-form-7"
       (Some "5.4.2") (tt, Runs.sc0)
     = (inr (CveResult.mk "contact-form-7" (Some "5.4.2") [] true
               (PyStr "5.5.0") "WordPress.org API" None),
        (tt, mk_scanner "http://example.com"
               [Runs.get (Runs.registry "contact-form-7")])).
Proof.
  assert (H : configured Runs.no_token = false) by reflexivity.
  split; [exact H | ].
  rewrite (report_without_credential Runs.registry_550 Runs.no_token
             "contact-form-7" (Some "5.4.2") tt Runs.sc0 H).
  vm_compute. reflexivity.
Defined.

(** A plugin found by its style sheet has no version: with a
    credential and a registry that knows the plugin, nothing is asked
    of the paid database. *)
Lemma versionless_plugin_witness :
  truthy (of_opt None) = false
  /\ registry_latest (registry_answer Runs.registry_550 Runs.sc0
                        "contact-form-7") = Some (PyStr "5.5.0")
  /\ get_plugin_cves Runs.registry_550 Runs.token "contact-form-7" None
       (tt, Runs.sc0)
     = (inr (CveResult.mk "contact-form-7" None [] false (PyStr "5.5.0")
               "WordPress.org API (Up to date)" None),
        (tt, mk_scanner "http://example.com"
               [Runs.get (Runs.registry "contact-form-7")])).
Proof.
  assert (Hv : truthy (of_opt None) = false) by reflexivity.
  assert (Hr : registry_latest (registry_answer Runs.registry_550 Runs.sc0
                                  "contact-form-7") = Some (PyStr "5.5.0"))
    by (vm_compute; reflexivity).
  split; [exact Hv | split; [exact Hr | ] ].
  rewrite (versionless_plugin Runs.registry_550 Runs.token "contact-form-7"
             None (PyStr "5.5.0") tt Runs.sc0 Hv Hr).
  vm_compute. reflexivity.
Defined.

(** The paid database answers 401. *)
Lemma paid_status_ignored_witness :
  wants_tier2 (after_tier1 Runs.paid_refused Runs.sc0 "demo" (Some "1.0"))
    (Some "1.0") (api_token Runs.token) = true
  /\ option_map status_code
       (match paid_answer Runs.paid_refused Runs.token Runs.sc0 "demo" with
        | inr resp => Some resp
        | inl _ => None
        end) = Some 401%Z
  /\ exists r,
       report_of (get_plugin_cves Runs.paid_refused Runs.token "demo"
                    (Some "1.0") (tt, Runs.sc0)) = Some r
       /\ CveResult.error r = None
       /\ CveResult.vulnerabilities r = []
       /\ CveResult.is_outdated r = true
       /\ CveResult.latest_version r = PyNone.
Proof.
  assert (Hw : wants_tier2
                 (after_tier1 Runs.paid_refused Runs.sc0 "demo" (Some "1.0"))
                 (Some "1.0") (api_token Runs.token) = true)
    by (vm_compute; reflexivity).
  split; [exact Hw | split; [vm_compute; reflexivity | ] ].
  destruct (paid_status_ignored Runs.paid_refused Runs.token "demo"
              (Some "1.0")
              (Runs.api 401 (PyDict [("status", PyStr "forbidden")]))
              tt Runs.sc0 Hw)
    as (r & Hr & He & Hv & Ho & Hl);
    [vm_compute; reflexivity | reflexivity | ].
  exists r. split; [exact Hr | split; [exact He | split; [exact Hv | ] ] ].
  rewrite Ho, Hl. split; vm_compute; reflexivity.
Defined.

(** Installed 2.0.1 against the beta of the paid database: the
    comparison raises, and none of the three vulnerabilities listed is
    reported. *)
Lemma paid_latest_incomparable_witness :
  wants_tier2 (after_tier1 Runs.paid_beta Runs.sc0 "demo" (Some "2.0.1"))
    (Some "2.0.1") (api_token Runs.token) = true
  /\ paid_latest (paid_answer Runs.paid_beta Runs.token Runs.sc0 "demo")
       "demo" = Some (PyStr "2.0-beta")
  /\ recomputed (Some "2.0.1") (PyStr "2.0-beta") = Some (inl TypeError)
  /\ exists r,
       report_of (get_plugin_cves Runs.paid_beta Runs.token "demo"
                    (Some "2.0.1") (tt, Runs.sc0)) = Some r
       /\ CveResult.error r = Some TypeError
       /\ CveResult.vulnerabilities r = []
       /\ CveResult.latest_version r = PyStr "2.0-beta"
       /\ CveResult.is_outdated r = true.
Proof.
  assert (Hw : wants_tier2
                 (after_tier1 Runs.paid_beta Runs.sc0 "demo" (Some "2.0.1"))
                 (Some "2.0.1") (api_token Runs.token) = true)
    by (vm_compute; reflexivity).
  assert (Hl : paid_latest
                 (paid_answer Runs.paid_beta Runs.token Runs.sc0 "demo")
                 "demo" = Some (PyStr "2.0-beta"))
    by (vm_compute; reflexivity).
  assert (Hc : recomputed (Some "2.0.1") (PyStr "2.0-beta")
               = Some (inl TypeError)) by (vm_compute; reflexivity).
  split; [exact Hw | split; [exact Hl | split; [exact Hc | ] ] ].
  destruct (paid_latest_incomparable Runs.paid_beta Runs.token "demo"
              (Some "2.0.1") (PyStr "2.0-beta") TypeError tt Runs.sc0
              Hw Hl Hc) as (r & Hr & He & Hv & Hlv & Ho).
  exists r. repeat (split; [assumption | ]).
  rewrite Ho. vm_compute. reflexivity.
Defined.

(** A string among the entries: the entry before it is reported, the
    one after it is not. *)
Lemma vulnerability_loop_stops_witness :
  wants_tier2 (after_tier1 Runs.paid_mixed Runs.sc0 "demo" (Some "1.0"))
    (Some "1.0") (api_token Runs.token) = true
  /\ paid_items (paid_answer Runs.paid_mixed Runs.token Runs.sc0 "demo")
       "demo" (Some "1.0")
     = Some ([Runs.unfixed "XSS"] ++ PyStr "oops" :: [Runs.unfixed "SQLi"])
  /\ exists r,
       report_of (get_plugin_cves Runs.paid_mixed Runs.token "demo"
                    (Some "1.0") (tt, Runs.sc0)) = Some r
       /\ CveResult.vulnerabilities r =
            [Finding.mk (PyStr "XSS") PyNone (PyStr "Not fixed")]
       /\ CveResult.error r = Some AttributeError.
Proof.
  assert (Hw : wants_tier2
                 (after_tier1 Runs.paid_mixed Runs.sc0 "demo" (Some "1.0"))
                 (Some "1.0") (api_token Runs.token) = true)
    by (vm_compute; reflexivity).
  assert (Hi : paid_items
                 (paid_answer Runs.paid_mixed Runs.token Runs.sc0 "demo")
                 "demo" (Some "1.0")
               = Some ([Runs.unfixed "XSS"] ++ PyStr "oops"
                       :: [Runs.unfixed "SQLi"]))
    by (vm_compute; reflexivity).
  split; [exact Hw | split; [exact Hi | ] ].
  destruct (vulnerability_loop_stops Runs.paid_mixed Runs.token "demo"
              (Some "1.0") [Runs.unfixed "XSS"] (PyStr "oops")
              [Runs.unfixed "SQLi"] tt Runs.sc0 Hw Hi)
    as (r & Hr & Hv & He); [reflexivity | reflexivity | ].
  exists r. split; [exact Hr | split; [ | exact He ] ].
  rewrite Hv. vm_compute. reflexivity.
Defined.

(** The blog with the default list: one plugin from the page, one
    from the list, both methods named. *)
Lemma enumerate_plugins_provenance_witness :
  exists r,
    fst (enumerate_plugins Runs.urljoin Runs.blog Missing Runs.first_seen
           1000 (tt, Runs.sc0)) = inr r
    /\ map PluginInfo.plugin_slug (EnumResult.plugins r) = ["hello"; "akismet"]
    /\ scraped Runs.blog Runs.first_seen Runs.sc0 = ["hello"]
    /\ (forall p, In p (EnumResult.plugins r) ->
          (In (PluginInfo.plugin_slug p)
             (scraped Runs.blog Runs.first_seen Runs.sc0)
           \/ In (PluginInfo.plugin_slug p) (load_common_plugins Missing 1000))
          /\ PluginInfo.plugin_url p <> None)
    /\ EnumResult.detection_methods r =
         ["HTML parsing"; "common plugin checking (concurrent)"].
Proof.
  destruct (fst (enumerate_plugins Runs.urljoin Runs.blog Missing
                   Runs.first_seen 1000 (tt, Runs.sc0))) as [e | r] eqn:Hr;
    [vm_compute in Hr; discriminate | ].
  destruct (enumerate_plugins_provenance Runs.urljoin Runs.blog Missing
              Runs.first_seen 1000 tt Runs.sc0 r Hr) as [Hps Hdm].
  exists r. split; [reflexivity | ].
  split; [vm_compute in Hr; injection Hr as <-; reflexivity | ].
  split; [vm_compute; reflexivity | ].
  split; [exact Hps | ]. rewrite Hdm. vm_compute. reflexivity.
Defined.
(** A scan of the blog, asked for by an address with a path: the
    page is taken for WordPress, two plugins are found and one report
    is made for each. *)
Lemma start_scan_results_witness :
  exists results requests,
    start_scan Runs.urljoin Runs.blog Runs.no_token Runs.three_slugs
      Runs.first_seen Runs.urlparse Runs.urlunparse Runs.scan_blog
    = inr (Ok results, requests)
    /\ Indicators.is_wordpress (Results.wp_check results) = true
    /\ exists plugin_data cve_results,
         Results.plugins results = Some plugin_data
         /\ Results.vulnerabilities results = Some cve_results
         /\ map PluginInfo.plugin_slug (EnumResult.plugins plugin_data)
            = ["hello"; "akismet"]
         /\ map CveResult.plugin_slug cve_results = ["hello"; "akismet"]
         /\ map CveResult.version cve_results = [Some "1.7"; None].
Proof.
  destruct (start_scan Runs.urljoin Runs.blog Runs.no_token Runs.three_slugs
              Runs.first_seen Runs.urlparse Runs.urlunparse Runs.scan_blog)
    as [e | [[results | | e] requests]] eqn:Hrun;
    try (vm_compute in Hrun; discriminate).
  pose proof (start_scan_results Runs.urljoin Runs.blog Runs.no_token
                Runs.three_slugs Runs.first_seen Runs.urlparse
                Runs.urlunparse Runs.scan_blog results requests Hrun) as H.
  cbv zeta in H.
  assert (Hwp : Indicators.is_wordpress (Results.wp_check results) = true)
    by (vm_compute in Hrun; injection Hrun as <- _; reflexivity).
  rewrite Hwp in H. destruct H as (pd & reports & Hp & Hv & Hs & Hvs).
  assert (Hslugs : map PluginInfo.plugin_slug (EnumResult.plugins pd)
                   = ["hello"; "akismet"]).
  { vm_compute in Hrun. injection Hrun as <- _. cbn in Hp.
    injection Hp as <-. reflexivity. }
  assert (Hvers : map PluginInfo.version (EnumResult.plugins pd)
                  = [Some "1.7"; None]).
  { vm_compute in Hrun. injection Hrun as <- _. cbn in Hp.
    injection Hp as <-. reflexivity. }
  exists results, requests. split; [reflexivity | split; [exact Hwp | ] ].
  exists pd, reports. rewrite Hs, Hvs, Hslugs, Hvers. auto.
Defined.

(** The sites of the runs fail with [RequestException] only, and the
    scan of the blog is answered with results. *)
Lemma start_scan_no_server_error_witness :
  network_failures_only Runs.blog
  /\ py_get Runs.scan_blog "target_url" PyNone
     = inr (PyStr "http://example.com/blog/?p=1")
  /\ exists results requests,
       start_scan Runs.urljoin Runs.blog Runs.no_token Runs.three_slugs
         Runs.first_seen Runs.urlparse Runs.urlunparse Runs.scan_blog
       = inr (Ok results, requests).
Proof.
  assert (Hnet : network_failures_only Runs.blog).
  { intros h q e. unfold Runs.blog, Runs.site.
    destruct (find _ _); [discriminate | ]. now intros [= <-]. }
  split; [exact Hnet | split; [reflexivity | ] ].
  apply (start_scan_no_server_error Runs.urljoin Runs.blog Runs.no_token
           Runs.three_slugs Runs.first_seen Runs.urlparse Runs.urlunparse
           Runs.scan_blog "http://example.com/blog/?p=1" Hnet).
  - reflexivity.
  - discriminate.
Defined.

(** The versions of the two runs above are numeric. *)
Lemma extracted_versions_numeric_witness :
  (exists r,
     fst (is_wordpress Runs.urljoin Runs.wp62 (tt, Runs.sc0)) = inr r
     /\ Indicators.wp_version r = Some "6.2"
     /\ numeric "6.2" = true)
  /\ (exists info,
        fst (check_plugin Runs.urljoin Runs.cf7 "contact-form-7"
               (tt, Runs.sc0)) = inr info
        /\ PluginInfo.version info = Some "5.4.2"
        /\ numeric "5.4.2" = true).
Proof.
  split.
  - destruct (fst (is_wordpress Runs.urljoin Runs.wp62 (tt, Runs.sc0)))
      as [e | r] eqn:Hr; [vm_compute in Hr; discriminate | ].
    assert (Hv : Indicators.wp_version r = Some "6.2")
      by (vm_compute in Hr; injection Hr as <-; reflexivity).
    exists r. split; [reflexivity | split; [exact Hv | ] ].
    exact (proj1 (extracted_versions_numeric Runs.urljoin Runs.wp62
                    (tt, Runs.sc0)) r "6.2" Hr Hv).
  - destruct (fst (check_plugin Runs.urljoin Runs.cf7 "contact-form-7"
                     (tt, Runs.sc0))) as [e | info] eqn:Hi;
      [vm_compute in Hi; discriminate | ].
    assert (Hv : PluginInfo.version info = Some "5.4.2")
      by (vm_compute in Hi; injection Hi as <-; reflexivity).
    exists info. split; [reflexivity | split; [exact Hv | ] ].
    exact (proj2 (extracted_versions_numeric Runs.urljoin Runs.cf7
                    (tt, Runs.sc0)) "contact-form-7" info "5.4.2" Hi Hv).
Defined.

(** A body without an address, and the scan of the blog: its first
    request is for the address cut down to the host. *)
Lemma start_scan_input_witness :
  start_scan Runs.urljoin Runs.blog Runs.no_token Runs.three_slugs
    Runs.first_seen Runs.urlparse Runs.urlunparse
    (PyDict [("scan_level", PyInt 3)])
  = inr (BadRequest, [])
  /\ Str.rstrip_slash
       (sanitized Runs.urlparse Runs.urlunparse
          (with_scheme "http://example.com/blog/?p=1"))
     = "http://example.com"
  /\ with_scheme "example.com/blog" = "https://example.com/blog"
  /\ exists answer rest,
       start_scan Runs.urljoin Runs.blog Runs.no_token Runs.three_slugs
         Runs.first_seen Runs.urlparse Runs.urlunparse Runs.scan_blog
       = inr (answer,
              mk_request GET
                (Str.rstrip_slash
                   (sanitized Runs.urlparse Runs.urlunparse
                      (with_scheme "http://example.com/blog/?p=1")))
                None :: rest)
       /\ ((exists results, answer = Ok results)
           \/ exists e, answer = ServerError e).
Proof.
  pose proof (start_scan_input Runs.urljoin Runs.blog Runs.no_token
                Runs.three_slugs Runs.first_seen Runs.urlparse
                Runs.urlunparse) as H.
  split; [ | split; [vm_compute; reflexivity
                    | split; [vm_compute; reflexivity | ] ] ].
  - apply (proj2 (H (PyDict [("scan_level", PyInt 3)])) PyNone);
      reflexivity.
  - exact (proj2 (proj2 (H Runs.scan_blog)
                   (PyStr "http://example.com/blog/?p=1") eq_refl) eq_refl).
Defined.

(** A build asked for 250 slugs plans three pages: the first gives
    three slugs, the second is empty, and the third is not asked for.
    A build asked for more slugs than a float can count sends
    nothing. *)
Lemma build_list_requests_witness :
  build_list Runs.popular Runs.ceil_quotient Runs.py_str "popular" (10 ^ 400)
  = inl (OtherError "OverflowError")
  /\ Runs.ceil_quotient 250 = inr 3%Z
  /\ option_map fst
       (match build_list Runs.popular Runs.ceil_quotient Runs.py_str
                "popular" 250 with
        | inr out => Some out
        | inl _ => None
        end)
     = Some [Runs.get (Runs.listing "1"); Runs.get (Runs.listing "2")]
  /\ exists k text,
       (k <= 3)%nat
       /\ build_list Runs.popular Runs.ceil_quotient Runs.py_str "popular" 250
          = inr (map (page_request "popular") (page_range (Z.of_nat k)), text)
       /\ ((k < 3)%nat ->
           (250 <=
            Z.of_nat
              (List.length
                 (all_plugin_slugs (gathered Runs.popular "popular" 250 3))))%Z
           \/ empty_page
                (Runs.popular
                   (map (page_request "popular")
                      (page_range (Z.of_nat (k - 1))))
                   (page_request "popular" (Z.of_nat k))) = true).
Proof.
  pose proof (build_list_requests Runs.popular Runs.ceil_quotient Runs.py_str
                "popular" (10 ^ 400)) as Hbig.
  pose proof (build_list_requests Runs.popular Runs.ceil_quotient Runs.py_str
                "popular" 250) as Hsmall.
  assert (Hq : Runs.ceil_quotient 250 = inr 3%Z) by (vm_compute; reflexivity).
  assert (Hb : Runs.ceil_quotient (10 ^ 400)
               = inl (OtherError "OverflowError"))
    by (vm_compute; reflexivity).
  rewrite Hb in Hbig. rewrite Hq in Hsmall. cbv zeta in Hsmall.
  destruct Hsmall as (k & text & Hk & Hrun & Hstop & _).
  split; [exact Hbig | split; [exact Hq | split ] ].
  - vm_compute. reflexivity.
  - exists k, text. split; [exact Hk | split; [exact Hrun | exact Hstop] ].
Defined.

(** A build asked for two slugs writes the first two of the listing,
    and the scanner reads them back. *)
Lemma build_list_round_trip_witness :
  Runs.ceil_quotient 2 = inr 1%Z
  /\ build_list Runs.popular Runs.ceil_quotient Runs.py_str "popular" 2
     = inr ([Runs.get (Runs.listing "1")],
            ("akismet" ++ Runs.nl ++ "jetpack" ++ Runs.nl)%string)
  /\ forallb clean (final_list Runs.popular "popular" 2 1) = true
  /\ load_common_plugins
       (Lines (readlines ("akismet" ++ Runs.nl ++ "jetpack" ++ Runs.nl)))
       (-1)
     = ["akismet"; "jetpack"]
  /\ load_common_plugins
       (Lines (readlines ("akismet" ++ Runs.nl ++ "jetpack" ++ Runs.nl)))
       1
     = ["akismet"].
Proof.
  assert (Hq : Runs.ceil_quotient 2 = inr 1%Z) by (vm_compute; reflexivity).
  assert (Hrun : build_list Runs.popular Runs.ceil_quotient Runs.py_str
                   "popular" 2
                 = inr ([Runs.get (Runs.listing "1")],
                        ("akismet" ++ Runs.nl ++ "jetpack" ++ Runs.nl)%string))
    by (vm_compute; reflexivity).
  assert (Hclean : forallb clean (final_list Runs.popular "popular" 2 1)
                   = true) by (vm_compute; reflexivity).
  assert (Hline : forallb one_line (final_list Runs.popular "popular" 2 1)
                  = true) by (vm_compute; reflexivity).
  destruct (build_list_round_trip Runs.popular
              (Lines (readlines
                        ("akismet" ++ Runs.nl ++ "jetpack" ++ Runs.nl)))
              Runs.ceil_quotient Runs.py_str "popular" 2 1 1
              [Runs.get (Runs.listing "1")]
              ("akismet" ++ Runs.nl ++ "jetpack" ++ Runs.nl)%string
              Hq Hrun eq_refl Hline)
    as (_ & Hback & _).
  destruct (Hback Hclean) as [Hall Hfirst].
  split; [exact Hq | split; [exact Hrun | split; [exact Hclean | split ] ] ].
  - rewrite Hall. vm_compute. reflexivity.
  - rewrite Hfirst by lia. vm_compute. reflexivity.
Defined.

(** ** Sample evaluations of the library models *)

Example search_stable_tag_1 :
  Re.search Re.stable_tag_re
    ("stable TAG:  " ++ String (ascii_of_nat 10) " 5.4.2x Stable tag: 1")
  = Some "5.4.2".
Proof. reflexivity. Qed.

Example search_stable_tag_2 :
  Re.search Re.stable_tag_re
    ("Stable tag: trunk" ++ String (ascii_of_nat 10) "Stable tag:1.2")
  = Some "1.2".
Proof. reflexivity. Qed.

Example findall_plugin_1 :
  Re.findall Re.plugin_re
    ("x/wp-content/plugins/a/b.css /wp-content/plugins//wp-content/plugins/c"
     ++ String Str.squote "d /wp-content/plugins/wp-content/plugins/e"
     ++ String Str.dquote "")
  = ["a"; "c"; "wp-content"].
Proof. reflexivity. Qed.

Example loose_parse_1 :
  LooseVersion.parse "ab1.2-x..y01"
  = [LooseVersion.CStr "ab"; LooseVersion.CInt 1; LooseVersion.CInt 2;
     LooseVersion.CStr "-"; LooseVersion.CStr "x"; LooseVersion.CStr "y";
     LooseVersion.CInt 1].
Proof. reflexivity. Qed.

Example loose_less_table :
  map (fun p => LooseVersion.less_str (fst p) (snd p))
    [("1.9", "1.10"); ("1.0", "1.0.0"); ("1.0", "1.0"); ("1.a", "1.1");
     ("a", "b"); ("1-2", "1-3"); ("1..2", "1.2"); ("01", "1"); (".", "1");
     ("1", "."); ("1.5", "2.0"); ("2.5", "2.0"); ("1.0a", "1.0");
     ("1.0", "1.0a"); ("1.0-beta", "1.0.1"); ("A", "a"); ("1", "")]
  = [inr true; inr true; inr false; inl TypeError;
     inr true; inr true; inr false; inr false; inr true;
     inr false; inr true; inr false; inr false;
     inr true; inl TypeError; inr true; inl AttributeError].
Proof. reflexivity. Qed.

(** A run of 4301 digits is no [int]: it stays a [str], which cannot
    be ordered with a number and is ordered as text with a [str]. *)
Example loose_long_run :
  LooseVersion.less_str (Chars.repeat "9" 4301) "1" = inl TypeError
  /\ LooseVersion.less_str (Chars.repeat "9" 4300) "1" = inr false
  /\ LooseVersion.less_str (Chars.repeat "9" 4301) (Chars.repeat "9" 4302)
     = inr true.
Proof. repeat split; vm_compute; reflexivity. Qed.
